(** * The oat file assistant of ART: freshness of compiled artifacts

    A shallow embedding of [OatFileAssistant] (runtime/oat_file_assistant.cc):
    the per-candidate status evaluation, the dexopt decision, the choice
    between the odex and the oat location, the hand-over of the best file and
    the regeneration through dex2oat.

    The assistant is a C++ object with lazily filled, one-shot caches, so its
    methods are embedded as computations in a state-and-abort monad over the
    record of its fields.  A failed [CHECK] aborts the process: the
    computation has no result.  The disk is part of the state; the readers of
    oat, vdex, dex and image files are collaborators that interpret it. *)

From stdpp Require Import base numbers option list strings gmap.
From Stdlib Require Import Ascii DecimalString.
From Stdlib Require DecimalPos DecimalZ.

Set Default Proof Using "Type".

(** ** Result codes *)

Inductive OatStatus :=
  | kOatCannotOpen
  | kOatDexOutOfDate
  | kOatBootImageOutOfDate
  | kOatRelocationOutOfDate
  | kOatUpToDate.

Inductive DexOptNeeded :=
  | kNoDexOptNeeded
  | kDex2OatFromScratch
  | kDex2OatForBootImage
  | kDex2OatForFilter
  | kDex2OatForRelocation.

Inductive ResultOfAttemptToUpdate :=
  | kUpdateFailed
  | kUpdateNotAttempted
  | kUpdateSucceeded.

#[global] Instance OatStatus_eq_dec : EqDecision OatStatus.
Proof. solve_decision. Defined.
#[global] Instance DexOptNeeded_eq_dec : EqDecision DexOptNeeded.
Proof. solve_decision. Defined.
#[global] Instance ResultOfAttemptToUpdate_eq_dec : EqDecision ResultOfAttemptToUpdate.
Proof. solve_decision. Defined.

(** ** Collaborators declared outside oat_file_assistant.cc *)

(** [CompilerFilter] (compiler_filter.h): the filter enumeration and its
    static predicates.  The assistant only calls them, so they are an
    interface here. *)
Class CompilerFilter := {
  Filter : Type;
  DependsOnImageChecksum : Filter → bool;
  IsAotCompilationEnabled : Filter → bool;
  DependsOnProfile : Filter → bool;
  IsAsGoodAs : Filter → Filter → bool;
  ParseCompilerFilter : string → option Filter;
  NameOfFilter : Filter → string;
}.

(** [InstructionSet] (arch/instruction_set.h). *)
Class InstructionSets := {
  InstructionSet : Type;
  isa_eqb : InstructionSet → InstructionSet → bool;
  GetInstructionSetString : InstructionSet → string;
  kRuntimeISA : InstructionSet;
}.

(** ** The disk *)

Inductive Node :=
  | Dir (mode : Z)
  | Reg (mode : Z) (data : string).

Abbreviation Disk := (gmap string Node).

(** [<sys/stat.h>] permission bits. *)
Definition S_IRUSR : Z := 256.
Definition S_IWUSR : Z := 128.
Definition S_IRWXU : Z := 448.
Definition S_IRGRP : Z := 32.
Definition S_IXGRP : Z := 8.
Definition S_IROTH : Z := 4.
Definition S_IXOTH : Z := 1.

Definition st_mode (n : Node) : Z :=
  match n with Dir m => m | Reg m _ => m end.

Definition S_ISDIR (n : Node) : bool :=
  match n with Dir _ => true | Reg _ _ => false end.

Inductive Errno := ENOENT | EACCES.

(** ** What the file readers expose *)

(** A vdex file: the header's number of dex files is the length of the
    location checksum table that follows it. *)
Record VdexFile := {
  vdex_location_checksums : list Z;
}.

Definition GetNumberOfDexFiles (v : VdexFile) : nat :=
  length (vdex_location_checksums v).

Definition GetLocationChecksum (v : VdexFile) (i : nat) : Z :=
  nth i (vdex_location_checksums v) 0%Z.

Record OatHeader := {
  IsConcurrentCopying : bool;
  GetDexFileCount : nat;
  GetImageFileLocationOatChecksum : Z;
  GetImageFileLocationOatDataBegin : Z;
  GetImagePatchDelta : Z;
}.

Record ImageHeader := {
  GetOatChecksum : Z;
  GetOatDataBegin : Z;
  GetPatchDelta : Z;
}.

Record ImageInfo := {
  location : string;
  oat_checksum : Z;
  oat_data_begin : Z;
  patch_delta : Z;
}.

Section Assistant.

Context `{CompilerFilter} `{InstructionSets}.

(** An opened oat file.  [oat_dex_files] maps a dex location to the location
    checksum of its [OatDexFile]; [GetOatDexFile] is the lookup. *)
Record OatFile := {
  GetOatHeader : OatHeader;
  GetVdexFile : VdexFile;
  GetCompilerFilter : Filter;
  IsPic : bool;
  IsExecutable : bool;
  GetLocation : string;
  oat_dex_files : gmap string Z;
}.

Definition GetOatDexFile (f : OatFile) (dex : string) : option Z :=
  oat_dex_files f !! dex.

(** The running runtime and the helpers of other translation units, as the
    assistant sees them.  Readers take the disk they read. *)
Record Runtime := {
  kUseReadBarrier : bool;
  kIsVdexEnabled : bool;
  kIsTargetBuild : bool;
  kDefaultCompilerFilterForDexLoading : Filter;
  kSpecialSharedLibrary : string;
  (* the integer values of the DexOptNeeded enumerators (oat_file_assistant.h) *)
  DexOptNeeded_value : DexOptNeeded → Z;
  (* libc and utils *)
  realpath : Disk → string → option string;
  access_W_OK : Disk → string → bool;
  GetDalvikCache : string → string;
  GetDalvikCacheFilename : string → string → option string;
  GetVdexFilename : string → string;
  (* file readers *)
  OatFile_Open : Disk → string → bool → string → option OatFile;
  VdexFile_Open : Disk → string → option VdexFile;
  GetMultiDexChecksums : Disk → string → option (list Z);
  GetMultiDexLocation : nat → string → string;
  ReadImageHeader : Disk → string → InstructionSet → option ImageHeader;
  (* Runtime::Current() *)
  IsDex2OatEnabled : bool;
  GetCompilerOptions : list string;
  GetCompilerExecutable : string;
  GetClassPathString : string;
  IsJavaDebuggable : bool;
  CurrentRuntimeFeaturesAsDex2OatArguments : list string;
  IsVerificationEnabled : bool;
  MustRelocateIfPossible : bool;
  GetImageLocation : string;
  GetBootImageSpaces : list string;
  (* the subprocess and the system calls that can fail *)
  Exec : list string → Disk → bool * Disk;
  stat_fault : Disk → string → bool;
  mkdir_ok : Disk → string → bool;
  chmod_ok : Disk → string → bool;
  CreateEmptyFile_fd : Disk → string → option Z;
  fchmod_ok : Disk → string → bool;
  FlushClose_result : Disk → string → Z;
}.

(** ** The assistant's fields *)

Inductive InfoRef := odex_ref | oat_ref.

#[global] Instance InfoRef_eq_dec : EqDecision InfoRef.
Proof. solve_decision. Defined.

Record OatFileInfo := {
  is_oat_location_ : bool;
  filename_provided_ : bool;
  filename_ : string;
  load_attempted_ : bool;
  file_ : option OatFile;
  status_attempted_ : bool;
  status_ : OatStatus;
  file_released_ : bool;
}.

Record OatFileAssistant := {
  dex_location_ : string;
  isa_ : InstructionSet;
  dex_parent_writable_ : bool;
  load_executable_ : bool;
  required_dex_checksums_attempted_ : bool;
  required_dex_checksums_found_ : bool;
  has_original_dex_files_ : bool;
  cached_required_dex_checksums_ : list Z;
  image_info_load_attempted_ : bool;
  cached_image_info_ : option ImageInfo;
  odex_ : OatFileInfo;
  oat_ : OatFileInfo;
  disk : Disk;
}.

Definition info (r : InfoRef) (a : OatFileAssistant) : OatFileInfo :=
  match r with odex_ref => odex_ a | oat_ref => oat_ a end.

Definition set_info (r : InfoRef) (i : OatFileInfo) (a : OatFileAssistant) : OatFileAssistant :=
  {| dex_location_ := dex_location_ a; isa_ := isa_ a;
     dex_parent_writable_ := dex_parent_writable_ a;
     load_executable_ := load_executable_ a;
     required_dex_checksums_attempted_ := required_dex_checksums_attempted_ a;
     required_dex_checksums_found_ := required_dex_checksums_found_ a;
     has_original_dex_files_ := has_original_dex_files_ a;
     cached_required_dex_checksums_ := cached_required_dex_checksums_ a;
     image_info_load_attempted_ := image_info_load_attempted_ a;
     cached_image_info_ := cached_image_info_ a;
     odex_ := match r with odex_ref => i | oat_ref => odex_ a end;
     oat_ := match r with odex_ref => oat_ a | oat_ref => i end;
     disk := disk a |}.

Definition set_load_executable (b : bool) (a : OatFileAssistant) : OatFileAssistant :=
  {| dex_location_ := dex_location_ a; isa_ := isa_ a;
     dex_parent_writable_ := dex_parent_writable_ a;
     load_executable_ := b;
     required_dex_checksums_attempted_ := required_dex_checksums_attempted_ a;
     required_dex_checksums_found_ := required_dex_checksums_found_ a;
     has_original_dex_files_ := has_original_dex_files_ a;
     cached_required_dex_checksums_ := cached_required_dex_checksums_ a;
     image_info_load_attempted_ := image_info_load_attempted_ a;
     cached_image_info_ := cached_image_info_ a;
     odex_ := odex_ a; oat_ := oat_ a; disk := disk a |}.

Definition set_required_dex_checksums
    (found original : bool) (cs : list Z) (a : OatFileAssistant) : OatFileAssistant :=
  {| dex_location_ := dex_location_ a; isa_ := isa_ a;
     dex_parent_writable_ := dex_parent_writable_ a;
     load_executable_ := load_executable_ a;
     required_dex_checksums_attempted_ := true;
     required_dex_checksums_found_ := found;
     has_original_dex_files_ := original;
     cached_required_dex_checksums_ := cs;
     image_info_load_attempted_ := image_info_load_attempted_ a;
     cached_image_info_ := cached_image_info_ a;
     odex_ := odex_ a; oat_ := oat_ a; disk := disk a |}.

Definition set_image_info (i : option ImageInfo) (a : OatFileAssistant) : OatFileAssistant :=
  {| dex_location_ := dex_location_ a; isa_ := isa_ a;
     dex_parent_writable_ := dex_parent_writable_ a;
     load_executable_ := load_executable_ a;
     required_dex_checksums_attempted_ := required_dex_checksums_attempted_ a;
     required_dex_checksums_found_ := required_dex_checksums_found_ a;
     has_original_dex_files_ := has_original_dex_files_ a;
     cached_required_dex_checksums_ := cached_required_dex_checksums_ a;
     image_info_load_attempted_ := true;
     cached_image_info_ := i;
     odex_ := odex_ a; oat_ := oat_ a; disk := disk a |}.

Definition set_disk (d : Disk) (a : OatFileAssistant) : OatFileAssistant :=
  {| dex_location_ := dex_location_ a; isa_ := isa_ a;
     dex_parent_writable_ := dex_parent_writable_ a;
     load_executable_ := load_executable_ a;
     required_dex_checksums_attempted_ := required_dex_checksums_attempted_ a;
     required_dex_checksums_found_ := required_dex_checksums_found_ a;
     has_original_dex_files_ := has_original_dex_files_ a;
     cached_required_dex_checksums_ := cached_required_dex_checksums_ a;
     image_info_load_attempted_ := image_info_load_attempted_ a;
     cached_image_info_ := cached_image_info_ a;
     odex_ := odex_ a; oat_ := oat_ a; disk := d |}.

(** Updates of one candidate's fields. *)
Definition with_loaded (f : option OatFile) (i : OatFileInfo) : OatFileInfo :=
  {| is_oat_location_ := is_oat_location_ i;
     filename_provided_ := filename_provided_ i; filename_ := filename_ i;
     load_attempted_ := true; file_ := f;
     status_attempted_ := status_attempted_ i; status_ := status_ i;
     file_released_ := file_released_ i |}.

Definition with_status (st : OatStatus) (i : OatFileInfo) : OatFileInfo :=
  {| is_oat_location_ := is_oat_location_ i;
     filename_provided_ := filename_provided_ i; filename_ := filename_ i;
     load_attempted_ := load_attempted_ i; file_ := file_ i;
     status_attempted_ := status_attempted_ i; status_ := st;
     file_released_ := file_released_ i |}.

Definition with_status_attempted (i : OatFileInfo) : OatFileInfo :=
  {| is_oat_location_ := is_oat_location_ i;
     filename_provided_ := filename_provided_ i; filename_ := filename_ i;
     load_attempted_ := load_attempted_ i; file_ := file_ i;
     status_attempted_ := true; status_ := status_ i;
     file_released_ := file_released_ i |}.

Definition with_reset (i : OatFileInfo) : OatFileInfo :=
  {| is_oat_location_ := is_oat_location_ i;
     filename_provided_ := filename_provided_ i; filename_ := filename_ i;
     load_attempted_ := false; file_ := None;
     status_attempted_ := false; status_ := status_ i;
     file_released_ := file_released_ i |}.

Definition with_filename (name : string) (i : OatFileInfo) : OatFileInfo :=
  {| is_oat_location_ := is_oat_location_ i;
     filename_provided_ := true; filename_ := name;
     load_attempted_ := load_attempted_ i; file_ := file_ i;
     status_attempted_ := status_attempted_ i; status_ := status_ i;
     file_released_ := file_released_ i |}.

Definition with_released (i : OatFileInfo) : OatFileInfo :=
  {| is_oat_location_ := is_oat_location_ i;
     filename_provided_ := filename_provided_ i; filename_ := filename_ i;
     load_attempted_ := load_attempted_ i; file_ := None;
     status_attempted_ := status_attempted_ i; status_ := status_ i;
     file_released_ := true |}.

(** ** The monad of the assistant's methods *)

Definition M (A : Type) : Type := OatFileAssistant → option (A * OatFileAssistant).

Definition ret {A} (x : A) : M A := λ a, Some (x, a).

Definition bind {A B} (m : M A) (k : A → M B) : M B :=
  λ a, match m a with
       | Some (x, a') => k x a'
       | None => None
       end.

Definition gets {A} (f : OatFileAssistant → A) : M A := λ a, Some (f a, a).

Definition modify (f : OatFileAssistant → OatFileAssistant) : M unit :=
  λ a, Some (tt, f a).

(** [CHECK(cond)]: a fatal assertion. *)
Definition CHECK (cond : bool) : M unit :=
  λ a, if cond then Some (tt, a) else None.

End Assistant.

Declare Scope assistant_scope.
Delimit Scope assistant_scope with assistant.
Notation "x <- m ;; k" := (bind m (λ x, k))
  (at level 100, m at next level, right associativity) : assistant_scope.
Notation "m ;;; k" := (bind m (λ _, k))
  (at level 100, right associativity) : assistant_scope.

Section Methods.

Context `{CompilerFilter} `{InstructionSets}.
Variable rt : Runtime.

Local Open Scope assistant_scope.

(** [b && e] where evaluating [e] has effects: [e] runs only if [b] holds. *)
Definition and_then (b : bool) (e : M bool) : M bool :=
  if b then e else ret false.

(** ** Lazily loaded file of a candidate *)

Definition GetFile (r : InfoRef) : M (option OatFile) :=
  i <- gets (info r) ;;
  CHECK (negb (file_released_ i)) ;;;
  if load_attempted_ i then ret (file_ i)
  else if filename_provided_ i then
    a <- gets id ;;
    let f := OatFile_Open rt (disk a) (filename_ i) (load_executable_ a) (dex_location_ a) in
    modify (set_info r (with_loaded f i)) ;;;
    ret f
  else
    modify (set_info r (with_loaded (file_ i) i)) ;;;
    ret (file_ i).

(** ** Required dex checksums *)

(** The loop over the odex file's dex files: stops at the first location the
    odex file does not know, leaving what was pushed so far. *)
Fixpoint odex_checksums_loop (odex_file : OatFile) (dex_location : string)
    (indices : list nat) (pushed : list Z) : bool * list Z :=
  match indices with
  | [] => (true, pushed)
  | i :: rest =>
      match GetOatDexFile odex_file (GetMultiDexLocation rt i dex_location) with
      | None => (false, pushed)
      | Some c => odex_checksums_loop odex_file dex_location rest (pushed ++ [c])
      end
  end.

Definition GetRequiredDexChecksums : M (option (list Z)) :=
  attempted <- gets required_dex_checksums_attempted_ ;;
  (if attempted then ret tt
   else
     a <- gets id ;;
     match GetMultiDexChecksums rt (disk a) (dex_location_ a) with
     | Some cs => modify (set_required_dex_checksums true true cs)
     | None =>
         modify (set_required_dex_checksums false false []) ;;;
         odex_file <- GetFile odex_ref ;;
         match odex_file with
         | Some f =>
             let '(found, cs) :=
               odex_checksums_loop f (dex_location_ a)
                 (seq 0 (GetDexFileCount (GetOatHeader f))) [] in
             modify (set_required_dex_checksums found false cs)
         | None => ret tt
         end
     end) ;;;
  a <- gets id ;;
  ret (if required_dex_checksums_found_ a
       then Some (cached_required_dex_checksums_ a) else None).

Definition HasOriginalDexFiles : M bool :=
  GetRequiredDexChecksums ;;;
  gets has_original_dex_files_.

Definition DexChecksumUpToDate_vdex (file : VdexFile) : M bool :=
  required_dex_checksums <- GetRequiredDexChecksums ;;
  match required_dex_checksums with
  | None => ret true
  | Some required =>
      let number_of_dex_files := GetNumberOfDexFiles file in
      if negb (length required =? number_of_dex_files) then ret false
      else ret (forallb
                  (λ i, (nth i required 0 =? GetLocationChecksum file i)%Z)
                  (seq 0 number_of_dex_files))
  end.

Definition DexChecksumUpToDate_oat (file : OatFile) : M bool :=
  required_dex_checksums <- GetRequiredDexChecksums ;;
  match required_dex_checksums with
  | None => ret true
  | Some required =>
      let number_of_dex_files := GetDexFileCount (GetOatHeader file) in
      if negb (length required =? number_of_dex_files) then ret false
      else
        dex_location <- gets dex_location_ ;;
        ret (forallb
               (λ i, match GetOatDexFile file (GetMultiDexLocation rt i dex_location) with
                     | None => false
                     | Some actual => (nth i required 0 =? actual)%Z
                     end)
               (seq 0 number_of_dex_files))
  end.

(** ** Boot image info *)

Definition GetRuntimeImageInfo (d : Disk) (isa : InstructionSet) : option ImageInfo :=
  match ReadImageHeader rt d (GetImageLocation rt) isa with
  | None => None
  | Some image_header =>
      Some {| location := GetImageLocation rt;
              oat_checksum := GetOatChecksum image_header;
              oat_data_begin := GetOatDataBegin image_header;
              patch_delta := GetPatchDelta image_header |}
  end.

Definition GetImageInfo : M (option ImageInfo) :=
  attempted <- gets image_info_load_attempted_ ;;
  (if attempted then ret tt
   else
     a <- gets id ;;
     modify (set_image_info (GetRuntimeImageInfo (disk a) (isa_ a)))) ;;;
  gets cached_image_info_.

(** ** Status of an opened oat file *)

Definition GivenOatFileStatus (file : OatFile) : M OatStatus :=
  let is_cc := IsConcurrentCopying (GetOatHeader file) in
  let kRuntimeIsCC := kUseReadBarrier rt in
  if negb (Bool.eqb is_cc kRuntimeIsCC) then ret kOatCannotOpen
  else
    checksum_ok <-
      (if kIsVdexEnabled rt then DexChecksumUpToDate_vdex (GetVdexFile file)
       else DexChecksumUpToDate_oat file) ;;
    if negb checksum_ok then ret kOatDexOutOfDate
    else
      let current_compiler_filter := GetCompilerFilter file in
      (* Verify the image checksum: [Some st] is an early return. *)
      image_gate <-
        (if DependsOnImageChecksum current_compiler_filter then
           image_info <- GetImageInfo ;;
           match image_info with
           | None =>
               has_dex <- HasOriginalDexFiles ;;
               if has_dex then ret (Some kOatBootImageOutOfDate) else ret None
           | Some image =>
               if negb (GetImageFileLocationOatChecksum (GetOatHeader file)
                        =? oat_checksum image)%Z
               then ret (Some kOatBootImageOutOfDate) else ret None
           end
         else ret None) ;;
      match image_gate with
      | Some st => ret st
      | None =>
          if IsAotCompilationEnabled current_compiler_filter then
            if negb (IsPic file) then
              image_info <- GetImageInfo ;;
              match image_info with
              | None => ret kOatRelocationOutOfDate
              | Some image =>
                  let oat_header := GetOatHeader file in
                  if negb (GetImageFileLocationOatDataBegin oat_header
                           =? oat_data_begin image)%Z
                  then ret kOatRelocationOutOfDate
                  else if negb (GetImagePatchDelta oat_header =? patch_delta image)%Z
                  then ret kOatRelocationOutOfDate
                  else ret kOatUpToDate
              end
            else ret kOatUpToDate
          else ret kOatUpToDate
      end.

(** ** A candidate: status, usability, decision *)

Definition IsOatLocation (r : InfoRef) : M bool :=
  gets (λ a, is_oat_location_ (info r a)).

Definition Filename (r : InfoRef) : M (option string) :=
  gets (λ a, if filename_provided_ (info r a)
             then Some (filename_ (info r a)) else None).

Definition set_status (r : InfoRef) (st : OatStatus) : M unit :=
  modify (λ a, set_info r (with_status st (info r a)) a).

Definition Status (r : InfoRef) : M OatStatus :=
  attempted <- gets (λ a, status_attempted_ (info r a)) ;;
  (if attempted then ret tt
   else
     modify (λ a, set_info r (with_status_attempted (info r a)) a) ;;;
     file <- GetFile r ;;
     match file with
     | None =>
         a <- gets id ;;
         let vdex_filename := GetVdexFilename rt (filename_ (info r a)) in
         match VdexFile_Open rt (disk a) vdex_filename with
         | None => set_status r kOatCannotOpen
         | Some vdex =>
             up_to_date <- DexChecksumUpToDate_vdex vdex ;;
             if up_to_date then set_status r kOatBootImageOutOfDate
             else set_status r kOatDexOutOfDate
         end
     | Some f =>
         st <- GivenOatFileStatus f ;;
         set_status r st
     end) ;;;
  gets (λ a, status_ (info r a)).

Definition IsUseable (r : InfoRef) : M bool :=
  st <- Status r ;;
  match st with
  | kOatCannotOpen | kOatDexOutOfDate | kOatBootImageOutOfDate => ret false
  | kOatRelocationOutOfDate | kOatUpToDate => ret true
  end.

Definition CompilerFilterIsOkay (r : InfoRef) (target : Filter) (profile_changed : bool)
    : M bool :=
  file <- GetFile r ;;
  match file with
  | None => ret false
  | Some f =>
      let current := GetCompilerFilter f in
      if profile_changed && DependsOnProfile current then ret false
      else ret (IsAsGoodAs current target)
  end.

Definition status_is (r : InfoRef) (st : OatStatus) : M bool :=
  s <- Status r ;; ret (bool_decide (s = st)).

Definition OatFileInfo_GetDexOptNeeded (r : InfoRef) (target : Filter)
    (profile_changed : bool) : M DexOptNeeded :=
  let compilation_desired := IsAotCompilationEnabled target in
  filter_okay <- CompilerFilterIsOkay r target profile_changed ;;
  c1 <- and_then filter_okay (status_is r kOatUpToDate) ;;
  if c1 then ret kNoDexOptNeeded
  else
    c2 <- and_then (filter_okay && negb compilation_desired)
                   (status_is r kOatRelocationOutOfDate) ;;
    if c2 then ret kNoDexOptNeeded
    else
      c3 <- and_then filter_okay (status_is r kOatRelocationOutOfDate) ;;
      if c3 then ret kDex2OatForRelocation
      else
        useable <- IsUseable r ;;
        if useable then ret kDex2OatForFilter
        else
          c5 <- status_is r kOatBootImageOutOfDate ;;
          if c5 then ret kDex2OatForBootImage
          else
            has_dex <- HasOriginalDexFiles ;;
            if has_dex then ret kDex2OatFromScratch
            else ret kNoDexOptNeeded.

Definition IsExecutable_info (r : InfoRef) : M bool :=
  file <- GetFile r ;;
  ret (match file with Some f => IsExecutable f | None => false end).

Definition Reset (r : InfoRef) : M unit :=
  modify (λ a, set_info r (with_reset (info r a)) a).

Definition Reset_filename (r : InfoRef) (filename : string) : M unit :=
  modify (λ a, set_info r (with_filename filename (info r a)) a) ;;;
  Reset r.

Definition ReleaseFile (r : InfoRef) : M (option OatFile) :=
  f <- gets (λ a, file_ (info r a)) ;;
  modify (λ a, set_info r (with_released (info r a)) a) ;;;
  ret f.

Definition ReleaseFileForUse (r : InfoRef) : M (option OatFile) :=
  up_to_date <- status_is r kOatUpToDate ;;
  if up_to_date then ReleaseFile r
  else
    needs_relocation <- status_is r kOatRelocationOutOfDate ;;
    interpretable <- and_then needs_relocation
                       (executable <- IsExecutable_info r ;; ret (negb executable)) ;;
    if interpretable then ReleaseFile r
    else
      needs_relocation' <- status_is r kOatRelocationOutOfDate ;;
      if needs_relocation' then
        modify (set_load_executable false) ;;;
        Reset r ;;;
        useable <- IsUseable r ;;
        if useable then
          executable <- IsExecutable_info r ;;
          CHECK (negb executable) ;;;
          ReleaseFile r
        else ret None
      else ret None.

(** ** The assistant *)

Definition GetBestInfo : M InfoRef :=
  writable <- gets dex_parent_writable_ ;;
  if writable then ret odex_ref
  else
    oat_useable <- IsUseable oat_ref ;;
    if oat_useable then ret oat_ref
    else
      odex_up_to_date <- status_is odex_ref kOatUpToDate ;;
      if odex_up_to_date then ret odex_ref
      else
        has_dex <- HasOriginalDexFiles ;;
        if has_dex then ret oat_ref
        else
          odex_missing <- status_is odex_ref kOatCannotOpen ;;
          ret (if odex_missing then oat_ref else odex_ref).

Definition GetDexOptNeeded (target : Filter) (profile_changed : bool) : M Z :=
  r <- GetBestInfo ;;
  dexopt_needed <- OatFileInfo_GetDexOptNeeded r target profile_changed ;;
  is_oat <- IsOatLocation r ;;
  if is_oat || bool_decide (dexopt_needed = kDex2OatFromScratch)
  then ret (DexOptNeeded_value rt dexopt_needed)
  else ret (- DexOptNeeded_value rt dexopt_needed)%Z.

Definition IsUpToDate : M bool :=
  r <- GetBestInfo ;;
  status_is r kOatUpToDate.

Definition OdexFileStatus : M OatStatus := Status odex_ref.
Definition OatFileStatus : M OatStatus := Status oat_ref.

Definition GetBestOatFile : M (option OatFile) :=
  r <- GetBestInfo ;;
  ReleaseFileForUse r.

End Methods.

(** ** Strings as [std::string] *)

(** [s.rfind(c)]: the last position of [c], [None] for [npos]. *)
Fixpoint rfind_from (c : Ascii.ascii) (s : string) (pos : nat) : option nat :=
  match s with
  | EmptyString => None
  | String x rest =>
      match rfind_from c rest (S pos) with
      | Some p => Some p
      | None => if Ascii.eqb x c then Some pos else None
      end
  end.

Definition rfind (c : Ascii.ascii) (s : string) : option nat := rfind_from c s 0.

(** [s.substr(pos, n)] and [s.substr(pos)]. *)
Definition substr (s : string) (pos n : nat) : string := String.substring pos n s.
Definition substr_from (s : string) (pos : nat) : string :=
  String.substring pos (String.length s - pos) s.

Definition starts_with (s p : string) : bool := String.prefix p s.

Definition empty (s : string) : bool :=
  match s with EmptyString => true | _ => false end.

(** [std::to_string] on a file descriptor. *)
Definition to_string (n : Z) : string := NilZero.string_of_int (Z.to_int n).

Section Regeneration.

Context `{CompilerFilter} `{InstructionSets}.
Variable rt : Runtime.

Local Open Scope assistant_scope.

(** ** File names *)

Record OdexNames := {
  odex_filename : string;
  oat_dir : string;
  isa_dir : string;
}.

Definition DexLocationToOdexNames (location : string) (isa : InstructionSet)
    : option OdexNames :=
  match rfind "/"%char location with
  | None => None
  | Some pos =>
      let dir := substr location 0 (pos + 1) in
      let dir := dir +:+ "oat" in
      let the_oat_dir := dir in
      let dir := dir +:+ "/" +:+ GetInstructionSetString isa in
      let the_isa_dir := dir in
      let file := substr_from location (pos + 1) in
      match rfind "."%char file with
      | None => None
      | Some pos' =>
          let base := substr file 0 pos' in
          Some {| odex_filename := dir +:+ "/" +:+ base +:+ ".odex";
                  oat_dir := the_oat_dir;
                  isa_dir := the_isa_dir |}
      end
  end.

Definition DexLocationToOdexFilename (location : string) (isa : InstructionSet)
    : option string :=
  odex_filename <$> DexLocationToOdexNames location isa.

Definition DexLocationToOatFilename (location : string) (isa : InstructionSet)
    : option string :=
  let cache_dir := GetDalvikCache rt (GetInstructionSetString isa) in
  if empty cache_dir then None
  else GetDalvikCacheFilename rt location cache_dir.

(** ** System calls on the disk *)

Definition sys_stat (path : string) : M (Node + Errno) :=
  d <- gets disk ;;
  ret (if stat_fault rt d path then inr EACCES
       else match d !! path with
            | Some n => inl n
            | None => inr ENOENT
            end).

Definition sys_mkdir (path : string) (mode : Z) : M bool :=
  d <- gets disk ;;
  match d !! path with
  | Some _ => ret false
  | None =>
      if mkdir_ok rt d path
      then modify (set_disk (<[path := Dir mode]> d)) ;;; ret true
      else ret false
  end.

Definition with_mode (mode : Z) (n : Node) : Node :=
  match n with Dir _ => Dir mode | Reg _ data => Reg mode data end.

Definition sys_chmod (path : string) (mode : Z) : M bool :=
  d <- gets disk ;;
  match d !! path with
  | None => ret false
  | Some n =>
      if chmod_ok rt d path
      then modify (set_disk (<[path := with_mode mode n]> d)) ;;; ret true
      else ret false
  end.

(** [unlink]: the assistant never looks at its result; the name is gone. *)
Definition sys_unlink (path : string) : M unit :=
  modify (λ a, set_disk (delete path (disk a)) a).

(** ** Output files ([File] of base/unix_file/fd_file.h) *)

Record File := {
  Fd : Z;
  GetPath : string;
}.

(** [OS::CreateEmptyFile]: creates or truncates the file; null on failure. *)
Definition CreateEmptyFile (name : string) : M (option File) :=
  d <- gets disk ;;
  match CreateEmptyFile_fd rt d name with
  | None => ret None
  | Some fd =>
      let mode := match d !! name with
                  | Some n => st_mode n
                  | None => Z.lor (Z.lor S_IRUSR S_IWUSR) (Z.lor S_IRGRP S_IROTH)
                  end in
      modify (set_disk (<[name := Reg mode ""]> d)) ;;;
      ret (Some {| Fd := fd; GetPath := name |})
  end.

Definition sys_fchmod (f : File) (mode : Z) : M bool :=
  d <- gets disk ;;
  match d !! GetPath f with
  | None => ret false
  | Some n =>
      if fchmod_ok rt d (GetPath f)
      then modify (set_disk (<[GetPath f := with_mode mode n]> d)) ;;; ret true
      else ret false
  end.

(** [File::Erase]: truncates to length zero and closes; the name stays. *)
Definition Erase (f : File) : M unit :=
  d <- gets disk ;;
  match d !! GetPath f with
  | Some (Reg mode _) => modify (set_disk (<[GetPath f := Reg mode ""]> d))
  | _ => ret tt
  end.

(** [File::FlushCloseOrErase]: zero on success; on failure the file is
    erased and the error code returned. *)
Definition FlushCloseOrErase (f : File) : M Z :=
  d <- gets disk ;;
  let result := FlushClose_result rt d (GetPath f) in
  if (result =? 0)%Z then ret 0%Z
  else Erase f ;;; ret result.

(** ** Directories of the odex location *)

Definition PrepareDirectory (dir : string) : M bool :=
  dir_stat <- sys_stat dir ;;
  match dir_stat with
  | inl n => ret (S_ISDIR n)
  | inr ENOENT =>
      let mode := Z.lor (Z.lor S_IRWXU S_IXGRP) S_IXOTH in
      created <- sys_mkdir dir mode ;;
      if negb created then ret false
      else sys_chmod dir mode
  | inr _ => ret false
  end.

(** The [DCHECK_EQ] on the expected odex location is a debug-build check. *)
Definition PrepareOdexDirectories (dex_location expected_odex_location : string)
    (isa : InstructionSet) : M bool :=
  match DexLocationToOdexNames dex_location isa with
  | None => ret false
  | Some names =>
      ok <- PrepareDirectory (oat_dir names) ;;
      if negb ok then ret false
      else PrepareDirectory (isa_dir names)
  end.

(** ** dex2oat *)

Definition ImageLocation : string :=
  match GetBootImageSpaces rt with
  | [] => ""
  | image_location :: _ => image_location
  end.

Definition Dex2Oat (args : list string) : M bool :=
  let image_location := ImageLocation in
  if empty image_location then ret false
  else
    let class_path :=
      if empty (GetClassPathString rt) then kSpecialSharedLibrary rt
      else GetClassPathString rt in
    let argv :=
      [GetCompilerExecutable rt; "--runtime-arg"; "-classpath"; "--runtime-arg"; class_path]
      ++ (if IsJavaDebuggable rt then ["--debuggable"] else [])
      ++ CurrentRuntimeFeaturesAsDex2OatArguments rt
      ++ (if negb (IsVerificationEnabled rt) then ["--compiler-filter=verify-none"] else [])
      ++ (if MustRelocateIfPossible rt then ["--runtime-arg"; "-Xrelocate"]
          else ["--runtime-arg"; "-Xnorelocate"])
      ++ (if negb (kIsTargetBuild rt) then ["--host"] else [])
      ++ ["--boot-image=" +:+ image_location]
      ++ GetCompilerOptions rt
      ++ args in
    d <- gets disk ;;
    let '(ok, d') := Exec rt argv d in
    modify (set_disk d') ;;;
    ret ok.

Definition GenerateOatFileNoChecks (r : InfoRef) (filter : Filter)
    : M ResultOfAttemptToUpdate :=
  if negb (IsDex2OatEnabled rt) then ret kUpdateNotAttempted
  else
    filename <- Filename r ;;
    match filename with
    | None => ret kUpdateNotAttempted
    | Some oat_file_name =>
        let vdex_file_name := GetVdexFilename rt oat_file_name in
        dex_location <- gets dex_location_ ;;
        isa <- gets isa_ ;;
        stat_result <- sys_stat dex_location ;;
        match stat_result with
        | inr _ => ret kUpdateNotAttempted
        | inl dex_path_stat =>
            is_oat <- IsOatLocation r ;;
            prepared <-
              (if negb is_oat
               then PrepareOdexDirectories dex_location oat_file_name isa
               else ret true) ;;
            if negb prepared then ret kUpdateNotAttempted
            else
              let file_mode :=
                Z.lor (Z.lor (Z.lor S_IRUSR S_IWUSR)
                             (Z.land (st_mode dex_path_stat) S_IRGRP))
                      (Z.land (st_mode dex_path_stat) S_IROTH) in
              vdex_created <- CreateEmptyFile vdex_file_name ;;
              match vdex_created with
              | None => ret kUpdateNotAttempted
              | Some vdex_file =>
                  vdex_mode_set <- sys_fchmod vdex_file file_mode ;;
                  if negb vdex_mode_set then ret kUpdateNotAttempted
                  else
                    oat_created <- CreateEmptyFile oat_file_name ;;
                    match oat_created with
                    | None => ret kUpdateNotAttempted
                    | Some oat_file =>
                        oat_mode_set <- sys_fchmod oat_file file_mode ;;
                        if negb oat_mode_set then
                          Erase oat_file ;;; ret kUpdateNotAttempted
                        else
                          let args :=
                            ["--dex-file=" +:+ dex_location;
                             "--output-vdex-fd=" +:+ to_string (Fd vdex_file);
                             "--oat-fd=" +:+ to_string (Fd oat_file);
                             "--oat-location=" +:+ oat_file_name;
                             "--compiler-filter=" +:+ NameOfFilter filter] in
                          compiled <- Dex2Oat args ;;
                          if negb compiled then
                            Erase vdex_file ;;;
                            sys_unlink vdex_file_name ;;;
                            Erase oat_file ;;;
                            sys_unlink oat_file_name ;;;
                            ret kUpdateFailed
                          else
                            vdex_closed <- FlushCloseOrErase vdex_file ;;
                            if negb (vdex_closed =? 0)%Z then
                              sys_unlink vdex_file_name ;;;
                              ret kUpdateFailed
                            else
                              oat_closed <- FlushCloseOrErase oat_file ;;
                              if negb (oat_closed =? 0)%Z then
                                sys_unlink oat_file_name ;;;
                                ret kUpdateFailed
                              else
                                Reset r ;;;
                                ret kUpdateSucceeded
                    end
              end
        end
    end.

(** ** Making the best candidate up to date *)

Fixpoint compiler_filter_options (options : list string) (filter : Filter)
    : option Filter :=
  match options with
  | [] => Some filter
  | option :: rest =>
      if starts_with option "--compiler-filter=" then
        let compiler_filter_string :=
          substr_from option (String.length "--compiler-filter=") in
        match ParseCompilerFilter compiler_filter_string with
        | None => None
        | Some parsed => compiler_filter_options rest parsed
        end
      else compiler_filter_options rest filter
  end.

Definition GetRuntimeCompilerFilterOption : option Filter :=
  compiler_filter_options (GetCompilerOptions rt)
    (kDefaultCompilerFilterForDexLoading rt).

Definition MakeUpToDate (profile_changed : bool) : M ResultOfAttemptToUpdate :=
  match GetRuntimeCompilerFilterOption with
  | None => ret kUpdateNotAttempted
  | Some target =>
      r <- GetBestInfo rt ;;
      dexopt_needed <- OatFileInfo_GetDexOptNeeded rt r target profile_changed ;;
      match dexopt_needed with
      | kNoDexOptNeeded => ret kUpdateSucceeded
      | kDex2OatFromScratch
      | kDex2OatForBootImage
      | kDex2OatForRelocation
      | kDex2OatForFilter => GenerateOatFileNoChecks r target
      end
  end.

(** ** Construction *)

Definition new_OatFileInfo (is_oat_location : bool) : OatFileInfo :=
  {| is_oat_location_ := is_oat_location;
     filename_provided_ := false; filename_ := "";
     load_attempted_ := false; file_ := None;
     status_attempted_ := false; status_ := kOatCannotOpen;
     file_released_ := false |}.

Definition reset_to (name : option string) (i : OatFileInfo) : OatFileInfo :=
  match name with
  | Some n => with_reset (with_filename n i)
  | None => i
  end.

Definition new_OatFileAssistant (d : Disk) (dex_location : string)
    (isa : InstructionSet) (load_executable : bool) : OatFileAssistant :=
  let unresolved :=
    {| dex_location_ := ""; isa_ := isa;
       dex_parent_writable_ := false;
       load_executable_ := load_executable;
       required_dex_checksums_attempted_ := false;
       required_dex_checksums_found_ := false;
       has_original_dex_files_ := false;
       cached_required_dex_checksums_ := [];
       image_info_load_attempted_ := false;
       cached_image_info_ := None;
       odex_ := new_OatFileInfo false;
       oat_ := new_OatFileInfo true;
       disk := d |} in
  match realpath rt d dex_location with
  | None => unresolved
  | Some dex_location_real =>
      {| dex_location_ := dex_location_real; isa_ := isa;
         dex_parent_writable_ :=
           match rfind "/"%char dex_location_real with
           | None => false
           | Some pos => access_W_OK rt d (substr dex_location_real 0 pos)
           end;
         load_executable_ :=
           if load_executable && negb (isa_eqb isa kRuntimeISA) then false
           else load_executable;
         required_dex_checksums_attempted_ := false;
         required_dex_checksums_found_ := false;
         has_original_dex_files_ := false;
         cached_required_dex_checksums_ := [];
         image_info_load_attempted_ := false;
         cached_image_info_ := None;
         odex_ := reset_to (DexLocationToOdexFilename dex_location_real isa)
                    (new_OatFileInfo false);
         oat_ := reset_to (DexLocationToOatFilename dex_location_real isa)
                   (new_OatFileInfo true);
         disk := d |}
  end.

End Regeneration.

(** ** What the lazy caches denote

    Every cache of the assistant is filled at most once, with a value that is
    determined by the state before the fill.  The functions below give that
    value without running anything. *)

Section Denotation.

Context `{CompilerFilter} `{InstructionSets}.
Variable rt : Runtime.

Definition file_of (r : InfoRef) (a : OatFileAssistant) : option OatFile :=
  let i := info r a in
  if load_attempted_ i then file_ i
  else if filename_provided_ i
       then OatFile_Open rt (disk a) (filename_ i) (load_executable_ a) (dex_location_ a)
       else file_ i.

(** (found, has original dex files, checksums) *)
Definition required_of (a : OatFileAssistant) : bool * bool * list Z :=
  if required_dex_checksums_attempted_ a
  then (required_dex_checksums_found_ a, has_original_dex_files_ a,
        cached_required_dex_checksums_ a)
  else match GetMultiDexChecksums rt (disk a) (dex_location_ a) with
       | Some cs => (true, true, cs)
       | None =>
           match file_of odex_ref a with
           | Some f =>
               let '(found, cs) :=
                 odex_checksums_loop rt f (dex_location_ a)
                   (seq 0 (GetDexFileCount (GetOatHeader f))) [] in
               (found, false, cs)
           | None => (false, false, [])
           end
       end.

Definition required_checksums_of (a : OatFileAssistant) : option (list Z) :=
  let '(found, _, cs) := required_of a in
  if found then Some cs else None.

Definition has_original_of (a : OatFileAssistant) : bool :=
  let '(_, original, _) := required_of a in original.

Definition image_of (a : OatFileAssistant) : option ImageInfo :=
  if image_info_load_attempted_ a then cached_image_info_ a
  else GetRuntimeImageInfo rt (disk a) (isa_ a).

(** The checksum comparisons as functions of the required checksums. *)
Definition vdex_checksums_ok (required : option (list Z)) (file : VdexFile) : bool :=
  match required with
  | None => true
  | Some req =>
      if negb (length req =? GetNumberOfDexFiles file) then false
      else forallb (λ i, (nth i req 0 =? GetLocationChecksum file i)%Z)
             (seq 0 (GetNumberOfDexFiles file))
  end.

Definition oat_checksums_ok (required : option (list Z)) (dex_location : string)
    (file : OatFile) : bool :=
  match required with
  | None => true
  | Some req =>
      if negb (length req =? GetDexFileCount (GetOatHeader file)) then false
      else forallb
             (λ i, match GetOatDexFile file (GetMultiDexLocation rt i dex_location) with
                   | None => false
                   | Some actual => (nth i req 0 =? actual)%Z
                   end)
             (seq 0 (GetDexFileCount (GetOatHeader file)))
  end.

Definition checksums_ok (required : option (list Z)) (dex_location : string)
    (file : OatFile) : bool :=
  if kIsVdexEnabled rt then vdex_checksums_ok required (GetVdexFile file)
  else oat_checksums_ok required dex_location file.

(** The relocation gate and what follows it. *)
Definition relocation_status (file : OatFile) (image : option ImageInfo) : OatStatus :=
  if IsAotCompilationEnabled (GetCompilerFilter file) && negb (IsPic file) then
    match image with
    | None => kOatRelocationOutOfDate
    | Some im =>
        if (GetImageFileLocationOatDataBegin (GetOatHeader file) =? oat_data_begin im)%Z
           && (GetImagePatchDelta (GetOatHeader file) =? patch_delta im)%Z
        then kOatUpToDate else kOatRelocationOutOfDate
    end
  else kOatUpToDate.

(** Does the boot image gate end the evaluation with kOatBootImageOutOfDate? *)
Definition image_gate_rejects (file : OatFile) (has_original : bool)
    (image : option ImageInfo) : bool :=
  DependsOnImageChecksum (GetCompilerFilter file) &&
  match image with
  | None => has_original
  | Some im =>
      negb (GetImageFileLocationOatChecksum (GetOatHeader file) =? oat_checksum im)%Z
  end.

Definition given_status (file : OatFile) (required : option (list Z))
    (has_original : bool) (image : option ImageInfo) (dex_location : string)
    : OatStatus :=
  if negb (Bool.eqb (IsConcurrentCopying (GetOatHeader file)) (kUseReadBarrier rt))
  then kOatCannotOpen
  else if negb (checksums_ok required dex_location file) then kOatDexOutOfDate
  else if image_gate_rejects file has_original image then kOatBootImageOutOfDate
  else relocation_status file image.

Definition vdex_only_status (required : option (list Z)) (vdex : option VdexFile)
    : OatStatus :=
  match vdex with
  | None => kOatCannotOpen
  | Some v =>
      if vdex_checksums_ok required v then kOatBootImageOutOfDate
      else kOatDexOutOfDate
  end.

(** The view of an assistant: everything its queries can tell. *)
Definition both {A} (f : InfoRef → A) : A * A := (f odex_ref, f oat_ref).

Definition pick {A} (r : InfoRef) (p : A * A) : A :=
  match r with odex_ref => fst p | oat_ref => snd p end.

(** What the queries below the status can tell. *)
Record BaseView := {
  v_writable : bool;
  v_load_executable : bool;
  v_dex_location : string;
  v_disk : Disk;
  v_is_oat : bool * bool;
  v_released : bool * bool;
  v_filename : (bool * string) * (bool * string);
  v_file : option OatFile * option OatFile;
  v_required : option (list Z);
  v_has_original : bool;
  v_image : option ImageInfo;
}.

Definition base_view (a : OatFileAssistant) : BaseView :=
  {| v_writable := dex_parent_writable_ a;
     v_load_executable := load_executable_ a;
     v_dex_location := dex_location_ a;
     v_disk := disk a;
     v_is_oat := both (λ r, is_oat_location_ (info r a));
     v_released := both (λ r, file_released_ (info r a));
     v_filename := both (λ r, (filename_provided_ (info r a), filename_ (info r a)));
     v_file := both (λ r, file_of r a);
     v_required := required_checksums_of a;
     v_has_original := has_original_of a;
     v_image := image_of a |}.

(** The status a candidate gets when it is evaluated. *)
Definition fresh_status (r : InfoRef) (v : BaseView) : OatStatus :=
  match pick r (v_file v) with
  | Some f =>
      given_status f (v_required v) (v_has_original v) (v_image v) (v_dex_location v)
  | None =>
      vdex_only_status (v_required v)
        (VdexFile_Open rt (v_disk v) (GetVdexFilename rt (pick r (v_filename v)).2))
  end.

Definition status_of (r : InfoRef) (a : OatFileAssistant) : OatStatus :=
  if status_attempted_ (info r a) then status_ (info r a)
  else fresh_status r (base_view a).

Record View := {
  v_base : BaseView;
  v_status : OatStatus * OatStatus;
}.

Definition view (a : OatFileAssistant) : View :=
  {| v_base := base_view a;
     v_status := both (λ r, status_of r a) |}.

(** No candidate's file has been handed over: [GetFile] will not abort. *)
Definition live (a : OatFileAssistant) : Prop :=
  file_released_ (odex_ a) = false ∧ file_released_ (oat_ a) = false.

(** A candidate whose status is known has had its file loaded: [Status]
    loads the file before it sets the status. *)
Definition settled (a : OatFileAssistant) : Prop :=
  ∀ r, status_attempted_ (info r a) = true → load_attempted_ (info r a) = true.

(** From [a] to [a']: caches were filled, nothing a query tells changed. *)
Record calm (a a' : OatFileAssistant) : Prop := {
  calm_view : view a' = view a;
  calm_loaded : ∀ r, load_attempted_ (info r a) = true →
                     load_attempted_ (info r a') = true;
  calm_status : ∀ r, status_attempted_ (info r a) = true →
                     status_attempted_ (info r a') = true;
  calm_settled : settled a → settled a';
}.

(** The same, and no status was touched. *)
Record quiet (a a' : OatFileAssistant) : Prop := {
  quiet_view : view a' = view a;
  quiet_loaded : ∀ r, load_attempted_ (info r a) = true →
                      load_attempted_ (info r a') = true;
  quiet_attempted : ∀ r, status_attempted_ (info r a') = status_attempted_ (info r a);
  quiet_status : ∀ r, status_ (info r a') = status_ (info r a);
}.

(** A query returns a function of the view and fills caches at most; a base
    query returns a function of the base view and touches no status. *)
Definition query {A} (m : M A) (f : View → A) : Prop :=
  ∀ a, live a → ∃ a', m a = Some (f (view a), a') ∧ calm a a'.

Definition base_query {A} (m : M A) (f : BaseView → A) : Prop :=
  ∀ a, live a → ∃ a', m a = Some (f (base_view a), a') ∧ quiet a a'.

End Denotation.

(** ** The behaviour the specification describes *)

(** What a method returns, the final state dropped; [None] if it aborts. *)
Definition result `{CompilerFilter} `{InstructionSets} {A} (m : M A)
    (a : OatFileAssistant) : option A :=
  fst <$> m a.

(** What a path names on the disk a method leaves behind. *)
Definition disk_after `{CompilerFilter} `{InstructionSets} {A} (m : M A)
    (a : OatFileAssistant) (path : string) : option (option Node) :=
  (λ x, disk x.2 !! path) <$> m a.

Section Specification.

Context `{CompilerFilter} `{InstructionSets}.
Variable rt : Runtime.

(** "Usable" statuses. *)
Definition usable (st : OatStatus) : bool :=
  match st with
  | kOatRelocationOutOfDate | kOatUpToDate => true
  | kOatCannotOpen | kOatDexOutOfDate | kOatBootImageOutOfDate => false
  end.

(** The candidate's per-unit checksum list: the vdex table, or without vdex
    the checksums of the oat dex files found under the multidex names. *)
Definition candidate_checksums (dex_location : string) (file : OatFile)
    : list (option Z) :=
  if kIsVdexEnabled rt then Some <$> vdex_location_checksums (GetVdexFile file)
  else (λ i, GetOatDexFile file (GetMultiDexLocation rt i dex_location))
         <$> seq 0 (GetDexFileCount (GetOatHeader file)).

(** Different counts, or a difference at some index. *)
Definition checksum_lists_differ (required : list Z) (candidate : list (option Z))
    : Prop :=
  length candidate ≠ length required ∨
  ∃ i e, required !! i = Some e ∧ candidate !! i ≠ Some (Some e).

(** "Filter-ok": the candidate's filter is as good as the target, and not
    (profile changed and the candidate's filter depends on the profile).  A
    candidate without an opened file has no filter to be okay. *)
Definition filter_is_okay (file : option OatFile) (target : Filter)
    (profile_changed : bool) : bool :=
  match file with
  | Some f =>
      IsAsGoodAs (GetCompilerFilter f) target
      && negb (profile_changed && DependsOnProfile (GetCompilerFilter f))
  | None => false
  end.

(** The regeneration decision: first match wins. *)
Definition dexopt_decision (filter_ok target_wants_code : bool) (st : OatStatus)
    (has_dex : bool) : DexOptNeeded :=
  if filter_ok && bool_decide (st = kOatUpToDate) then kNoDexOptNeeded
  else if filter_ok && negb target_wants_code
          && bool_decide (st = kOatRelocationOutOfDate) then kNoDexOptNeeded
  else if filter_ok && bool_decide (st = kOatRelocationOutOfDate)
       then kDex2OatForRelocation
  else if usable st then kDex2OatForFilter
  else if bool_decide (st = kOatBootImageOutOfDate) then kDex2OatForBootImage
  else if has_dex then kDex2OatFromScratch
  else kNoDexOptNeeded.

(** The selection policy between the co-located and the cache candidate. *)
Definition best_info_policy (writable : bool) (odex_status oat_status : OatStatus)
    (has_dex : bool) : InfoRef :=
  if writable then odex_ref
  else if usable oat_status then oat_ref
  else if bool_decide (odex_status = kOatUpToDate) then odex_ref
  else if has_dex then oat_ref
  else if bool_decide (odex_status = kOatCannotOpen) then oat_ref
  else odex_ref.

(** The public dexopt code: the decision's value, negated for the odex
    location unless the decision is to compile from scratch. *)
Definition public_dexopt_code (is_oat_location : bool) (d : DexOptNeeded) : Z :=
  if is_oat_location || bool_decide (d = kDex2OatFromScratch)
  then DexOptNeeded_value rt d
  else (- DexOptNeeded_value rt d)%Z.

(** The state in which [ReleaseFileForUse] reloads a candidate: executable
    loading switched off, the candidate reset. *)
Definition reloaded (r : InfoRef) (a : OatFileAssistant) : OatFileAssistant :=
  let a' := set_load_executable false a in
  set_info r (with_reset (info r a')) a'.

(** Whether a candidate's file, if any, is loaded for execution. *)
Definition is_executable (file : option OatFile) : bool :=
  match file with
  | Some f => IsExecutable f
  | None => false
  end.

(** [OatFile::Open] opens a file for execution only when asked to. *)
Definition opens_as_requested : Prop :=
  ∀ d name dex_location f,
    OatFile_Open rt d name false dex_location = Some f → IsExecutable f = false.

End Specification.

(** ** A concrete runtime for evaluation

    Three compiler filters, one instruction set, and a runtime whose readers
    answer from tables, for the files that exist on the disk. *)

Module Fixture.

Inductive TestFilter := verify_none | speed_profile | speed.

Definition level (f : TestFilter) : nat :=
  match f with verify_none => 0 | speed_profile => 1 | speed => 2 end.

Definition filters : CompilerFilter :=
  {| Filter := TestFilter;
     DependsOnImageChecksum f := match f with verify_none => false | _ => true end;
     IsAotCompilationEnabled f := match f with verify_none => false | _ => true end;
     DependsOnProfile f := match f with speed_profile => true | _ => false end;
     IsAsGoodAs current target := level target <=? level current;
     ParseCompilerFilter s :=
       if String.eqb s "verify-none" then Some verify_none
       else if String.eqb s "speed-profile" then Some speed_profile
       else if String.eqb s "speed" then Some speed
       else None;
     NameOfFilter f :=
       match f with
       | verify_none => "verify-none"
       | speed_profile => "speed-profile"
       | speed => "speed"
       end |}.

Definition isas : InstructionSets :=
  {| InstructionSet := unit;
     isa_eqb _ _ := true;
     GetInstructionSetString _ := "arm";
     kRuntimeISA := tt |}.

#[local] Existing Instance filters.
#[local] Existing Instance isas.

Definition replace_extension (name ext : string) : string :=
  match rfind "."%char name with
  | Some pos => substr name 0 pos +:+ "." +:+ ext
  | None => name +:+ "." +:+ ext
  end.

Record Scenario := {
  sc_dex_checksums : option (list Z);
  sc_oat_files : gmap string OatFile;
  sc_vdex_files : gmap string VdexFile;
  sc_image : option ImageHeader;
  sc_parent_writable : bool;
  sc_options : list string;
  sc_exec_ok : bool;
  sc_close : string → Z;
}.

Definition is_regular (d : Disk) (name : string) : bool :=
  match d !! name with Some (Reg _ _) => true | _ => false end.

Definition opened (executable : bool) (f : OatFile) : OatFile :=
  {| GetOatHeader := GetOatHeader f; GetVdexFile := GetVdexFile f;
     GetCompilerFilter := GetCompilerFilter f; IsPic := IsPic f;
     IsExecutable := executable; GetLocation := GetLocation f;
     oat_dex_files := oat_dex_files f |}.

Definition runtime (value : DexOptNeeded → Z) (sc : Scenario) : Runtime :=
  {| kUseReadBarrier := true;
     kIsVdexEnabled := true;
     kIsTargetBuild := true;
     kDefaultCompilerFilterForDexLoading := speed;
     kSpecialSharedLibrary := "&";
     DexOptNeeded_value := value;
     realpath d name := if is_regular d name then Some name else None;
     access_W_OK _ _ := sc_parent_writable sc;
     GetDalvikCache isa := "/data/dalvik-cache/" +:+ isa;
     GetDalvikCacheFilename _ cache_dir :=
       Some (cache_dir +:+ "/data@app@base.apk@classes.dex");
     GetVdexFilename name := replace_extension name "vdex";
     OatFile_Open d name executable _ :=
       if is_regular d name then opened executable <$> sc_oat_files sc !! name
       else None;
     VdexFile_Open d name :=
       if is_regular d name then sc_vdex_files sc !! name else None;
     GetMultiDexChecksums d name :=
       if is_regular d name then sc_dex_checksums sc else None;
     GetMultiDexLocation i name :=
       match i with
       | 0 => name
       | _ => name +:+ ":classes" +:+ to_string (Z.of_nat (S i)) +:+ ".dex"
       end;
     ReadImageHeader _ _ _ := sc_image sc;
     IsDex2OatEnabled := true;
     GetCompilerOptions := sc_options sc;
     GetCompilerExecutable := "/system/bin/dex2oat";
     GetClassPathString := "";
     IsJavaDebuggable := false;
     CurrentRuntimeFeaturesAsDex2OatArguments := [];
     IsVerificationEnabled := true;
     MustRelocateIfPossible := true;
     GetImageLocation := "/system/framework/boot.art";
     GetBootImageSpaces := ["/system/framework/boot.art"];
     Exec _ d := (sc_exec_ok sc, d);
     stat_fault _ _ := false;
     mkdir_ok _ _ := true;
     chmod_ok _ _ := true;
     CreateEmptyFile_fd _ name := Some 7%Z;
     fchmod_ok _ _ := true;
     FlushClose_result _ name := sc_close sc name |}.

(** The enumerators numbered in their order of declaration. *)
Definition ordinal (d : DexOptNeeded) : Z :=
  match d with
  | kNoDexOptNeeded => 0
  | kDex2OatFromScratch => 1
  | kDex2OatForBootImage => 2
  | kDex2OatForFilter => 3
  | kDex2OatForRelocation => 4
  end.

Definition dex : string := "/data/app/base.apk".
Definition odex : string := "/data/app/oat/arm/base.odex".
Definition odex_vdex : string := "/data/app/oat/arm/base.vdex".
Definition oat : string := "/data/dalvik-cache/arm/data@app@base.apk@classes.dex".
Definition oat_vdex : string := "/data/dalvik-cache/arm/data@app@base.apk@classes.vdex".

Definition image : ImageHeader :=
  {| GetOatChecksum := 77; GetOatDataBegin := 4096; GetPatchDelta := 0 |}.

(** A compiled file for one dex file with the given checksum, compiled with
    [filter] against a boot image with checksum [image_checksum]. *)
Definition compiled (name : string) (checksum : Z) (filter : TestFilter)
    (image_checksum : Z) : OatFile :=
  {| GetOatHeader :=
       {| IsConcurrentCopying := true; GetDexFileCount := 1;
          GetImageFileLocationOatChecksum := image_checksum;
          GetImageFileLocationOatDataBegin := 4096;
          GetImagePatchDelta := 0 |};
     GetVdexFile := {| vdex_location_checksums := [checksum] |};
     GetCompilerFilter := filter;
     IsPic := false;
     IsExecutable := false;
     GetLocation := name;
     oat_dex_files := {[ dex := checksum ]} |}.

Definition source_only : Disk :=
  {[ dex := Reg 420 "dex"; "/data/app" := Dir 493 ]}.

Definition with_odex (d : Disk) : Disk :=
  <[ odex := Reg 420 "oat" ]>
    (<[ odex_vdex := Reg 420 "vdex" ]>
       (<[ "/data/app/oat" := Dir 457 ]> (<[ "/data/app/oat/arm" := Dir 457 ]> d))).

(** The scenario of the specification: one source unit with checksum
    [0xABCD], an odex file for it compiled with [filter]. *)
Definition sc_odex (filter : TestFilter) (image_checksum : Z) (writable : bool)
    (source : option (list Z)) (exec_ok : bool) : Scenario :=
  {| sc_dex_checksums := source;
     sc_oat_files := {[ odex := compiled odex 43981 filter image_checksum ]};
     sc_vdex_files := {[ odex_vdex := {| vdex_location_checksums := [43981%Z] |} ]};
     sc_image := Some image;
     sc_parent_writable := writable;
     sc_options := [];
     sc_exec_ok := exec_ok;
     sc_close _ := 0%Z |}.

(** Nothing compiled yet; closing the vdex output fails when [vdex_close]
    is not zero. *)
Definition sc_uncompiled (writable : bool) (vdex_close : Z) : Scenario :=
  {| sc_dex_checksums := Some [43981%Z];
     sc_oat_files := ∅;
     sc_vdex_files := ∅;
     sc_image := Some image;
     sc_parent_writable := writable;
     sc_options := [];
     sc_exec_ok := true;
     sc_close name := if String.eqb name odex_vdex then vdex_close else 0%Z |}.

Definition assistant (rt : Runtime) (d : Disk) : OatFileAssistant :=
  new_OatFileAssistant rt d dex tt true.

(** An up-to-date odex file beside a writable source. *)
Definition rt_fresh : Runtime :=
  runtime ordinal (sc_odex speed 77 true (Some [43981%Z]) true).
Definition fresh : OatFileAssistant := assistant rt_fresh (with_odex source_only).
Definition fresh_file : OatFile := opened true (compiled odex 43981 speed 77).

(** An odex file compiled against another boot image, in a directory that
    is not writable, with the source's dex files present or stripped. *)
Definition rt_image_changed (source : option (list Z)) : Runtime :=
  runtime ordinal (sc_odex speed 78 false source true).
Definition image_changed (source : option (list Z)) : OatFileAssistant :=
  assistant (rt_image_changed source) (with_odex source_only).

(** An up-to-date odex file compiled with a profile, while dex2oat fails. *)
Definition rt_profiled : Runtime :=
  runtime ordinal (sc_odex speed_profile 77 true (Some [43981%Z]) false).
Definition profiled : OatFileAssistant := assistant rt_profiled (with_odex source_only).

(** Nothing compiled yet, under any numbering of the decisions. *)
Definition rt_uncompiled (value : DexOptNeeded → Z) (writable : bool) : Runtime :=
  runtime value (sc_uncompiled writable 0).
Definition uncompiled (value : DexOptNeeded → Z) (writable : bool) : OatFileAssistant :=
  assistant (rt_uncompiled value writable) source_only.

(** Nothing compiled yet, and closing the vdex output fails. *)
Definition rt_close_fails : Runtime := runtime ordinal (sc_uncompiled true 5).
Definition close_fails : OatFileAssistant := assistant rt_close_fails source_only.

End Fixture.

(** ** Vocabulary of the further properties *)

(** Does the string contain the character? *)
Fixpoint has_char (c : Ascii.ascii) (s : string) : bool :=
  match s with
  | EmptyString => false
  | String x rest => Ascii.eqb x c || has_char c rest
  end.

Section Frames.

Context `{CompilerFilter} `{InstructionSets}.

(** A step that never aborts and changes nothing but the disk entries of
    the paths in [P]. *)
Definition touches (P : string → Prop) {A} (m : M A) : Prop :=
  ∀ a, ∃ x d', m a = Some (x, set_disk d' a)
               ∧ ∀ p, ¬ P p → d' !! p = disk a !! p.

(** The state after a regeneration with result [res] of candidate [r] that
    left the disk [d']: the candidate is reset on success. *)
Definition regenerated (r : InfoRef) (res : ResultOfAttemptToUpdate) (d' : Disk)
    (a : OatFileAssistant) : OatFileAssistant :=
  if bool_decide (res = kUpdateSucceeded)
  then set_info r (with_reset (info r a)) (set_disk d' a)
  else set_disk d' a.

(** A regeneration that never aborts, and touches only the paths in [P]
    unless it runs the compiler. *)
Definition regenerates (r : InfoRef) (P : string → Prop)
    (m : M ResultOfAttemptToUpdate) : Prop :=
  ∀ a, ∃ res d', m a = Some (res, regenerated r res d' a)
                 ∧ (res = kUpdateNotAttempted → ∀ p, ¬ P p → d' !! p = disk a !! p).

(** A regeneration that gets as far as running the compiler. *)
Definition compiles (r : InfoRef) (m : M ResultOfAttemptToUpdate) : Prop :=
  ∀ a, ∃ res d', m a = Some (res, regenerated r res d' a)
                 ∧ res ≠ kUpdateNotAttempted.

End Frames.

Section Outputs.

Context `{CompilerFilter} `{InstructionSets}.
Variable rt : Runtime.

(** The paths a regeneration of candidate [r] prepares before it runs the
    compiler: the oat and vdex outputs and, for the odex location, the two
    directories above them. *)
Definition output_path (r : InfoRef) (a : OatFileAssistant) (p : string) : Prop :=
  p = filename_ (info r a)
  ∨ p = GetVdexFilename rt (filename_ (info r a))
  ∨ ∃ names, DexLocationToOdexNames (dex_location_ a) (isa_ a) = Some names
             ∧ (p = oat_dir names ∨ p = isa_dir names).

End Outputs.

(** ** The lock file

    [flock_] is a [ScopedFlock] of base/scoped_flock.h.  Its [Init] opens the
    named file, creating it if need be, and locks it; it is a parameter here,
    and gives the file it holds on success together with the disk it leaves. *)

Section Locking.

Context `{CompilerFilter} `{InstructionSets}.
Variable ScopedFlock_Init : Disk → string → option File * Disk.






End Locking.

(** ** The status dump *)

Section StatusDump.

Context `{CompilerFilter} `{InstructionSets}.
Variable rt : Runtime.

Local Open Scope assistant_scope.

(** [operator<<] on a status. *)
Definition status_name (status : OatStatus) : string :=
  match status with
  | kOatCannotOpen => "kOatCannotOpen"
  | kOatDexOutOfDate => "kOatDexOutOfDate"
  | kOatBootImageOutOfDate => "kOatBootImageOutOfDate"
  | kOatRelocationOutOfDate => "kOatRelocationOutOfDate"
  | kOatUpToDate => "kOatUpToDate"
  end.

(** The stream is threaded through as the string written so far. *)
Definition GetStatusDump : M string :=
  let status := "" in
  oat_status <- Status rt oat_ref ;;
  oat_part <-
    (if negb (bool_decide (oat_status = kOatCannotOpen)) then
       filename <- Filename oat_ref ;;
       match filename with
       | None => CHECK false ;;; ret (true, status)
       | Some name =>
           oat_status' <- Status rt oat_ref ;;
           let status := status +:+ name +:+ "[status=" +:+ status_name oat_status' +:+ ", " in
           file <- GetFile rt oat_ref ;;
           match file with
           | None => ret (true, status +:+ "vdex-only")
           | Some f =>
               ret (true, status +:+ "compilation_filter="
                                 +:+ NameOfFilter (GetCompilerFilter f))
           end
       end
     else ret (false, status)) ;;
  let '(oat_file_exists, status) := oat_part in
  odex_status <- Status rt odex_ref ;;
  odex_part <-
    (if negb (bool_decide (odex_status = kOatCannotOpen)) then
       filename <- Filename odex_ref ;;
       match filename with
       | None => CHECK false ;;; ret (true, status)
       | Some name =>
           let status := if oat_file_exists then status +:+ "] " else status in
           odex_status' <- Status rt odex_ref ;;
           let status := status +:+ name +:+ "[status=" +:+ status_name odex_status' +:+ ", " in
           file <- GetFile rt odex_ref ;;
           match file with
           | None => ret (true, status +:+ "vdex-only")
           | Some f =>
               ret (true, status +:+ "compilation_filter="
                                 +:+ NameOfFilter (GetCompilerFilter f))
           end
       end
     else ret (false, status)) ;;
  let '(odex_file_exists, status) := odex_part in
  let status :=
    if negb oat_file_exists && negb odex_file_exists then status +:+ "invalid["
    else status in
  ret (status +:+ "]").

(** One candidate's part of the dump. *)
Definition candidate_dump (name : string) (st : OatStatus) (file : option OatFile)
    : string :=
  name +:+ "[status=" +:+ status_name st +:+ ", " +:+
  match file with
  | None => "vdex-only"
  | Some f => "compilation_filter=" +:+ NameOfFilter (GetCompilerFilter f)
  end.

(** The dump made of the parts of the candidates that can be opened. *)
Definition status_dump (oat odex : option string) : string :=
  match oat, odex with
  | None, None => "invalid[]"
  | Some o, None => o +:+ "]"
  | None, Some x => x +:+ "]"
  | Some o, Some x => o +:+ "] " +:+ x +:+ "]"
  end.

Definition dump_part (name : string) (st : OatStatus) (file : option OatFile)
    : option string :=
  if bool_decide (st = kOatCannotOpen) then None
  else Some (candidate_dump name st file).

End StatusDump.

(** ** Loading the dex files of an oat file *)

Section DexFiles.

Context `{CompilerFilter} `{InstructionSets}.
Variable rt : Runtime.

(** A [DexFile], and [OatDexFile::OpenDexFile] on the oat dex file that an
    oat file holds for a location. *)
Variable DexFile : Type.
Variable OpenDexFile : OatFile → string → option DexFile.

(** The loop over the multidex entries from [i] on; it has no bound in the
    source, [None] is the model running out of [fuel]. *)
Fixpoint load_multidex (fuel : nat) (oat_file : OatFile) (dex_location : string)
    (i : nat) (dex_files : list DexFile) : option (list DexFile) :=
  match fuel with
  | 0 => None
  | S fuel =>
      let multidex_dex_location := GetMultiDexLocation rt i dex_location in
      match GetOatDexFile oat_file multidex_dex_location with
      | None => Some dex_files
      | Some _ =>
          match OpenDexFile oat_file multidex_dex_location with
          | None => Some []
          | Some dex_file =>
              load_multidex fuel oat_file dex_location (S i) (dex_files ++ [dex_file])
          end
      end
  end.

Definition LoadDexFiles (fuel : nat) (oat_file : OatFile) (dex_location : string)
    : option (list DexFile) :=
  match GetOatDexFile oat_file dex_location with
  | None => Some []
  | Some _ =>
      match OpenDexFile oat_file dex_location with
      | None => Some []
      | Some dex_file => load_multidex fuel oat_file dex_location 1 [dex_file]
      end
  end.

(** The location of the [i]-th dex file as [LoadDexFiles] names it. *)
Definition dex_entry (dex_location : string) (i : nat) : string :=
  match i with
  | 0 => dex_location
  | S _ => GetMultiDexLocation rt i dex_location
  end.

End DexFiles.

(** ** Further scenarios *)

Module Scenes.

Import Fixture.

#[local] Existing Instance filters.

(** Two instruction sets, the runtime running on the first. *)
Inductive TestISA := arm | x86.

Definition isas2 : InstructionSets :=
  {| InstructionSet := TestISA;
     isa_eqb a b := match a, b with arm, arm | x86, x86 => true | _, _ => false end;
     GetInstructionSetString isa := match isa with arm => "arm" | x86 => "x86" end;
     kRuntimeISA := arm |}.

(** The runtime of [Fixture.runtime] for any instruction sets, with dex2oat
    enabled or not and the given boot image spaces. *)
Definition configured (I : InstructionSets) (dex2oat_enabled : bool)
    (boot_images : list string) (sc : Scenario) : Runtime :=
  {| kUseReadBarrier := true;
     kIsVdexEnabled := true;
     kIsTargetBuild := true;
     kDefaultCompilerFilterForDexLoading := speed;
     kSpecialSharedLibrary := "&";
     DexOptNeeded_value := ordinal;
     realpath d name := if is_regular d name then Some name else None;
     access_W_OK _ _ := sc_parent_writable sc;
     GetDalvikCache isa := "/data/dalvik-cache/" +:+ isa;
     GetDalvikCacheFilename _ cache_dir :=
       Some (cache_dir +:+ "/data@app@base.apk@classes.dex");
     GetVdexFilename name := replace_extension name "vdex";
     OatFile_Open d name executable _ :=
       if is_regular d name then opened executable <$> sc_oat_files sc !! name
       else None;
     VdexFile_Open d name :=
       if is_regular d name then sc_vdex_files sc !! name else None;
     GetMultiDexChecksums d name :=
       if is_regular d name then sc_dex_checksums sc else None;
     GetMultiDexLocation i name :=
       match i with
       | 0 => name
       | _ => name +:+ ":classes" +:+ to_string (Z.of_nat (S i)) +:+ ".dex"
       end;
     ReadImageHeader _ _ _ := sc_image sc;
     IsDex2OatEnabled := dex2oat_enabled;
     GetCompilerOptions := sc_options sc;
     GetCompilerExecutable := "/system/bin/dex2oat";
     GetClassPathString := "";
     IsJavaDebuggable := false;
     CurrentRuntimeFeaturesAsDex2OatArguments := [];
     IsVerificationEnabled := true;
     MustRelocateIfPossible := true;
     GetImageLocation := "/system/framework/boot.art";
     GetBootImageSpaces := boot_images;
     Exec _ d := (sc_exec_ok sc, d);
     stat_fault _ _ := false;
     mkdir_ok _ _ := true;
     chmod_ok _ _ := true;
     CreateEmptyFile_fd _ name := Some 7%Z;
     fchmod_ok _ _ := true;
     FlushClose_result _ name := sc_close sc name |}.

(** An up-to-date odex file, for an assistant made for the other
    instruction set. *)
Definition rt_foreign : Runtime :=
  configured isas2 true ["/system/framework/boot.art"]
    (sc_odex speed 77 true (Some [43981%Z]) true).


(** Nothing compiled yet and dex2oat disabled. *)
Definition rt_no_dex2oat : Runtime :=
  configured isas false ["/system/framework/boot.art"] (sc_uncompiled true 0).
Definition no_dex2oat : OatFileAssistant :=
  new_OatFileAssistant rt_no_dex2oat source_only dex tt true.

(** The dex files stripped from the source and nothing compiled. *)
Definition rt_stripped : Runtime :=
  runtime ordinal (sc_odex speed 77 false None true).
Definition stripped : OatFileAssistant := assistant rt_stripped source_only.

(** The dex location is not on the disk. *)
Definition missing : OatFileAssistant := assistant rt_fresh ∅.


(** An oat file with two dex files, both of which open. *)
Definition multidex : OatFile :=
  {| GetOatHeader := GetOatHeader (compiled odex 43981 speed 77);
     GetVdexFile := {| vdex_location_checksums := [43981%Z; 48879%Z] |};
     GetCompilerFilter := speed;
     IsPic := false;
     IsExecutable := false;
     GetLocation := odex;
     oat_dex_files :=
       {[ dex := 43981%Z; GetMultiDexLocation rt_fresh 1 dex := 48879%Z ]} |}.

Definition open_dex (f : OatFile) (location : string) : option Z :=
  oat_dex_files f !! location.

End Scenes.

(** * Proofs *)

Section Proofs.

Context `{CompilerFilter} `{InstructionSets}.
Variable rt : Runtime.

Local Open Scope assistant_scope.

(** ** The monad *)

Lemma bind_Some {A B} (m : M A) (k : A → M B) a x a1 :
  m a = Some (x, a1) → bind m k a = k x a1.
Proof. unfold bind. by intros ->. Qed.

Lemma bind_assoc {A B C} (m : M A) (k : A → M B) (k' : B → M C) a :
  bind (bind m k) k' a = bind m (λ x, bind (k x) k') a.
Proof. unfold bind. by destruct (m a) as [[x a1]|]. Qed.

Lemma bind_ret {A B} (x : A) (k : A → M B) a : bind (ret x) k a = k x a.
Proof. done. Qed.

Lemma result_Some {A} (m : M A) a x a' : m a = Some (x, a') → result m a = Some x.
Proof. unfold result. by intros ->. Qed.

(** ** Frames: what an update of the caches leaves alone *)

Record frame_eq (a a' : OatFileAssistant) : Prop := {
  fr_writable : dex_parent_writable_ a' = dex_parent_writable_ a;
  fr_executable : load_executable_ a' = load_executable_ a;
  fr_location : dex_location_ a' = dex_location_ a;
  fr_isa : isa_ a' = isa_ a;
  fr_disk : disk a' = disk a;
  fr_is_oat : ∀ r, is_oat_location_ (info r a') = is_oat_location_ (info r a);
  fr_released : ∀ r, file_released_ (info r a') = file_released_ (info r a);
  fr_provided : ∀ r, filename_provided_ (info r a') = filename_provided_ (info r a);
  fr_filename : ∀ r, filename_ (info r a') = filename_ (info r a);
}.

Lemma file_of_ext r a a' :
  frame_eq a a' →
  load_executable_ a' = load_executable_ a →
  load_attempted_ (info r a') = load_attempted_ (info r a) →
  file_ (info r a') = file_ (info r a) →
  file_of rt r a' = file_of rt r a.
Proof.
  intros [_ _ Hloc _ Hdisk _ _ Hprov Hname] E1 E2 E3. unfold file_of.
  by rewrite E1, E2, E3, Hloc, Hdisk, Hprov, Hname.
Qed.

Lemma required_of_ext a a' :
  frame_eq a a' →
  required_dex_checksums_attempted_ a' = required_dex_checksums_attempted_ a →
  required_dex_checksums_found_ a' = required_dex_checksums_found_ a →
  has_original_dex_files_ a' = has_original_dex_files_ a →
  cached_required_dex_checksums_ a' = cached_required_dex_checksums_ a →
  file_of rt odex_ref a' = file_of rt odex_ref a →
  required_of rt a' = required_of rt a.
Proof.
  intros [_ _ Hloc _ Hdisk _ _ _ _] E1 E2 E3 E4 E5. unfold required_of.
  by rewrite E1, E2, E3, E4, E5, Hloc, Hdisk.
Qed.

Lemma image_of_ext a a' :
  frame_eq a a' →
  image_info_load_attempted_ a' = image_info_load_attempted_ a →
  cached_image_info_ a' = cached_image_info_ a →
  image_of rt a' = image_of rt a.
Proof.
  intros [_ _ _ Hisa Hdisk _ _ _ _] E1 E2. unfold image_of.
  by rewrite E1, E2, Hisa, Hdisk.
Qed.

Lemma base_view_ext a a' :
  frame_eq a a' →
  (∀ r, file_of rt r a' = file_of rt r a) →
  required_of rt a' = required_of rt a →
  image_of rt a' = image_of rt a →
  base_view rt a' = base_view rt a.
Proof.
  intros [Hw Hx Hloc _ Hdisk Hoat Hrel Hprov Hname] E1 E2 E3.
  unfold base_view, both, required_checksums_of, has_original_of.
  by rewrite E2, E3, !E1, !Hoat, !Hrel, !Hprov, !Hname, Hw, Hx, Hloc, Hdisk.
Qed.

Lemma status_of_ext r a a' :
  base_view rt a' = base_view rt a →
  status_attempted_ (info r a') = status_attempted_ (info r a) →
  status_ (info r a') = status_ (info r a) →
  status_of rt r a' = status_of rt r a.
Proof. intros E1 E2 E3. unfold status_of. by rewrite E1, E2, E3. Qed.

Lemma view_ext a a' :
  base_view rt a' = base_view rt a →
  (∀ r, status_of rt r a' = status_of rt r a) →
  view rt a' = view rt a.
Proof. intros E1 E2. unfold view, both. by rewrite E1, !E2. Qed.

(** A cache was filled with the value it denotes. *)
Lemma quiet_update a a' :
  frame_eq a a' →
  (∀ r, load_attempted_ (info r a) = true → load_attempted_ (info r a') = true) →
  (∀ r, status_attempted_ (info r a') = status_attempted_ (info r a)) →
  (∀ r, status_ (info r a') = status_ (info r a)) →
  (∀ r, file_of rt r a' = file_of rt r a) →
  required_of rt a' = required_of rt a →
  image_of rt a' = image_of rt a →
  quiet rt a a'.
Proof.
  intros Hf Hload E1 E2 E3 E4 E5.
  assert (base_view rt a' = base_view rt a) as Hb by by apply base_view_ext.
  split; try done. apply view_ext; [done|].
  intros r. by apply status_of_ext.
Qed.

(** ** What equal views share *)

Lemma view_base a a' : view rt a' = view rt a → base_view rt a' = base_view rt a.
Proof. intros Hv. exact (f_equal v_base Hv). Qed.

Lemma view_status r a a' : view rt a' = view rt a → status_of rt r a' = status_of rt r a.
Proof.
  intros Hv. apply (f_equal v_status) in Hv. unfold view, both in Hv; simpl in Hv.
  destruct r; congruence.
Qed.

Lemma view_required a a' :
  view rt a' = view rt a → required_checksums_of rt a' = required_checksums_of rt a.
Proof. intros Hv. exact (f_equal v_required (view_base _ _ Hv)). Qed.

Lemma view_has_original a a' :
  view rt a' = view rt a → has_original_of rt a' = has_original_of rt a.
Proof. intros Hv. exact (f_equal v_has_original (view_base _ _ Hv)). Qed.

Lemma view_image a a' : view rt a' = view rt a → image_of rt a' = image_of rt a.
Proof. intros Hv. exact (f_equal v_image (view_base _ _ Hv)). Qed.

Lemma view_file r a a' : view rt a' = view rt a → file_of rt r a' = file_of rt r a.
Proof.
  intros Hv. pose proof (f_equal v_file (view_base _ _ Hv)) as E.
  unfold base_view, both in E; simpl in E. destruct r; congruence.
Qed.

Lemma view_disk a a' : view rt a' = view rt a → disk a' = disk a.
Proof. intros Hv. exact (f_equal v_disk (view_base _ _ Hv)). Qed.

Lemma view_location a a' : view rt a' = view rt a → dex_location_ a' = dex_location_ a.
Proof. intros Hv. exact (f_equal v_dex_location (view_base _ _ Hv)). Qed.

Lemma view_load_executable a a' :
  view rt a' = view rt a → load_executable_ a' = load_executable_ a.
Proof. intros Hv. exact (f_equal v_load_executable (view_base _ _ Hv)). Qed.

Lemma view_writable a a' :
  view rt a' = view rt a → dex_parent_writable_ a' = dex_parent_writable_ a.
Proof. intros Hv. exact (f_equal v_writable (view_base _ _ Hv)). Qed.

Lemma view_is_oat r a a' :
  view rt a' = view rt a → is_oat_location_ (info r a') = is_oat_location_ (info r a).
Proof.
  intros Hv. pose proof (f_equal v_is_oat (view_base _ _ Hv)) as E.
  unfold base_view, both in E; simpl in E. destruct r; simpl; congruence.
Qed.

Lemma view_released r a a' :
  view rt a' = view rt a → file_released_ (info r a') = file_released_ (info r a).
Proof.
  intros Hv. pose proof (f_equal v_released (view_base _ _ Hv)) as E.
  unfold base_view, both in E; simpl in E. destruct r; simpl; congruence.
Qed.

Lemma view_filename r a a' :
  view rt a' = view rt a →
  filename_provided_ (info r a') = filename_provided_ (info r a)
  ∧ filename_ (info r a') = filename_ (info r a).
Proof.
  intros Hv. pose proof (f_equal v_filename (view_base _ _ Hv)) as E.
  unfold base_view, both in E; simpl in E. injection E as E1 E2 E3 E4.
  destruct r; simpl; split; congruence.
Qed.

Lemma view_live a a' : view rt a' = view rt a → live a → live a'.
Proof.
  intros Hv [Ho Hc].
  pose proof (view_released odex_ref a a' Hv) as E1.
  pose proof (view_released oat_ref a a' Hv) as E2.
  simpl in E1, E2. split; congruence.
Qed.

Lemma live_released r a : live a → file_released_ (info r a) = false.
Proof. intros [? ?]. by destruct r. Qed.

(** ** Calm and quiet steps compose *)

Lemma quiet_refl a : quiet rt a a.
Proof. by split. Qed.

Lemma calm_refl a : calm rt a a.
Proof. by split. Qed.

Lemma quiet_calm a a' : quiet rt a a' → calm rt a a'.
Proof.
  intros [Hv Hl Ha Hs]. split; try done.
  - intros r. by rewrite Ha.
  - intros Hset r. rewrite Ha. auto.
Qed.

Lemma quiet_trans a1 a2 a3 : quiet rt a1 a2 → quiet rt a2 a3 → quiet rt a1 a3.
Proof.
  intros [Hv Hl Ha Hs] [Hv' Hl' Ha' Hs']. split.
  - by rewrite Hv'.
  - auto.
  - intros r. by rewrite Ha'.
  - intros r. by rewrite Hs'.
Qed.

Lemma calm_trans a1 a2 a3 : calm rt a1 a2 → calm rt a2 a3 → calm rt a1 a3.
Proof.
  intros [Hv Hl Ha Hs] [Hv' Hl' Ha' Hs']. split; [by rewrite Hv'|auto..].
Qed.

Lemma base_query_query {A} (m : M A) f :
  base_query rt m f → query rt m (λ v, f (v_base v)).
Proof.
  intros Hq a Hl. destruct (Hq a Hl) as (a' & E & Q).
  exists a'. split; [done|by apply quiet_calm].
Qed.

(** ** The lazily loaded file *)

Lemma set_info_frame r i a :
  is_oat_location_ i = is_oat_location_ (info r a) →
  file_released_ i = file_released_ (info r a) →
  filename_provided_ i = filename_provided_ (info r a) →
  filename_ i = filename_ (info r a) →
  frame_eq a (set_info r i a).
Proof. intros. split; try done; intros []; destruct r; simpl in *; done. Qed.

Lemma file_of_loaded r r' a :
  file_of rt r' (set_info r (with_loaded (file_of rt r a) (info r a)) a) = file_of rt r' a.
Proof.
  unfold file_of. destruct r, r'; simpl; repeat case_match; congruence.
Qed.

Lemma required_of_loaded r a :
  required_of rt (set_info r (with_loaded (file_of rt r a) (info r a)) a)
  = required_of rt a.
Proof.
  apply required_of_ext; try done; [by apply set_info_frame|apply file_of_loaded].
Qed.

Lemma load_quiet r a :
  quiet rt a (set_info r (with_loaded (file_of rt r a) (info r a)) a).
Proof.
  apply quiet_update.
  - by apply set_info_frame.
  - intros r'. destruct r, r'; simpl; auto.
  - intros r'. by destruct r, r'.
  - intros r'. by destruct r, r'.
  - intros r'. apply file_of_loaded.
  - apply required_of_loaded.
  - apply image_of_ext; [by apply set_info_frame|done..].
Qed.

Lemma GetFile_eq r a :
  file_released_ (info r a) = false →
  GetFile rt r a =
    Some (file_of rt r a, set_info r (with_loaded (file_of rt r a) (info r a)) a)
  ∨ (GetFile rt r a = Some (file_of rt r a, a) ∧ load_attempted_ (info r a) = true).
Proof.
  intros Hr. unfold GetFile, bind, gets, CHECK, modify, ret, file_of. rewrite Hr. simpl.
  destruct (load_attempted_ (info r a)) eqn:Hla; [by right|left].
  by destruct (filename_provided_ (info r a)).
Qed.

(** [GetFile] returns the file the candidate denotes, and has it loaded. *)
Lemma GetFile_run r a :
  live a →
  ∃ a', GetFile rt r a = Some (file_of rt r a, a')
        ∧ quiet rt a a'
        ∧ load_attempted_ (info r a') = true
        ∧ file_ (info r a') = file_of rt r a.
Proof.
  intros Hl.
  destruct (GetFile_eq r a (live_released r a Hl)) as [E|[E Hla]]; rewrite E.
  - eexists. split; [done|]. split; [apply load_quiet|]. by destruct r.
  - exists a. split; [done|]. split; [apply quiet_refl|]. split; [done|].
    unfold file_of. by rewrite Hla.
Qed.

Lemma GetFile_query r : base_query rt (GetFile rt r) (λ v, pick r (v_file v)).
Proof.
  intros a Hl. destruct (GetFile_run r a Hl) as (a' & E & Q & _).
  exists a'. split; [|done]. rewrite E. by destruct r.
Qed.

(** ** Required dex checksums *)

Lemma set_required_frame found original cs a :
  frame_eq a (set_required_dex_checksums found original cs a).
Proof. split; try done; by intros []. Qed.

Lemma file_of_set_required r found original cs a :
  file_of rt r (set_required_dex_checksums found original cs a) = file_of rt r a.
Proof. apply file_of_ext; first apply set_required_frame; by destruct r. Qed.

Lemma quiet_set_required found original cs a :
  required_dex_checksums_attempted_ a = false →
  required_of rt a = (found, original, cs) →
  quiet rt a (set_required_dex_checksums found original cs a).
Proof.
  intros Hna E. apply quiet_update.
  - apply set_required_frame.
  - by intros [].
  - by intros [].
  - by intros [].
  - intros r. apply file_of_set_required.
  - by rewrite E.
  - done.
Qed.

Lemma required_checksums_cached a :
  required_dex_checksums_attempted_ a = true →
  required_checksums_of rt a =
    if required_dex_checksums_found_ a then Some (cached_required_dex_checksums_ a)
    else None.
Proof. intros E. unfold required_checksums_of, required_of. by rewrite E. Qed.

Lemma has_original_cached a :
  required_dex_checksums_attempted_ a = true →
  has_original_of rt a = has_original_dex_files_ a.
Proof. intros E. unfold has_original_of, required_of. by rewrite E. Qed.

(** Filling the cache: the first half of [GetRequiredDexChecksums]. *)
Lemma required_fill a :
  live a →
  required_dex_checksums_attempted_ a = false →
  ∃ a',
    (x <- gets id ;;
     match GetMultiDexChecksums rt (disk x) (dex_location_ x) with
     | Some cs => modify (set_required_dex_checksums true true cs)
     | None =>
         modify (set_required_dex_checksums false false []) ;;;
         odex_file <- GetFile rt odex_ref ;;
         match odex_file with
         | Some f =>
             let '(found, cs) :=
               odex_checksums_loop rt f (dex_location_ x)
                 (seq 0 (GetDexFileCount (GetOatHeader f))) [] in
             modify (set_required_dex_checksums found false cs)
         | None => ret tt
         end
     end) a = Some (tt, a')
    ∧ quiet rt a a'
    ∧ required_dex_checksums_attempted_ a' = true.
Proof.
  intros Hl Hna.
  erewrite bind_Some by reflexivity. unfold id.
  set (al := set_info odex_ref (with_loaded (file_of rt odex_ref a) (info odex_ref a)) a).
  pose proof (λ found original cs, quiet_set_required found original cs a Hna) as Hset.
  pose proof (λ found original cs, quiet_set_required found original cs al Hna) as Hsetl.
  unfold al in Hsetl at 1. rewrite required_of_loaded in Hsetl.
  unfold required_of in Hset, Hsetl. rewrite Hna in Hset, Hsetl.
  pose proof (load_quiet odex_ref a) as Hvl. fold al in Hvl.
  destruct (GetMultiDexChecksums rt (disk a) (dex_location_ a)) as [cs|].
  { eexists. split; [reflexivity|]. split; [by apply Hset|done]. }
  erewrite bind_Some by reflexivity.
  set (a1 := set_required_dex_checksums false false [] a).
  assert (file_of rt odex_ref a1 = file_of rt odex_ref a) as Hfile
    by apply file_of_set_required.
  destruct (GetFile_eq odex_ref a1 (live_released odex_ref a Hl)) as [E|[E _]];
    erewrite bind_Some by exact E; rewrite Hfile;
    destruct (file_of rt odex_ref a) as [f|];
    try destruct (odex_checksums_loop _ _ _ _ _) as [found cs];
    (eexists; split; [reflexivity|]; split; [|done]).
  - eapply quiet_trans; [exact Hvl|]. exact (Hsetl found false cs eq_refl).
  - eapply quiet_trans; [exact Hvl|]. exact (Hsetl false false [] eq_refl).
  - exact (Hset found false cs eq_refl).
  - exact (Hset false false [] eq_refl).
Qed.

Lemma GetRequiredDexChecksums_run a :
  live a →
  ∃ a', GetRequiredDexChecksums rt a = Some (required_checksums_of rt a, a')
        ∧ quiet rt a a'
        ∧ required_dex_checksums_attempted_ a' = true.
Proof.
  intros Hl. unfold GetRequiredDexChecksums.
  erewrite bind_Some by reflexivity.
  destruct (required_dex_checksums_attempted_ a) eqn:Hat.
  { exists a. split; [|split; [apply quiet_refl|done]]. unfold bind, ret, gets. simpl.
    by rewrite required_checksums_cached. }
  destruct (required_fill a Hl Hat) as (a' & E & Q & Hat').
  erewrite bind_Some by exact E.
  exists a'. split; [|done]. unfold bind, gets, ret, id. simpl.
  rewrite <- (required_checksums_cached a' Hat').
  by rewrite (view_required _ _ (quiet_view _ _ _ Q)).
Qed.

Lemma GetRequiredDexChecksums_query :
  base_query rt (GetRequiredDexChecksums rt) v_required.
Proof.
  intros a Hl. destruct (GetRequiredDexChecksums_run a Hl) as (a' & ? & ? & _). eauto.
Qed.

Lemma HasOriginalDexFiles_query :
  base_query rt (HasOriginalDexFiles rt) v_has_original.
Proof.
  intros a Hl. unfold HasOriginalDexFiles.
  destruct (GetRequiredDexChecksums_run a Hl) as (a' & E & Q & Hat).
  erewrite bind_Some by exact E.
  exists a'. split; [|done]. unfold gets. simpl.
  by rewrite <- (has_original_cached a' Hat), (view_has_original _ _ (quiet_view _ _ _ Q)).
Qed.

(** ** Boot image info *)

Lemma set_image_frame i a : frame_eq a (set_image_info i a).
Proof. split; try done; by intros []. Qed.

Lemma quiet_set_image a :
  image_info_load_attempted_ a = false →
  quiet rt a (set_image_info (image_of rt a) a).
Proof.
  intros Hna.
  assert (∀ r, file_of rt r (set_image_info (image_of rt a) a) = file_of rt r a) as Hfile.
  { intros r. apply file_of_ext; first apply set_image_frame; by destruct r. }
  apply quiet_update.
  - apply set_image_frame.
  - by intros [].
  - by intros [].
  - by intros [].
  - done.
  - apply required_of_ext; first apply set_image_frame; done.
  - done.
Qed.

Lemma GetImageInfo_query : base_query rt (GetImageInfo rt) v_image.
Proof.
  intros a Hl. unfold GetImageInfo.
  erewrite bind_Some by reflexivity.
  destruct (image_info_load_attempted_ a) eqn:Hat.
  { exists a. split; [|apply quiet_refl]. unfold bind, ret, gets. simpl.
    unfold image_of. by rewrite Hat. }
  pose proof (quiet_set_image a Hat) as Hv.
  unfold image_of in Hv. rewrite Hat in Hv.
  unfold bind, gets, modify, id. simpl.
  eexists. split; [|exact Hv]. unfold image_of. by rewrite Hat.
Qed.

(** ** Running queries one after the other *)

(** [qstep L] runs the query at the head of the goal with its lemma [L],
    relating the state it leaves to the one the proof started from. *)
Ltac qstep L :=
  lazymatch goal with
  | Hl : live ?a1, Q : quiet ?rt ?a0 ?a1 |- _ =>
      let a2 := fresh "a" in
      let E := fresh "E" in
      let Q2 := fresh "Q" in
      let Hl2 := fresh "Hl" in
      destruct (L a1 Hl) as (a2 & E & Q2);
      rewrite ?bind_assoc;
      erewrite bind_Some by exact E; clear E;
      pose proof (view_live _ _ (quiet_view rt _ _ Q2) Hl) as Hl2;
      rewrite ?(view_base _ _ (quiet_view rt _ _ Q));
      apply (quiet_trans _ _ _ Q) in Q2;
      clear Hl Q; try clear a1
  | Hl : live ?a1, K : calm ?rt ?a0 ?a1 |- _ =>
      let a2 := fresh "a" in
      let E := fresh "E" in
      let K2 := fresh "K" in
      let Hl2 := fresh "Hl" in
      destruct (L a1 Hl) as (a2 & E & K2);
      rewrite ?bind_assoc;
      erewrite bind_Some by exact E; clear E;
      pose proof (view_live _ _ (calm_view rt _ _ K2) Hl) as Hl2;
      rewrite ?(view_base _ _ (calm_view rt _ _ K)), ?(calm_view rt _ _ K);
      apply (calm_trans _ _ _ K) in K2;
      clear Hl K; try clear a1
  end.

Ltac qstart :=
  lazymatch goal with
  | |- query ?rt _ _ =>
      let a := fresh "a" in let Hl := fresh "Hl" in
      intros a Hl; pose proof (calm_refl a) as K
  | |- base_query ?rt _ _ =>
      let a := fresh "a" in let Hl := fresh "Hl" in
      intros a Hl; pose proof (quiet_refl a) as Q
  end.

(** [qnorm] states what the current state tells in terms of the first one. *)
Ltac qnorm_with V :=
  rewrite ?(view_base _ _ V), ?V, ?(view_location _ _ V), ?(view_writable _ _ V),
    ?(view_disk _ _ V), ?(view_is_oat odex_ref _ _ V), ?(view_is_oat oat_ref _ _ V).

Ltac qnorm :=
  lazymatch goal with
  | Q : quiet ?rt ?a0 ?a1 |- _ => qnorm_with (quiet_view rt _ _ Q)
  | K : calm ?rt ?a0 ?a1 |- _ => qnorm_with (calm_view rt _ _ K)
  end.

Ltac qdone :=
  lazymatch goal with
  | Q : quiet _ ?a0 ?a1 |- ∃ a', _ ?a1 = Some (_, a') ∧ _ =>
      exists a1; split; [unfold ret, gets; qnorm; reflexivity|exact Q]
  | K : calm _ ?a0 ?a1 |- ∃ a', _ ?a1 = Some (_, a') ∧ _ =>
      exists a1; split; [unfold ret, gets; qnorm; reflexivity|exact K]
  end.

(** ** Checksum comparison *)

Lemma DexChecksumUpToDate_vdex_query file :
  base_query rt (DexChecksumUpToDate_vdex rt file)
    (λ v, vdex_checksums_ok (v_required v) file).
Proof.
  qstart. unfold DexChecksumUpToDate_vdex.
  qstep GetRequiredDexChecksums_query. simpl. unfold vdex_checksums_ok.
  destruct (required_checksums_of rt a) as [req|]; [|qdone].
  destruct (negb _); qdone.
Qed.

Lemma DexChecksumUpToDate_oat_query file :
  base_query rt (DexChecksumUpToDate_oat rt file)
    (λ v, oat_checksums_ok rt (v_required v) (v_dex_location v) file).
Proof.
  qstart. unfold DexChecksumUpToDate_oat.
  qstep GetRequiredDexChecksums_query. simpl. unfold oat_checksums_ok.
  destruct (required_checksums_of rt a) as [req|]; [|qdone].
  destruct (negb _); [qdone|].
  erewrite bind_Some by reflexivity. qnorm. qdone.
Qed.

(** ** Status of an opened file *)

(** The relocation gate, once the earlier gates have let the file pass. *)
Ltac relocation_gate :=
  destruct (IsAotCompilationEnabled _); cbn [negb andb]; [|qdone];
  destruct (IsPic _); cbn [negb andb]; [qdone|];
  qstep GetImageInfo_query; cbn [v_image base_view];
  repeat match goal with Heq : image_of _ _ = _ |- _ => rewrite Heq end;
  try (destruct (image_of _ _));
  cbv beta iota;
  first [ qdone
        | destruct (GetImageFileLocationOatDataBegin _ =? _)%Z; cbn [negb andb];
          [|qdone];
          destruct (GetImagePatchDelta _ =? _)%Z; cbn [negb andb]; qdone ].

Lemma GivenOatFileStatus_query file :
  base_query rt (GivenOatFileStatus rt file)
    (λ v, given_status rt file (v_required v) (v_has_original v) (v_image v)
            (v_dex_location v)).
Proof.
  qstart. unfold GivenOatFileStatus, given_status. cbv zeta.
  destruct (negb (Bool.eqb _ _)); [qdone|].
  unfold checksums_ok.
  destruct (kIsVdexEnabled rt);
    [qstep (DexChecksumUpToDate_vdex_query (GetVdexFile file))
    |qstep (DexChecksumUpToDate_oat_query file)];
    cbn [v_required v_dex_location v_has_original v_image base_view].
  all: destruct (negb _); [qdone|].
  all: unfold image_gate_rejects, relocation_status.
  all: destruct (DependsOnImageChecksum (GetCompilerFilter file)); cbn [negb andb].
  all: try (rewrite bind_ret; relocation_gate).
  all: qstep GetImageInfo_query; cbn [v_image base_view].
  all: destruct (image_of rt a) as [im|] eqn:Him.
  all: try (destruct (GetImageFileLocationOatChecksum _ =? _)%Z; cbn [negb andb];
            rewrite bind_ret; [relocation_gate|qdone]).
  all: qstep HasOriginalDexFiles_query; cbn [v_has_original base_view].
  all: destruct (has_original_of rt a); rewrite bind_ret; [qdone|relocation_gate].
Qed.

(** ** Status of a candidate *)

(** Updating only the status fields of a candidate leaves the base view. *)
Lemma base_view_set_status r i a :
  is_oat_location_ i = is_oat_location_ (info r a) →
  file_released_ i = file_released_ (info r a) →
  filename_provided_ i = filename_provided_ (info r a) →
  filename_ i = filename_ (info r a) →
  load_attempted_ i = load_attempted_ (info r a) →
  file_ i = file_ (info r a) →
  base_view rt (set_info r i a) = base_view rt a.
Proof.
  intros E1 E2 E3 E4 E5 E6.
  assert (frame_eq a (set_info r i a)) as Hf by by apply set_info_frame.
  assert (∀ r', file_of rt r' (set_info r i a) = file_of rt r' a) as Hfile.
  { intros r'. apply file_of_ext; try done; destruct r, r'; done. }
  apply base_view_ext; [done|done|by apply required_of_ext|by apply image_of_ext].
Qed.

Lemma fresh_status_file r a f :
  file_of rt r a = Some f →
  fresh_status rt r (base_view rt a) =
    given_status rt f (required_checksums_of rt a) (has_original_of rt a)
      (image_of rt a) (dex_location_ a).
Proof. intros E. unfold fresh_status. destruct r; simpl; by rewrite E. Qed.

Lemma fresh_status_no_file r a :
  file_of rt r a = None →
  fresh_status rt r (base_view rt a) =
    vdex_only_status (required_checksums_of rt a)
      (VdexFile_Open rt (disk a) (GetVdexFilename rt (filename_ (info r a)))).
Proof. intros E. unfold fresh_status. destruct r; simpl; by rewrite E. Qed.

(** The end of [Status]: the computed status is stored. *)
Lemma status_stored r a a3 :
  status_attempted_ (info r a) = false →
  quiet rt (set_info r (with_status_attempted (info r a)) a) a3 →
  load_attempted_ (info r a3) = true →
  let a4 := set_info r (with_status (status_of rt r a) (info r a3)) a3 in
  calm rt a a4
  ∧ status_attempted_ (info r a4) = true
  ∧ load_attempted_ (info r a4) = true
  ∧ status_ (info r a4) = status_of rt r a.
Proof.
  intros Hat [Hv Hload Hatt Hst] Hl3 a4.
  set (a1 := set_info r (with_status_attempted (info r a)) a) in *.
  assert (base_view rt a1 = base_view rt a) as Hb1 by by apply base_view_set_status.
  assert (base_view rt a4 = base_view rt a3) as Hb4 by by apply base_view_set_status.
  assert (base_view rt a4 = base_view rt a) as Hb
    by by rewrite Hb4, (view_base _ _ Hv).
  assert (status_attempted_ (info r a4) = true) as Hat4.
  { unfold a4. transitivity (status_attempted_ (info r a3)); [by destruct r|].
    rewrite Hatt. unfold a1. by destruct r. }
  assert (status_ (info r a4) = status_of rt r a) as Hst4 by by destruct r.
  split; [|split; [done|split; [|done]]].
  - split.
    + apply view_ext; [done|]. intros r'.
      destruct (decide (r' = r)) as [->|Hne].
      * unfold status_of at 1. by rewrite Hat4, Hst4.
      * transitivity (status_of rt r' a3).
        { apply status_of_ext; [done|by destruct r, r'..]. }
        rewrite (view_status r' _ _ Hv).
        apply status_of_ext; [done|by destruct r, r'..].
    + intros r' Hr'. transitivity (load_attempted_ (info r' a3)); [by destruct r, r'|].
      apply Hload. rewrite <- Hr'. by destruct r, r'.
    + intros r' Hr'. destruct (decide (r' = r)) as [->|Hne]; [done|].
      transitivity (status_attempted_ (info r' a3)); [by destruct r, r'|].
      rewrite Hatt, <- Hr'. by destruct r, r'.
    + intros Hset r' Hr'. destruct (decide (r' = r)) as [->|Hne].
      { rewrite <- Hl3. by destruct r. }
      transitivity (load_attempted_ (info r' a3)); [by destruct r, r'|].
      apply Hload. transitivity (load_attempted_ (info r' a)); [by destruct r, r'|].
      apply Hset. rewrite <- Hr'.
      transitivity (status_attempted_ (info r' a3)); [|by destruct r, r'].
      rewrite Hatt. by destruct r, r'.
  - rewrite <- Hl3. by destruct r.
Qed.

Lemma Status_run r a :
  live a →
  ∃ a', Status rt r a = Some (status_of rt r a, a')
        ∧ calm rt a a'
        ∧ status_attempted_ (info r a') = true
        ∧ ((status_attempted_ (info r a) = true → load_attempted_ (info r a) = true) →
           load_attempted_ (info r a') = true).
Proof.
  intros Hl. unfold Status.
  erewrite bind_Some by reflexivity. cbv beta.
  destruct (status_attempted_ (info r a)) eqn:Hat.
  { rewrite bind_ret. exists a. unfold gets, status_of. rewrite Hat.
    split; [done|]. split; [apply calm_refl|]. split; [done|]. auto. }
  rewrite bind_assoc. erewrite bind_Some by reflexivity.
  set (a1 := set_info r (with_status_attempted (info r a)) a).
  assert (base_view rt a1 = base_view rt a) as Hb1 by by apply base_view_set_status.
  assert (live a1) as Hl1.
  { destruct Hl. split; destruct r; done. }
  pose proof (status_stored r a) as Hend. specialize (Hend) with (1 := Hat).
  fold a1 in Hend. cbv zeta in Hend.
  destruct (GetFile_run r a1 Hl1) as (a2 & E & Q12 & Hload2 & _).
  rewrite bind_assoc. erewrite bind_Some by exact E. clear E.
  assert (file_of rt r a1 = file_of rt r a) as ->.
  { pose proof (f_equal v_file Hb1) as E. unfold base_view, both in E. simpl in E.
    destruct r; congruence. }
  pose proof (view_live _ _ (quiet_view _ _ _ Q12) Hl1) as Hl2.
  assert (base_view rt a2 = base_view rt a) as Hb2
    by by rewrite (view_base _ _ (quiet_view _ _ _ Q12)).
  assert (status_of rt r a = fresh_status rt r (base_view rt a)) as Hs
    by (unfold status_of; by rewrite Hat).
  destruct (file_of rt r a) as [f|] eqn:Hfile.
  - rewrite (fresh_status_file _ _ _ Hfile) in Hs.
    destruct (GivenOatFileStatus_query f a2 Hl2) as (a3 & E & Q23).
    rewrite bind_assoc. erewrite bind_Some by exact E. clear E.
    rewrite Hb2. cbn [v_required v_has_original v_image v_dex_location base_view].
    rewrite <- Hs.
    destruct (Hend a3) as (K & Hat4 & Hload4 & Hst4).
    { by eapply quiet_trans. } { by apply (quiet_loaded _ _ _ Q23). }
    eexists. split; [|split; [exact K|split; [exact Hat4|by intros _]]].
    unfold set_status, bind, modify, gets. simpl.
    f_equal. f_equal. by destruct r.
  - rewrite (fresh_status_no_file _ _ Hfile) in Hs.
    rewrite bind_assoc. erewrite bind_Some by reflexivity. unfold id.
    assert (filename_ (info r a2) = filename_ (info r a)) as ->.
    { pose proof (f_equal v_filename Hb2) as E. unfold base_view, both in E.
      simpl in E. injection E as E1 E2 E3 E4. destruct r; simpl; congruence. }
    assert (disk a2 = disk a) as -> by exact (f_equal v_disk Hb2).
    unfold vdex_only_status in Hs.
    destruct (VdexFile_Open rt (disk a) _) as [vdex|].
    + destruct (DexChecksumUpToDate_vdex_query vdex a2 Hl2) as (a3 & E & Q23).
      rewrite bind_assoc. erewrite bind_Some by exact E. clear E.
      rewrite Hb2. cbn [v_required base_view].
      destruct (Hend a3) as (K & Hat4 & Hload4 & Hst4).
      { by eapply quiet_trans. } { by apply (quiet_loaded _ _ _ Q23). }
      eexists. split; [|split; [exact K|split; [exact Hat4|by intros _]]].
      rewrite Hs.
      destruct (vdex_checksums_ok _ _);
        unfold set_status, bind, modify, gets; simpl; f_equal; f_equal; by destruct r.
    + destruct (Hend a2) as (K & Hat4 & Hload4 & Hst4); [done..|].
      eexists. split; [|split; [exact K|split; [exact Hat4|by intros _]]].
      rewrite Hs.
      unfold set_status, bind, modify, gets; simpl; f_equal; f_equal; by destruct r.
Qed.

Lemma Status_query r : query rt (Status rt r) (λ v, pick r (v_status v)).
Proof.
  intros a Hl. destruct (Status_run r a Hl) as (a' & E & K & _).
  exists a'. split; [|done]. rewrite E. by destruct r.
Qed.

(** ** Queries built on the status *)

#[local] Arguments bind : simpl never.
#[local] Arguments ret : simpl never.
#[local] Arguments gets : simpl never.
#[local] Arguments view : simpl never.
#[local] Arguments base_view : simpl never.

Lemma status_is_query r st :
  query rt (status_is rt r st) (λ v, bool_decide (pick r (v_status v) = st)).
Proof. qstart. unfold status_is. qstep (Status_query r). qdone. Qed.

Lemma IsUseable_query r :
  query rt (IsUseable rt r) (λ v, usable (pick r (v_status v))).
Proof.
  qstart. unfold IsUseable. qstep (Status_query r). cbv beta.
  destruct (pick r (v_status (view rt a))); qdone.
Qed.

Lemma CompilerFilterIsOkay_query r target profile_changed :
  query rt (CompilerFilterIsOkay rt r target profile_changed)
    (λ v, filter_is_okay (pick r (v_file (v_base v))) target profile_changed).
Proof.
  qstart. unfold CompilerFilterIsOkay.
  qstep (base_query_query _ _ (GetFile_query r)). cbv beta.
  destruct (pick r (v_file (v_base (view rt a)))) as [f|]; [|qdone].
  unfold filter_is_okay.
  destruct profile_changed, (DependsOnProfile _), (IsAsGoodAs _ _); qdone.
Qed.

Lemma HasOriginalDexFiles_view_query :
  query rt (HasOriginalDexFiles rt) (λ v, v_has_original (v_base v)).
Proof. apply base_query_query, HasOriginalDexFiles_query. Qed.

Lemma IsOatLocation_query r :
  query rt (IsOatLocation r) (λ v, pick r (v_is_oat (v_base v))).
Proof.
  intros a Hl. exists a. split; [|apply calm_refl].
  unfold IsOatLocation, gets. by destruct r.
Qed.

Lemma writable_query :
  query rt (gets dex_parent_writable_) (λ v, v_writable (v_base v)).
Proof. intros a Hl. exists a. split; [done|apply calm_refl]. Qed.

(** [qrun] runs a method made of the queries above to its end. *)
Ltac qcall :=
  lazymatch goal with
  | |- ∃ a', bind ?m _ _ = _ ∧ _ =>
      lazymatch m with
      | status_is _ ?r ?st => qstep (status_is_query r st)
      | IsUseable _ ?r => qstep (IsUseable_query r)
      | Status _ ?r => qstep (Status_query r)
      | CompilerFilterIsOkay _ ?r ?t ?p => qstep (CompilerFilterIsOkay_query r t p)
      | HasOriginalDexFiles _ => qstep HasOriginalDexFiles_view_query
      | IsOatLocation ?r => qstep (IsOatLocation_query r)
      | gets dex_parent_writable_ => qstep writable_query
      | ret _ => rewrite bind_ret
      | bind _ _ => rewrite bind_assoc
      end
  end.

Ltac qknown :=
  repeat match goal with
         | Heq : ?t = _ |- context [?t] => rewrite Heq
         end.

Ltac qrun :=
  repeat (first [qdone | qcall]; cbv beta; qknown; unfold and_then; simpl).

Lemma OatFileInfo_GetDexOptNeeded_query r target profile_changed :
  query rt (OatFileInfo_GetDexOptNeeded rt r target profile_changed)
    (λ v, dexopt_decision
            (filter_is_okay (pick r (v_file (v_base v))) target profile_changed)
            (IsAotCompilationEnabled target)
            (pick r (v_status v))
            (v_has_original (v_base v))).
Proof.
  qstart. unfold OatFileInfo_GetDexOptNeeded. cbv beta zeta.
  destruct (filter_is_okay (pick r (v_file (v_base (view rt a)))) target profile_changed)
    eqn:Hok;
  destruct (IsAotCompilationEnabled target) eqn:Haot;
  destruct (pick r (v_status (view rt a))) eqn:Hst;
  destruct (v_has_original (v_base (view rt a))) eqn:Hdex;
  unfold dexopt_decision; simpl; qrun.
Qed.

Lemma GetBestInfo_query :
  query rt (GetBestInfo rt)
    (λ v, best_info_policy (v_writable (v_base v))
            (pick odex_ref (v_status v)) (pick oat_ref (v_status v))
            (v_has_original (v_base v))).
Proof.
  qstart. unfold GetBestInfo. cbv beta.
  destruct (v_writable (v_base (view rt a))) eqn:Hw;
  destruct (pick odex_ref (v_status (view rt a))) eqn:Hodex;
  destruct (pick oat_ref (v_status (view rt a))) eqn:Hoat;
  destruct (v_has_original (v_base (view rt a))) eqn:Hdex;
  unfold best_info_policy; simpl; qrun.
Qed.

(** ** What the methods return *)

Lemma query_result {A} (m : M A) f a :
  query rt m f → live a → result m a = Some (f (view rt a)).
Proof. intros Hq Hl. destruct (Hq a Hl) as (a' & E & _). by rewrite (result_Some _ _ _ _ E). Qed.

Lemma base_query_result {A} (m : M A) f a :
  base_query rt m f → live a → result m a = Some (f (base_view rt a)).
Proof. intros Hq Hl. destruct (Hq a Hl) as (a' & E & _). by rewrite (result_Some _ _ _ _ E). Qed.

(** ** The checksum gate compares the lists *)

Lemma forallb_seq (P : nat → bool) n :
  forallb P (seq 0 n) = true ↔ ∀ i, i < n → P i = true.
Proof.
  rewrite forallb_forall. split.
  - intros Hall i Hi. apply Hall, in_seq. lia.
  - intros Hall i Hi. apply in_seq in Hi. apply Hall. lia.
Qed.

(** The lists agree when the candidate's is the required one, entry by entry. *)
Lemma lists_agree (required : list Z) (candidate : list (option Z)) :
  ¬ checksum_lists_differ required candidate ↔ candidate = Some <$> required.
Proof.
  unfold checksum_lists_differ. split.
  - intros Hsame. apply list_eq_same_length with (length required).
    + by rewrite length_fmap.
    + destruct (decide (length candidate = length required)); [done|tauto].
    + intros i x y Hi Hx Hy. rewrite list_lookup_fmap in Hy.
      destruct (required !! i) as [e|] eqn:He; [|done]. simpl in Hy.
      destruct (decide (candidate !! i = Some (Some e))) as [Heq|Hne]; [congruence|].
      exfalso. apply Hsame. right. eauto.
  - intros -> [Hlen|(i & e & He & Hne)].
    + by rewrite length_fmap in Hlen.
    + rewrite list_lookup_fmap, He in Hne. done.
Qed.

Lemma lists_agree_or_differ (required : list Z) (candidate : list (option Z)) :
  candidate = Some <$> required ∨ checksum_lists_differ required candidate.
Proof.
  unfold checksum_lists_differ.
  revert candidate. induction required as [|e required IH]; intros [|c candidate].
  - by left.
  - right. by left.
  - right. by left.
  - destruct (decide (c = Some e)) as [->|Hc].
    + destruct (IH candidate) as [->|[Hlen|(i & e' & He & Hne)]].
      * by left.
      * right. left. simpl. congruence.
      * right. right. by exists (S i), e'.
    + right. right. exists 0, e. split; [done|]. simpl. congruence.
Qed.

Lemma nth_eqb_lookup (required actual : list Z) i :
  i < length required → i < length actual →
  (nth i required 0 =? nth i actual 0)%Z = true ↔ required !! i = actual !! i.
Proof.
  intros Hr Ha. rewrite !nth_lookup.
  destruct (lookup_lt_is_Some_2 _ _ Hr) as [x ->].
  destruct (lookup_lt_is_Some_2 _ _ Ha) as [y ->]. simpl.
  rewrite Z.eqb_eq. split; congruence.
Qed.

Lemma vdex_checksums_ok_eq (required : list Z) (file : VdexFile) :
  vdex_checksums_ok (Some required) file = true ↔
  vdex_location_checksums file = required.
Proof.
  unfold vdex_checksums_ok, GetNumberOfDexFiles, GetLocationChecksum.
  destruct (length required =? length (vdex_location_checksums file)) eqn:Hlen; simpl.
  - apply Nat.eqb_eq in Hlen. rewrite forallb_seq. split.
    + intros Hall. symmetry. apply list_eq_same_length with (length required); try done.
      intros i x y Hi Hx Hy.
      assert (required !! i = vdex_location_checksums file !! i) as E.
      { apply nth_eqb_lookup; [done|lia|]. apply Hall. lia. }
      congruence.
    + intros <- i Hi. by apply Z.eqb_eq.
  - apply Nat.eqb_neq in Hlen. split; [done|]. intros E. by rewrite E in Hlen.
Qed.

Lemma oat_checksums_ok_eq (required : list Z) (dex_location : string) (file : OatFile) :
  oat_checksums_ok rt (Some required) dex_location file = true ↔
  (λ i, GetOatDexFile file (GetMultiDexLocation rt i dex_location))
    <$> seq 0 (GetDexFileCount (GetOatHeader file)) = Some <$> required.
Proof.
  unfold oat_checksums_ok.
  set (n := GetDexFileCount (GetOatHeader file)).
  set (entry := λ i, GetOatDexFile file (GetMultiDexLocation rt i dex_location)).
  destruct (length required =? n) eqn:Hlen; cbn [negb].
  - apply Nat.eqb_eq in Hlen. rewrite forallb_seq. split.
    + intros Hall. apply list_eq_same_length with n.
      * by rewrite length_fmap.
      * by rewrite length_fmap, length_seq.
      * intros i x y Hi Hx Hy.
        rewrite list_lookup_fmap in Hx. rewrite list_lookup_fmap in Hy.
        rewrite lookup_seq_lt in Hx by done. simpl in Hx.
        specialize (Hall i Hi). fold (entry i) in Hall.
        rewrite nth_lookup in Hall.
        destruct (required !! i) as [e|]; [|done]. simpl in Hx, Hy, Hall.
        destruct (entry i) as [c|]; [|done]. apply Z.eqb_eq in Hall. congruence.
    + intros Heq i Hi. fold (entry i).
      assert ((entry <$> seq 0 n) !! i = (Some <$> required) !! i) as E by by rewrite Heq.
      rewrite !list_lookup_fmap, lookup_seq_lt in E by done. simpl in E.
      rewrite nth_lookup.
      destruct (required !! i) as [e|] eqn:He.
      * simpl in E. injection E as ->. simpl. by apply Z.eqb_eq.
      * apply lookup_ge_None in He. lia.
  - apply Nat.eqb_neq in Hlen. split; [done|]. intros E.
    apply (f_equal length) in E. rewrite !length_fmap, length_seq in E. lia.
Qed.

Lemma checksums_ok_differ (required : list Z) (dex_location : string) (file : OatFile) :
  checksums_ok rt (Some required) dex_location file = true ↔
  ¬ checksum_lists_differ required (candidate_checksums rt dex_location file).
Proof.
  rewrite lists_agree. unfold checksums_ok, candidate_checksums.
  destruct (kIsVdexEnabled rt).
  - rewrite vdex_checksums_ok_eq. split; [by intros ->|].
    intros E. by apply (inj (fmap Some)) in E.
  - apply oat_checksums_ok_eq.
Qed.

(** ** Results in terms of what the candidates denote *)

Lemma Status_result r a : live a → result (Status rt r) a = Some (status_of rt r a).
Proof.
  intros Hl. destruct (Status_run r a Hl) as (a' & E & _).
  by rewrite (result_Some _ _ _ _ E).
Qed.

Lemma GetFile_result r a : live a → result (GetFile rt r) a = Some (file_of rt r a).
Proof.
  intros Hl. destruct (GetFile_run r a Hl) as (a' & E & _).
  by rewrite (result_Some _ _ _ _ E).
Qed.

Lemma GetRequiredDexChecksums_result a :
  live a → result (GetRequiredDexChecksums rt) a = Some (required_checksums_of rt a).
Proof. intros Hl. by rewrite (base_query_result _ _ _ GetRequiredDexChecksums_query Hl). Qed.

Lemma HasOriginalDexFiles_result a :
  live a → result (HasOriginalDexFiles rt) a = Some (has_original_of rt a).
Proof. intros Hl. by rewrite (base_query_result _ _ _ HasOriginalDexFiles_query Hl). Qed.

Lemma GetImageInfo_result a : live a → result (GetImageInfo rt) a = Some (image_of rt a).
Proof. intros Hl. by rewrite (base_query_result _ _ _ GetImageInfo_query Hl). Qed.

Lemma GivenOatFileStatus_result file a :
  live a →
  result (GivenOatFileStatus rt file) a =
    Some (given_status rt file (required_checksums_of rt a) (has_original_of rt a)
            (image_of rt a) (dex_location_ a)).
Proof.
  intros Hl. by rewrite (base_query_result _ _ _ (GivenOatFileStatus_query file) Hl).
Qed.

Lemma pick_status r a : pick r (v_status (view rt a)) = status_of rt r a.
Proof. by destruct r. Qed.

Lemma pick_file r a : pick r (v_file (v_base (view rt a))) = file_of rt r a.
Proof. by destruct r. Qed.

Lemma GetBestInfo_result a :
  live a →
  result (GetBestInfo rt) a =
    Some (best_info_policy (dex_parent_writable_ a) (status_of rt odex_ref a)
            (status_of rt oat_ref a) (has_original_of rt a)).
Proof. intros Hl. by rewrite (query_result _ _ _ GetBestInfo_query Hl). Qed.

Lemma OatFileInfo_GetDexOptNeeded_result r target profile_changed a :
  live a →
  result (OatFileInfo_GetDexOptNeeded rt r target profile_changed) a =
    Some (dexopt_decision (filter_is_okay (file_of rt r a) target profile_changed)
            (IsAotCompilationEnabled target) (status_of rt r a) (has_original_of rt a)).
Proof.
  intros Hl.
  rewrite (query_result _ _ _ (OatFileInfo_GetDexOptNeeded_query r target profile_changed) Hl).
  by rewrite pick_status, pick_file.
Qed.

Lemma checksums_ok_None dex_location file : checksums_ok rt None dex_location file = true.
Proof. unfold checksums_ok. by destruct (kIsVdexEnabled rt). Qed.

(** ** The freshness evaluation *)

(** Closes the cases of a gate by gate statement once the gates' conditions
    are known. *)
Ltac gates_done :=
  repeat split; intros;
  try done; try tauto;
  repeat match goal with
         | Hc : _ ∧ _ |- _ => destruct Hc
         | Hd : _ ∨ _ |- _ => destruct Hd
         | Hd : ∃ _, _ |- _ => destruct Hd
         end;
  simplify_eq; try done; try congruence;
  try (match goal with
       | Hn : ¬ (_ ∧ _) |- _ => exfalso; apply Hn; split; [by split|eauto 10]
       end).


(** C1. For an oat file that opened, [GivenOatFileStatus] applies its gates
    in order and stops at the first that decides: a concurrent-copying flag
    that differs from the runtime's gives kOatCannotOpen; else checksum lists
    of different counts or differing at an index give kOatDexOutOfDate; else
    the boot image gate may give kOatBootImageOutOfDate; else, for a filter
    with AOT code and a file that is not PIC, missing boot image info or a
    different oat_data_begin or patch delta gives kOatRelocationOutOfDate;
    otherwise the status is kOatUpToDate. *)
Theorem GivenOatFileStatus_gates (a : OatFileAssistant) (file : OatFile) :
  live a →
  ∃ st required has_dex image,
    result (GivenOatFileStatus rt file) a = Some st
    ∧ result (GetRequiredDexChecksums rt) a = Some required
    ∧ result (HasOriginalDexFiles rt) a = Some has_dex
    ∧ result (GetImageInfo rt) a = Some image
    ∧ let cc_differs :=
        IsConcurrentCopying (GetOatHeader file) ≠ kUseReadBarrier rt in
      let checksums_differ :=
        ∃ req, required = Some req
               ∧ checksum_lists_differ req
                   (candidate_checksums rt (dex_location_ a) file) in
      let image_out_of_date := image_gate_rejects file has_dex image = true in
      let relocation_checked :=
        IsAotCompilationEnabled (GetCompilerFilter file) = true ∧ IsPic file = false in
      let relocation_differs :=
        image = None
        ∨ ∃ im, image = Some im
                ∧ (GetImageFileLocationOatDataBegin (GetOatHeader file) ≠ oat_data_begin im
                   ∨ GetImagePatchDelta (GetOatHeader file) ≠ patch_delta im) in
      (cc_differs → st = kOatCannotOpen)
      ∧ (¬ cc_differs → checksums_differ → st = kOatDexOutOfDate)
      ∧ (¬ cc_differs → ¬ checksums_differ → image_out_of_date →
         st = kOatBootImageOutOfDate)
      ∧ (¬ cc_differs → ¬ checksums_differ → ¬ image_out_of_date →
         relocation_checked → relocation_differs → st = kOatRelocationOutOfDate)
      ∧ (¬ cc_differs → ¬ checksums_differ → ¬ image_out_of_date →
         ¬ (relocation_checked ∧ relocation_differs) → st = kOatUpToDate).
Proof.
  intros Hl. eexists _, _, _, _.
  split; [by apply GivenOatFileStatus_result|].
  split; [by apply GetRequiredDexChecksums_result|].
  split; [by apply HasOriginalDexFiles_result|].
  split; [by apply GetImageInfo_result|].
  cbv zeta. unfold given_status.
  set (required := required_checksums_of rt a).
  set (image := image_of rt a).
  set (has_dex := has_original_of rt a).
  assert (checksums_ok rt required (dex_location_ a) file = true ↔
          ¬ ∃ req, required = Some req
                   ∧ checksum_lists_differ req
                       (candidate_checksums rt (dex_location_ a) file)) as Hsum.
  { destruct required as [req|].
    - rewrite checksums_ok_differ. split.
      + intros Hsame (req' & [= <-] & Hd). done.
      + intros Hsame Hd. apply Hsame. eauto.
    - rewrite checksums_ok_None. split; [|done]. by intros _ (req & ? & _). }
  destruct (Bool.eqb _ _) eqn:Hcc; cbn [negb].
  2: { apply Bool.eqb_false_iff in Hcc. gates_done. }
  apply Bool.eqb_prop in Hcc.
  destruct (checksums_ok rt required (dex_location_ a) file) eqn:Hok; cbn [negb].
  2: { assert (∃ req, required = Some req
                 ∧ checksum_lists_differ req
                     (candidate_checksums rt (dex_location_ a) file)) as Hd.
       { destruct required as [req|].
         - exists req. split; [done|].
           destruct (lists_agree_or_differ req
                       (candidate_checksums rt (dex_location_ a) file)) as [E|E];
             [|done].
           apply lists_agree, checksums_ok_differ in E. congruence.
         - by rewrite checksums_ok_None in Hok. }
       clear Hsum. gates_done. }
  assert (¬ ∃ req, required = Some req
                   ∧ checksum_lists_differ req
                       (candidate_checksums rt (dex_location_ a) file)) as Hnd
    by by apply Hsum.
  clear Hsum.
  destruct (image_gate_rejects file has_dex image) eqn:Hgate; [gates_done|].
  unfold relocation_status.
  destruct (IsAotCompilationEnabled (GetCompilerFilter file)) eqn:Haot; cbn [andb negb];
    [|gates_done].
  destruct (IsPic file) eqn:Hpic; cbn [andb negb]; [gates_done|].
  destruct image as [im|]; [|gates_done].
  destruct (Z.eqb_spec (GetImageFileLocationOatDataBegin (GetOatHeader file))
              (oat_data_begin im)) as [Eb|Nb]; cbn [andb]; [|gates_done].
  destruct (Z.eqb_spec (GetImagePatchDelta (GetOatHeader file)) (patch_delta im))
    as [Ed|Nd]; gates_done.
Qed.

(** C5. The boot image gate, for a file that passed the first two gates and
    whose filter depends on the boot image checksum: without boot image info
    the file is let through exactly when the original dex files are
    unavailable too, and is kOatBootImageOutOfDate when they are available;
    with boot image info and a different recorded image checksum it is
    kOatBootImageOutOfDate. *)
Theorem boot_image_gate (a : OatFileAssistant) (file : OatFile) :
  live a →
  IsConcurrentCopying (GetOatHeader file) = kUseReadBarrier rt →
  (∀ req, result (GetRequiredDexChecksums rt) a = Some (Some req) →
          ¬ checksum_lists_differ req (candidate_checksums rt (dex_location_ a) file)) →
  DependsOnImageChecksum (GetCompilerFilter file) = true →
  ∃ st has_dex image,
    result (GivenOatFileStatus rt file) a = Some st
    ∧ result (HasOriginalDexFiles rt) a = Some has_dex
    ∧ result (GetImageInfo rt) a = Some image
    ∧ match image with
      | None =>
          (st ≠ kOatBootImageOutOfDate ↔ has_dex = false)
          ∧ (has_dex = true → st = kOatBootImageOutOfDate)
          ∧ (has_dex = false → st = relocation_status file None)
      | Some im =>
          GetImageFileLocationOatChecksum (GetOatHeader file) ≠ oat_checksum im →
          st = kOatBootImageOutOfDate
      end.
Proof.
  intros Hl Hcc Hsum Hdep. eexists _, _, _.
  split; [by apply GivenOatFileStatus_result|].
  split; [by apply HasOriginalDexFiles_result|].
  split; [by apply GetImageInfo_result|].
  rewrite (GetRequiredDexChecksums_result a Hl) in Hsum.
  unfold given_status, image_gate_rejects. rewrite Hcc, Bool.eqb_reflx, Hdep. cbn [negb andb].
  assert (checksums_ok rt (required_checksums_of rt a) (dex_location_ a) file = true)
    as ->.
  { destruct (required_checksums_of rt a) as [req|].
    - apply checksums_ok_differ. by apply Hsum.
    - apply checksums_ok_None. }
  cbn [negb].
  destruct (image_of rt a) as [im|].
  - intros Hne. by destruct (Z.eqb_spec (GetImageFileLocationOatChecksum (GetOatHeader file))
                               (oat_checksum im)).
  - destruct (has_original_of rt a).
    + split; [split; [done|]|split]; done.
    + unfold relocation_status.
      split; [split; [done|]|split]; try done.
      by destruct (_ && _).
Qed.

(** C6. A candidate whose oat file cannot be opened gets its status from
    the vdex file: kOatCannotOpen if that does not open either,
    kOatBootImageOutOfDate if its checksums match the required ones,
    kOatDexOutOfDate if they do not. *)
Theorem Status_vdex_fallback (a : OatFileAssistant) (r : InfoRef) :
  live a →
  status_attempted_ (info r a) = false →
  result (GetFile rt r) a = Some None →
  ∃ st required,
    result (Status rt r) a = Some st
    ∧ result (GetRequiredDexChecksums rt) a = Some required
    ∧ match VdexFile_Open rt (disk a) (GetVdexFilename rt (filename_ (info r a))) with
      | None => st = kOatCannotOpen
      | Some vdex =>
          ∃ up_to_date,
            result (DexChecksumUpToDate_vdex rt vdex) a = Some up_to_date
            ∧ st = (if up_to_date then kOatBootImageOutOfDate else kOatDexOutOfDate)
            ∧ (∀ req, required = Some req →
                      (up_to_date = true ↔ vdex_location_checksums vdex = req))
            ∧ (required = None → up_to_date = true)
      end.
Proof.
  intros Hl Hat Hfile. rewrite (GetFile_result r a Hl) in Hfile. injection Hfile as Hfile.
  eexists _, _.
  split; [by apply Status_result|].
  split; [by apply GetRequiredDexChecksums_result|].
  unfold status_of. rewrite Hat, (fresh_status_no_file _ _ Hfile).
  unfold vdex_only_status.
  destruct (VdexFile_Open rt (disk a) _) as [vdex|]; [|done].
  exists (vdex_checksums_ok (required_checksums_of rt a) vdex).
  split; [by rewrite (base_query_result _ _ _ (DexChecksumUpToDate_vdex_query vdex) Hl)|].
  split; [done|]. split.
  - intros req ->. apply vdex_checksums_ok_eq.
  - by intros ->.
Qed.

(** ** The decision and the selection *)

(** C2. [GetDexOptNeeded] on a candidate returns the first matching case of
    the decision table, for every target filter and profile-changed flag. *)
Theorem GetDexOptNeeded_first_match (a : OatFileAssistant) (r : InfoRef)
    (target : Filter) (profile_changed : bool) :
  live a →
  ∃ file st has_dex,
    result (GetFile rt r) a = Some file
    ∧ result (Status rt r) a = Some st
    ∧ result (HasOriginalDexFiles rt) a = Some has_dex
    ∧ result (CompilerFilterIsOkay rt r target profile_changed) a
      = Some (filter_is_okay file target profile_changed)
    ∧ result (OatFileInfo_GetDexOptNeeded rt r target profile_changed) a
      = Some (dexopt_decision (filter_is_okay file target profile_changed)
                (IsAotCompilationEnabled target) st has_dex).
Proof.
  intros Hl. eexists _, _, _.
  split; [by apply GetFile_result|].
  split; [by apply Status_result|].
  split; [by apply HasOriginalDexFiles_result|].
  split; [|by apply OatFileInfo_GetDexOptNeeded_result].
  rewrite (query_result _ _ _ (CompilerFilterIsOkay_query r target profile_changed) Hl).
  by rewrite pick_file.
Qed.

(** C3. [GetBestInfo] follows the selection policy: the odex candidate if
    the dex directory is writable; otherwise the oat candidate if usable,
    else the odex candidate if up to date, else the oat candidate if the
    original dex files are available, else the odex candidate unless it
    cannot be opened.  In particular an up-to-date oat candidate is chosen
    when the directory is not writable. *)
Theorem GetBestInfo_policy (a : OatFileAssistant) :
  live a →
  ∃ odex_status oat_status has_dex,
    result (Status rt odex_ref) a = Some odex_status
    ∧ result (Status rt oat_ref) a = Some oat_status
    ∧ result (HasOriginalDexFiles rt) a = Some has_dex
    ∧ result (GetBestInfo rt) a
      = Some (best_info_policy (dex_parent_writable_ a) odex_status oat_status has_dex)
    ∧ (dex_parent_writable_ a = false → oat_status = kOatUpToDate →
       result (GetBestInfo rt) a = Some oat_ref).
Proof.
  intros Hl. eexists _, _, _.
  split; [by apply Status_result|].
  split; [by apply Status_result|].
  split; [by apply HasOriginalDexFiles_result|].
  split; [by apply GetBestInfo_result|].
  intros Hw Hst. rewrite (GetBestInfo_result a Hl), Hw, Hst. done.
Qed.

Lemma GetDexOptNeeded_query target profile_changed :
  query rt (GetDexOptNeeded rt target profile_changed)
    (λ v, let r := best_info_policy (v_writable (v_base v))
                     (pick odex_ref (v_status v)) (pick oat_ref (v_status v))
                     (v_has_original (v_base v)) in
          public_dexopt_code rt (pick r (v_is_oat (v_base v)))
            (dexopt_decision
               (filter_is_okay (pick r (v_file (v_base v))) target profile_changed)
               (IsAotCompilationEnabled target)
               (pick r (v_status v))
               (v_has_original (v_base v)))).
Proof.
  qstart. unfold GetDexOptNeeded. cbv beta zeta.
  qstep GetBestInfo_query. cbv beta.
  set (r := best_info_policy _ _ _ _).
  qstep (OatFileInfo_GetDexOptNeeded_query r target profile_changed). cbv beta.
  set (d := dexopt_decision _ _ _ _).
  qstep (IsOatLocation_query r). cbv beta.
  unfold public_dexopt_code.
  destruct (_ || _); qdone.
Qed.

(** C10 (amended). The public [GetDexOptNeeded] returns the decision's value
    as it is when the best candidate is the oat location or the decision is
    kDex2OatFromScratch, and its negation otherwise.  With enumerator values
    that are not negative, a negative result means that the odex location is
    targeted, and a positive one that the oat location is targeted or that
    the decision is kDex2OatFromScratch. *)
Theorem GetDexOptNeeded_public_code (a : OatFileAssistant) (target : Filter)
    (profile_changed : bool) :
  live a →
  ∃ r d,
    result (GetBestInfo rt) a = Some r
    ∧ result (OatFileInfo_GetDexOptNeeded rt r target profile_changed) a = Some d
    ∧ let code := public_dexopt_code rt (is_oat_location_ (info r a)) d in
      result (GetDexOptNeeded rt target profile_changed) a = Some code
      ∧ (is_oat_location_ (info r a) = true ∨ d = kDex2OatFromScratch →
         code = DexOptNeeded_value rt d)
      ∧ (is_oat_location_ (info r a) = false → d ≠ kDex2OatFromScratch →
         code = (- DexOptNeeded_value rt d)%Z)
      ∧ ((∀ d', (0 ≤ DexOptNeeded_value rt d')%Z) →
         ((code < 0)%Z →
          is_oat_location_ (info r a) = false ∧ d ≠ kDex2OatFromScratch)
         ∧ ((0 < code)%Z →
            is_oat_location_ (info r a) = true ∨ d = kDex2OatFromScratch)).
Proof.
  intros Hl. eexists _, _.
  split; [by apply GetBestInfo_result|].
  split; [by apply OatFileInfo_GetDexOptNeeded_result|].
  cbv zeta. split.
  { rewrite (query_result _ _ _ (GetDexOptNeeded_query target profile_changed) Hl).
    cbv zeta. rewrite !pick_status, !pick_file. do 2 f_equal.
    by destruct (best_info_policy _ _ _ _). }
  set (r := best_info_policy _ _ _ _). set (d := dexopt_decision _ _ _ _).
  unfold public_dexopt_code.
  destruct (is_oat_location_ (info r a)); cbn [orb].
  - split; [done|]. split; [done|]. intros Hpos.
    split; [|by left]. specialize (Hpos d). lia.
  - case_bool_decide as Hd.
    + split; [done|]. split; [done|]. intros Hpos.
      split; [|by right]. specialize (Hpos d). lia.
    + split; [by intros [?|?]|]. split; [done|]. intros Hpos.
      split; [done|]. specialize (Hpos d). lia.
Qed.

(** C7 (amended). When the best candidate is up to date and its compiler
    filter is okay for the runtime's target filter and the profile-changed
    flag, [MakeUpToDate] succeeds at once and leaves the disk as it was. *)
Theorem MakeUpToDate_up_to_date (a : OatFileAssistant) (profile_changed : bool)
    (target : Filter) (r : InfoRef) :
  live a →
  GetRuntimeCompilerFilterOption rt = Some target →
  result (GetBestInfo rt) a = Some r →
  result (Status rt r) a = Some kOatUpToDate →
  result (CompilerFilterIsOkay rt r target profile_changed) a = Some true →
  ∃ a', MakeUpToDate rt profile_changed a = Some (kUpdateSucceeded, a')
        ∧ disk a' = disk a.
Proof.
  intros Hl Htarget Hbest Hst Hok.
  rewrite (GetBestInfo_result a Hl) in Hbest. injection Hbest as Hbest. subst r.
  set (r := best_info_policy _ _ _ _) in *.
  rewrite (Status_result r a Hl) in Hst. injection Hst as Hst.
  rewrite (query_result _ _ _ (CompilerFilterIsOkay_query r target profile_changed) Hl),
    pick_file in Hok.
  injection Hok as Hok.
  pose proof (calm_refl a) as K.
  unfold MakeUpToDate. rewrite Htarget.
  qstep GetBestInfo_query. cbv beta.
  change (best_info_policy _ _ _ _) with r.
  qstep (OatFileInfo_GetDexOptNeeded_query r target profile_changed). cbv beta.
  rewrite pick_status, pick_file, Hst, Hok. cbn.
  lazymatch goal with
  | K' : calm _ a ?a' |- _ =>
      exists a'; split; [done|apply (view_disk _ _ (calm_view _ _ _ K'))]
  end.
Qed.

(** ** Handing the best file over *)

Lemma status_is_run r st a :
  live a →
  ∃ a', status_is rt r st a = Some (bool_decide (status_of rt r a = st), a')
        ∧ calm rt a a'
        ∧ status_attempted_ (info r a') = true
        ∧ ((status_attempted_ (info r a) = true → load_attempted_ (info r a) = true) →
           load_attempted_ (info r a') = true).
Proof.
  intros Hl. destruct (Status_run r a Hl) as (a' & E & K & Hat & Hload).
  exists a'. split; [|done]. unfold status_is. by erewrite bind_Some by exact E.
Qed.

Lemma IsExecutable_info_run r a :
  live a →
  ∃ a', IsExecutable_info rt r a = Some (is_executable (file_of rt r a), a')
        ∧ quiet rt a a'
        ∧ load_attempted_ (info r a') = true
        ∧ file_ (info r a') = file_of rt r a.
Proof.
  intros Hl. destruct (GetFile_run r a Hl) as (a' & E & Q & Hload & Hfile).
  exists a'. split; [|done]. unfold IsExecutable_info. by erewrite bind_Some by exact E.
Qed.

Lemma bind_CHECK {B} (k : unit → M B) a : bind (CHECK true) k a = k tt a.
Proof. done. Qed.

Lemma ReleaseFile_eq r a :
  ReleaseFile r a = Some (file_ (info r a), set_info r (with_released (info r a)) a).
Proof. done. Qed.

Lemma loaded_file r a :
  load_attempted_ (info r a) = true → file_ (info r a) = file_of rt r a.
Proof. intros E. unfold file_of. by rewrite E. Qed.

Lemma live_reloaded r a : live a → live (reloaded r a).
Proof. intros [? ?]. split; by destruct r. Qed.

(** A file loaded after the reset was opened without execution. *)
Lemma reloaded_not_executable r a f :
  opens_as_requested rt →
  file_of rt r (reloaded r a) = Some f → IsExecutable f = false.
Proof.
  intros Hopen. unfold file_of.
  assert (load_attempted_ (info r (reloaded r a)) = false) as -> by by destruct r.
  assert (file_ (info r (reloaded r a)) = None) as -> by by destruct r.
  assert (load_executable_ (reloaded r a) = false) as -> by done.
  destruct (filename_provided_ _); [|done]. apply Hopen.
Qed.

Lemma reloaded_usable_file r a :
  usable (status_of rt r (reloaded r a)) = true →
  ∃ f, file_of rt r (reloaded r a) = Some f.
Proof.
  unfold status_of.
  assert (status_attempted_ (info r (reloaded r a)) = false) as -> by by destruct r.
  destruct (file_of rt r (reloaded r a)) as [f|] eqn:Hfile; [eauto|].
  rewrite (fresh_status_no_file _ _ Hfile). unfold vdex_only_status.
  by repeat case_match.
Qed.

(** The second half of [ReleaseFileForUse], from the reset on. *)
Lemma reload_run r a :
  opens_as_requested rt →
  live a →
  ∃ res a',
    (useable <- IsUseable rt r ;;
     if useable then
       executable <- IsExecutable_info rt r ;;
       CHECK (negb executable) ;;;
       ReleaseFile r
     else ret None) (reloaded r a) = Some (res, a')
    ∧ load_executable_ a' = false
    ∧ res = (if usable (status_of rt r (reloaded r a))
             then file_of rt r (reloaded r a) else None).
Proof.
  intros Hopen Hl.
  set (a4 := reloaded r a).
  assert (live a4) as Hl4 by by apply live_reloaded.
  destruct (Status_run r a4 Hl4) as (a5 & E5 & K5 & _ & Hload5).
  assert (load_attempted_ (info r a5) = true) as Hl5'.
  { apply Hload5. unfold a4. by destruct r. }
  assert (live a5) as Hl5 by (by eapply view_live; [apply K5|]).
  assert (load_executable_ a5 = false) as Hx5
    by by rewrite (view_load_executable _ _ (calm_view _ _ _ K5)).
  unfold IsUseable. rewrite bind_assoc. erewrite bind_Some by exact E5.
  destruct (usable (status_of rt r a4)) eqn:Hus.
  - destruct (reloaded_usable_file r a Hus) as [f Hf].
    pose proof (reloaded_not_executable r a f Hopen Hf) as Hnx.
    destruct (IsExecutable_info_run r a5 Hl5) as (a6 & E6 & Q6 & Hload6 & Hfile6).
    rewrite (view_file r _ _ (calm_view _ _ _ K5)) in E6, Hfile6.
    fold a4 in Hf. rewrite Hf in E6. simpl in E6. rewrite Hnx in E6.
    assert ((if usable (status_of rt r a4) then true else false) = true) as Hs
      by by rewrite Hus.
    destruct (status_of rt r a4); try done; rewrite bind_ret;
      erewrite bind_Some by exact E6; cbn [negb];
      rewrite bind_CHECK, ReleaseFile_eq, Hfile6;
      (eexists _, _; split; [done|]; split; [|done]);
      rewrite <- Hx5, <- (view_load_executable _ _ (quiet_view _ _ _ Q6));
      by destruct r.
  - destruct (status_of rt r a4); try done; rewrite bind_ret;
      (eexists _, _; split; [done|]; split; done).
Qed.

Lemma ReleaseFileForUse_run r a :
  opens_as_requested rt →
  live a →
  settled a →
  ∃ res a',
    ReleaseFileForUse rt r a = Some (res, a')
    ∧ match status_of rt r a with
      | kOatUpToDate => res = file_of rt r a
      | kOatRelocationOutOfDate =>
          if is_executable (file_of rt r a) then
            load_executable_ a' = false
            ∧ ∃ a3, view rt a3 = view rt a
                    ∧ res = (if usable (status_of rt r (reloaded r a3))
                             then file_of rt r (reloaded r a3) else None)
          else res = file_of rt r a
      | _ => res = None
      end.
Proof.
  intros Hopen Hl Hset. unfold ReleaseFileForUse.
  destruct (status_is_run r kOatUpToDate a Hl) as (a1 & E1 & K1 & Hat1 & Hload1).
  specialize (Hload1 (Hset r)).
  erewrite bind_Some by exact E1. clear E1.
  assert (live a1) as Hl1 by (by eapply view_live; [apply K1|]).
  destruct (decide (status_of rt r a = kOatUpToDate)) as [Hup|Hnup].
  { rewrite (bool_decide_eq_true_2 _ Hup), ReleaseFile_eq, Hup.
    eexists _, _. split; [done|].
    by rewrite (loaded_file _ _ Hload1), (view_file r _ _ (calm_view _ _ _ K1)). }
  rewrite (bool_decide_eq_false_2 _ Hnup).
  destruct (status_is_run r kOatRelocationOutOfDate a1 Hl1)
    as (a2 & E2 & K2 & Hat2 & Hload2).
  specialize (Hload2 (λ _, Hload1)).
  rewrite (view_status r _ _ (calm_view _ _ _ K1)) in E2.
  erewrite bind_Some by exact E2. clear E2.
  assert (live a2) as Hl2 by (by eapply view_live; [apply K2|]).
  pose proof (calm_trans _ _ _ K1 K2) as K02.
  destruct (decide (status_of rt r a = kOatRelocationOutOfDate)) as [Hrel|Hnrel].
  2: { rewrite (bool_decide_eq_false_2 _ Hnrel). unfold and_then. rewrite bind_ret.
       destruct (status_is_run r kOatRelocationOutOfDate a2 Hl2) as (a3 & E3 & K3 & _).
       rewrite (view_status r _ _ (calm_view _ _ _ K02)) in E3.
       erewrite bind_Some by exact E3.
       rewrite (bool_decide_eq_false_2 _ Hnrel).
       eexists _, _. split; [done|]. by destruct (status_of rt r a). }
  rewrite (bool_decide_eq_true_2 _ Hrel), Hrel. unfold and_then.
  destruct (IsExecutable_info_run r a2 Hl2) as (a3 & E3 & Q3 & Hload3 & Hfile3).
  rewrite (view_file r _ _ (calm_view _ _ _ K02)) in E3, Hfile3.
  rewrite !bind_assoc. erewrite bind_Some by exact E3. clear E3. rewrite bind_ret.
  assert (live a3) as Hl3 by (by eapply view_live; [apply Q3|]).
  pose proof (calm_trans _ _ _ K02 (quiet_calm _ _ Q3)) as K03.
  destruct (is_executable (file_of rt r a)) eqn:Hex; cbn [negb].
  2: { rewrite ReleaseFile_eq, Hfile3. eexists _, _. split; done. }
  destruct (status_is_run r kOatRelocationOutOfDate a3 Hl3) as (a4 & E4 & K4 & _).
  rewrite (view_status r _ _ (calm_view _ _ _ K03)) in E4.
  erewrite bind_Some by exact E4. clear E4.
  rewrite (bool_decide_eq_true_2 _ Hrel).
  assert (live a4) as Hl4 by (by eapply view_live; [apply K4|]).
  pose proof (calm_trans _ _ _ K03 K4) as K04.
  destruct (reload_run r a4 Hopen Hl4) as (res & a' & E & Hx & Hres).
  exists res, a'. split; [exact E|]. split; [done|].
  exists a4. split; [apply K04|done].
Qed.

(** C9. [GetBestOatFile] hands the best candidate's file over as it is only
    when its status is kOatUpToDate, or kOatRelocationOutOfDate with a file
    that is not executable.  For an executable file that needs relocation it
    switches executable loading off, resets the candidate and hands over the
    reloaded file if that is usable, which is then not executable, and null
    otherwise; for any other status it returns null.  So an executable file
    is only ever returned with status kOatUpToDate. *)
Theorem GetBestOatFile_no_unrelocated_executable (a : OatFileAssistant) :
  opens_as_requested rt →
  live a →
  settled a →
  ∃ r st file res a',
    result (GetBestInfo rt) a = Some r
    ∧ result (Status rt r) a = Some st
    ∧ result (GetFile rt r) a = Some file
    ∧ GetBestOatFile rt a = Some (res, a')
    ∧ match st with
      | kOatUpToDate => res = file
      | kOatRelocationOutOfDate =>
          if is_executable file then
            load_executable_ a' = false
            ∧ ∃ a3 st' file',
                view rt a3 = view rt a
                ∧ result (Status rt r) (reloaded r a3) = Some st'
                ∧ result (GetFile rt r) (reloaded r a3) = Some file'
                ∧ res = (if usable st' then file' else None)
                ∧ is_executable res = false
          else res = file
      | _ => res = None
      end
    ∧ (is_executable res = true → st = kOatUpToDate).
Proof.
  intros Hopen Hl Hset.
  destruct (GetBestInfo_query a Hl) as (a0 & E0 & K0). cbv beta in E0.
  set (r := best_info_policy _ _ _ _) in E0.
  assert (live a0) as Hl0 by (by eapply view_live; [apply K0|]).
  destruct (ReleaseFileForUse_run r a0 Hopen Hl0 (calm_settled _ _ _ K0 Hset))
    as (res & a' & E & Hres).
  rewrite (view_status r _ _ (calm_view _ _ _ K0)),
    (view_file r _ _ (calm_view _ _ _ K0)) in Hres.
  exists r, (status_of rt r a), (file_of rt r a), res, a'.
  split; [by rewrite (result_Some _ _ _ _ E0)|].
  split; [by apply Status_result|].
  split; [by apply GetFile_result|].
  split; [unfold GetBestOatFile; by erewrite bind_Some by exact E0|].
  destruct (status_of rt r a) eqn:Hst; try (split; [done|by subst res]).
  destruct (is_executable (file_of rt r a)) eqn:Hex.
  - destruct Hres as (Hx & a3 & Hv3 & Hres).
    assert (is_executable res = false) as Hnx.
    { rewrite Hres. destruct (usable _) eqn:Hus; [|done].
      destruct (reloaded_usable_file r a3 Hus) as [f Hf]. rewrite Hf. simpl.
      by apply (reloaded_not_executable r a3 f Hopen). }
    split; [|by rewrite Hnx].
    split; [done|].
    exists a3, (status_of rt r (reloaded r a3)), (file_of rt r (reloaded r a3)).
    split; [by rewrite Hv3, (calm_view _ _ _ K0)|].
    split; [apply Status_result; by apply live_reloaded, (view_live _ _ Hv3)|].
    split; [apply GetFile_result; by apply live_reloaded, (view_live _ _ Hv3)|].
    done.
  - split; [done|]. rewrite Hres, Hex. done.
Qed.

(** ** Construction and regeneration *)

(** A new assistant has released nothing and cached nothing. *)
Lemma new_OatFileAssistant_live d dex_location isa load_executable :
  live (new_OatFileAssistant rt d dex_location isa load_executable)
  ∧ settled (new_OatFileAssistant rt d dex_location isa load_executable).
Proof.
  unfold new_OatFileAssistant, live, settled.
  destruct (realpath rt d dex_location) as [real|]; simpl.
  - destruct (DexLocationToOdexFilename real isa), (DexLocationToOatFilename rt real isa);
      simpl; (split; [done|by intros []]).
  - split; [done|by intros []].
Qed.



(** * Further properties of the code *)

(** ** The lazy values are computed once *)

(** X1. The status of a candidate is computed at most once between resets:
    a second call of [Status] returns the same status and changes nothing. *)
Theorem Status_computed_once (r : InfoRef) (a a' : OatFileAssistant) (st : OatStatus) :
  live a →
  Status rt r a = Some (st, a') →
  Status rt r a' = Some (st, a').
Proof.
  intros Hl E. destruct (Status_run r a Hl) as (a1 & E1 & K & Hat & _).
  rewrite E in E1. injection E1 as -> <-.
  pose proof (view_status r _ _ (calm_view _ _ _ K)) as Hst.
  unfold status_of in Hst at 1. rewrite Hat in Hst.
  unfold Status. erewrite bind_Some by reflexivity. cbv beta. rewrite Hat.
  rewrite bind_ret. unfold gets. by rewrite Hst.
Qed.

(** X2. The required dex checksums are read once per assistant: what
    [GetRequiredDexChecksums] and [HasOriginalDexFiles] returned is returned
    again whatever happens to the disk or to a candidate (a reset after
    regeneration included) in between. *)
Theorem required_checksums_not_reread (a a1 : OatFileAssistant)
    (required : option (list Z)) (d : Disk) (r : InfoRef) (i : OatFileInfo) :
  live a →
  GetRequiredDexChecksums rt a = Some (required, a1) →
  result (GetRequiredDexChecksums rt) (set_disk d (set_info r i a1)) = Some required
  ∧ result (HasOriginalDexFiles rt) (set_disk d (set_info r i a1))
    = result (HasOriginalDexFiles rt) a.
Proof.
  intros Hl E. destruct (GetRequiredDexChecksums_run a Hl) as (a2 & E2 & Q & Hat).
  rewrite E in E2. injection E2 as -> <-.
  pose proof (view_required _ _ (quiet_view _ _ _ Q)) as Hreq.
  pose proof (view_has_original _ _ (quiet_view _ _ _ Q)) as Hdex.
  rewrite (required_checksums_cached _ Hat) in Hreq.
  rewrite (has_original_cached _ Hat) in Hdex.
  rewrite (HasOriginalDexFiles_result a Hl).
  set (a2 := set_disk d (set_info r i a1)).
  assert (required_dex_checksums_attempted_ a2 = true) as Hat2 by done.
  split.
  - unfold GetRequiredDexChecksums, result.
    erewrite bind_Some by reflexivity. cbv beta. rewrite Hat2, bind_ret.
    unfold bind, gets, ret, id. simpl. by rewrite Hreq.
  - unfold HasOriginalDexFiles, GetRequiredDexChecksums, result.
    rewrite !bind_assoc. erewrite bind_Some by reflexivity. cbv beta.
    rewrite Hat2, !bind_assoc, bind_ret. unfold bind, gets, ret, id. simpl.
    by rewrite Hdex.
Qed.

(** X3. The boot image info is loaded at most once: what [GetImageInfo]
    returned, a failed load included, is returned again without a new
    attempt, whatever the disk has become. *)
Theorem GetImageInfo_not_retried (a a1 : OatFileAssistant)
    (image : option ImageInfo) (d : Disk) :
  GetImageInfo rt a = Some (image, a1) →
  GetImageInfo rt (set_disk d a1) = Some (image, set_disk d a1).
Proof.
  unfold GetImageInfo, bind, gets, modify, ret, id. simpl.
  destruct (image_info_load_attempted_ a) eqn:Hat; simpl; intros [= <- <-]; simpl.
  - by rewrite Hat.
  - done.
Qed.

(** ** Where the required checksums come from *)

Lemma odex_checksums_loop_found (f : OatFile) (dex_location : string)
    (indices : list nat) (pushed : list Z) :
  (∀ found cs,
     odex_checksums_loop rt f dex_location indices pushed = (found, cs) →
     found = true →
     ∃ cs', cs = pushed ++ cs'
            ∧ (λ i, GetOatDexFile f (GetMultiDexLocation rt i dex_location)) <$> indices
              = Some <$> cs')
  ∧ (∀ cs',
       (λ i, GetOatDexFile f (GetMultiDexLocation rt i dex_location)) <$> indices
       = Some <$> cs' →
       odex_checksums_loop rt f dex_location indices pushed = (true, pushed ++ cs')).
Proof.
  revert pushed. induction indices as [|i rest IH]; intros pushed;
    cbn [odex_checksums_loop]; rewrite ?fmap_cons.
  - split.
    + intros found cs [= <- <-] _. exists []. by rewrite app_nil_r.
    + intros [|c cs'] E; [by rewrite app_nil_r|done].
  - destruct (GetOatDexFile f (GetMultiDexLocation rt i dex_location)) as [c|] eqn:Hc.
    + destruct (IH (pushed ++ [c])) as [IH1 IH2]. split.
      * intros found cs E Hf. destruct (IH1 found cs E Hf) as (cs' & -> & Hl).
        exists (c :: cs'). rewrite <- app_assoc, fmap_cons, Hl. done.
      * intros [|c' cs'] E; [done|]. rewrite fmap_cons in E. injection E as -> E.
        rewrite (IH2 cs' E), <- app_assoc. done.
    + split.
      * by intros found cs [= <- <-] ?.
      * intros [|c' cs'] E; done.
Qed.

(** X4. On first use the required checksums come from the dex location
    itself when it can be read, and then the original dex files count as
    present; otherwise they count as absent, and checksums are required
    exactly when the odex candidate's file opens and knows every one of its
    dex files by the multidex names: the required list is then that file's
    own list. *)
Theorem required_checksums_source (a : OatFileAssistant) :
  live a →
  required_dex_checksums_attempted_ a = false →
  match GetMultiDexChecksums rt (disk a) (dex_location_ a) with
  | Some cs =>
      result (HasOriginalDexFiles rt) a = Some true
      ∧ result (GetRequiredDexChecksums rt) a = Some (Some cs)
  | None =>
      result (HasOriginalDexFiles rt) a = Some false
      ∧ ∀ required,
          result (GetRequiredDexChecksums rt) a = Some (Some required) ↔
          ∃ f, result (GetFile rt odex_ref) a = Some (Some f)
               ∧ (λ i, GetOatDexFile f (GetMultiDexLocation rt i (dex_location_ a)))
                   <$> seq 0 (GetDexFileCount (GetOatHeader f)) = Some <$> required
  end.
Proof.
  intros Hl Hat.
  rewrite (HasOriginalDexFiles_result a Hl), (GetRequiredDexChecksums_result a Hl),
    (GetFile_result odex_ref a Hl).
  unfold has_original_of, required_checksums_of, required_of. rewrite Hat.
  destruct (GetMultiDexChecksums rt (disk a) (dex_location_ a)) as [cs|]; [done|].
  destruct (file_of rt odex_ref a) as [f|].
  - destruct (odex_checksums_loop_found f (dex_location_ a)
                (seq 0 (GetDexFileCount (GetOatHeader f))) []) as [L1 L2].
    destruct (odex_checksums_loop rt f _ _ _) as [found cs] eqn:Hloop.
    split; [done|]. intros required. split.
    + destruct found; [|done]. intros [= <-].
      destruct (L1 true cs eq_refl eq_refl) as (cs' & -> & Hcs'). by exists f.
    + intros (f' & [= <-] & Hreq). by injection (L2 required Hreq) as -> ->.
  - split; [done|]. intros required. split; [done|]. by intros (f & ? & _).
Qed.

(** X5. When no checksums are required (the dex location cannot be read and
    the odex file does not supply them), the checksum gate lets every
    candidate through: no candidate evaluates to kOatDexOutOfDate. *)
Theorem no_required_checksums_no_mismatch (a : OatFileAssistant) (r : InfoRef) :
  live a →
  status_attempted_ (info r a) = false →
  result (GetRequiredDexChecksums rt) a = Some None →
  result (Status rt r) a ≠ Some kOatDexOutOfDate.
Proof.
  intros Hl Hat. rewrite (GetRequiredDexChecksums_result a Hl), (Status_result r a Hl).
  intros [= Hreq]. unfold status_of. rewrite Hat.
  destruct (file_of rt r a) as [f|] eqn:Hfile.
  - rewrite (fresh_status_file _ _ _ Hfile), Hreq.
    unfold given_status. rewrite checksums_ok_None.
    destruct (negb (Bool.eqb _ _)); [done|]. cbn [negb].
    destruct (image_gate_rejects _ _ _); [done|].
    unfold relocation_status. by repeat case_match.
  - rewrite (fresh_status_no_file _ _ Hfile), Hreq.
    unfold vdex_only_status. simpl. by case_match.
Qed.

(** ** Handing the best file over *)

Lemma fresh_usable_file r a :
  status_attempted_ (info r a) = false →
  usable (status_of rt r a) = true →
  ∃ f, file_of rt r a = Some f.
Proof.
  intros Hat. unfold status_of. rewrite Hat.
  destruct (file_of rt r a) as [f|] eqn:Hfile; [eauto|].
  rewrite (fresh_status_no_file _ _ Hfile). unfold vdex_only_status.
  by repeat case_match.
Qed.

(** X6. When no status has been computed yet and [IsUpToDate] answers true,
    [GetBestOatFile] returns a file: the one the best candidate opens. *)
Theorem up_to_date_file_is_handed_over (a : OatFileAssistant) :
  live a →
  (∀ r, status_attempted_ (info r a) = false) →
  result (IsUpToDate rt) a = Some true →
  ∃ r f a',
    result (GetBestInfo rt) a = Some r
    ∧ result (GetFile rt r) a = Some (Some f)
    ∧ GetBestOatFile rt a = Some (Some f, a').
Proof.
  intros Hl Hfresh Hup.
  assert (settled a) as Hset by (intros r Hr; by rewrite Hfresh in Hr).
  destruct (GetBestInfo_query a Hl) as (a0 & E0 & K0). cbv beta in E0.
  set (r := best_info_policy _ _ _ _) in E0.
  assert (live a0) as Hl0 by (by eapply view_live; [apply K0|]).
  destruct (status_is_run r kOatUpToDate a0 Hl0) as (a1 & E1 & K1 & Hat1 & Hload1).
  specialize (Hload1 (calm_settled _ _ _ K0 Hset r)).
  rewrite (view_status r _ _ (calm_view _ _ _ K0)) in E1.
  unfold IsUpToDate, result in Hup.
  erewrite bind_Some in Hup by exact E0. rewrite E1 in Hup. simpl in Hup.
  injection Hup as Hup. apply bool_decide_eq_true_1 in Hup.
  destruct (fresh_usable_file r a (Hfresh r)) as [f Hf]; [by rewrite Hup|].
  exists r, f. eexists.
  split; [by rewrite (result_Some _ _ _ _ E0)|].
  split; [by rewrite (GetFile_result r a Hl), Hf|].
  unfold GetBestOatFile, ReleaseFileForUse.
  erewrite bind_Some by exact E0. erewrite bind_Some by exact E1.
  rewrite (bool_decide_eq_true_2 _ Hup), ReleaseFile_eq.
  rewrite (loaded_file _ _ Hload1), (view_file r _ _ (calm_view _ _ _ K1)),
    (view_file r _ _ (calm_view _ _ _ K0)), Hf. done.
Qed.

Lemma released_set r a :
  file_released_ (info r (set_info r (with_released (info r a)) a)) = true.
Proof. by destruct r. Qed.

(** Whenever [ReleaseFileForUse] returns a file, it has marked the candidate
    as released. *)
Lemma ReleaseFileForUse_released r a f a' :
  live a →
  ReleaseFileForUse rt r a = Some (Some f, a') →
  file_released_ (info r a') = true.
Proof.
  intros Hl E. unfold ReleaseFileForUse in E.
  destruct (status_is_run r kOatUpToDate a Hl) as (a1 & E1 & K1 & _).
  erewrite bind_Some in E by exact E1. clear E1.
  assert (live a1) as Hl1 by (by eapply view_live; [apply K1|]).
  destruct (bool_decide _).
  { rewrite ReleaseFile_eq in E. injection E as _ <-. apply released_set. }
  destruct (status_is_run r kOatRelocationOutOfDate a1 Hl1) as (a2 & E2 & K2 & _).
  erewrite bind_Some in E by exact E2. clear E2.
  assert (live a2) as Hl2 by (by eapply view_live; [apply K2|]).
  assert (∀ (a3 : OatFileAssistant) (b : bool), live a3 →
            ((if b then ReleaseFile r
              else
                needs_relocation' <- status_is rt r kOatRelocationOutOfDate ;;
                if needs_relocation' then
                  modify (set_load_executable false) ;;;
                  Reset r ;;;
                  useable <- IsUseable rt r ;;
                  if useable then
                    executable <- IsExecutable_info rt r ;;
                    CHECK (negb executable) ;;;
                    ReleaseFile r
                  else ret None
                else ret None) a3 = Some (Some f, a') →
            file_released_ (info r a') = true)) as Hrest.
  { intros a3 [] Hl3 E3.
    { rewrite ReleaseFile_eq in E3. injection E3 as _ <-. apply released_set. }
    destruct (status_is_run r kOatRelocationOutOfDate a3 Hl3) as (a4 & E4 & K4 & _).
    erewrite bind_Some in E3 by exact E4. clear E4.
    assert (live a4) as Hl4 by (by eapply view_live; [apply K4|]).
    destruct (bool_decide (status_of rt r a3 = _)); [|by unfold ret in E3].
    change ((useable <- IsUseable rt r ;;
             if useable then
               executable <- IsExecutable_info rt r ;;
               CHECK (negb executable) ;;;
               ReleaseFile r
             else ret None)%assistant (reloaded r a4) = Some (Some f, a')) in E3.
    pose proof (live_reloaded r a4 Hl4) as Hl5.
    destruct (Status_run r _ Hl5) as (a6 & E6 & K6 & _).
    unfold IsUseable in E3. rewrite bind_assoc in E3.
    erewrite bind_Some in E3 by exact E6. clear E6.
    assert (live a6) as Hl6 by (by eapply view_live; [apply K6|]).
    destruct (IsExecutable_info_run r a6 Hl6) as (a7 & E7 & _).
    destruct (status_of rt r (reloaded r a4)); rewrite bind_ret in E3;
      try (by unfold ret in E3).
    all: erewrite bind_Some in E3 by exact E7.
    all: destruct (is_executable _); [by unfold bind, CHECK in E3|].
    all: cbn [negb] in E3; rewrite bind_CHECK, ReleaseFile_eq in E3.
    all: injection E3 as _ <-; apply released_set. }
  destruct (bool_decide _); unfold and_then in E.
  - destruct (IsExecutable_info_run r a2 Hl2) as (a3 & E3 & Q3 & _).
    rewrite !bind_assoc in E. erewrite bind_Some in E by exact E3. clear E3.
    rewrite bind_ret in E.
    apply (Hrest a3 _) in E; [done|]. by eapply view_live; [apply Q3|].
  - rewrite bind_ret in E. by apply (Hrest a2 false) in E.
Qed.

(** X7. A file is handed over once: after [GetBestOatFile] has returned a
    file, the candidate it came from is marked as released, reading its file
    again aborts, and so does asking it whether dexopt is needed, also after
    a reset of the candidate. *)
Theorem handed_over_file_is_gone (a a' : OatFileAssistant) (f : OatFile)
    (target : Filter) (profile_changed : bool) :
  live a →
  GetBestOatFile rt a = Some (Some f, a') →
  ∃ r, result (GetBestInfo rt) a = Some r
       ∧ file_released_ (info r a') = true
       ∧ GetFile rt r a' = None
       ∧ OatFileInfo_GetDexOptNeeded rt r target profile_changed a' = None
       ∧ (Reset r ;;; GetFile rt r)%assistant a' = None.
Proof.
  intros Hl E.
  destruct (GetBestInfo_query a Hl) as (a0 & E0 & K0). cbv beta in E0.
  set (r := best_info_policy _ _ _ _) in E0.
  assert (live a0) as Hl0 by (by eapply view_live; [apply K0|]).
  unfold GetBestOatFile in E. erewrite bind_Some in E by exact E0.
  apply (ReleaseFileForUse_released r a0 f a' Hl0) in E.
  exists r. split; [by rewrite (result_Some _ _ _ _ E0)|]. split; [done|].
  assert (GetFile rt r a' = None) as Hgone.
  { unfold GetFile. erewrite bind_Some by reflexivity. by rewrite E. }
  split; [done|]. split.
  - unfold OatFileInfo_GetDexOptNeeded, CompilerFilterIsOkay.
    rewrite !bind_assoc. unfold bind at 1. by rewrite Hgone.
  - unfold Reset. erewrite bind_Some by reflexivity.
    unfold GetFile. erewrite bind_Some by reflexivity.
    assert (file_released_ (info r (set_info r (with_reset (info r a')) a')) = true) as ->
      by (destruct r; exact E).
    done.
Qed.

Lemma unloaded_not_executable r a :
  opens_as_requested rt →
  load_executable_ a = false →
  load_attempted_ (info r a) = false →
  file_ (info r a) = None →
  is_executable (file_of rt r a) = false.
Proof.
  intros Hopen Hx Hload Hfile. unfold file_of. rewrite Hload, Hx, Hfile.
  destruct (filename_provided_ _); [|done].
  destruct (OatFile_Open _ _ _ _ _) as [f|] eqn:Hf; [|done]. simpl. by eapply Hopen.
Qed.

(** X8. An assistant made for an instruction set other than the runtime's
    never hands out an executable file, whatever [load_executable] was asked
    for: the constructor switches executable loading off, and when the dex
    location cannot be resolved no file is opened at all. *)
Theorem foreign_isa_never_executable (d : Disk) (dex_location : string)
    (isa : InstructionSet) (load_executable : bool) :
  opens_as_requested rt →
  isa_eqb isa kRuntimeISA = false →
  ∃ res a',
    GetBestOatFile rt (new_OatFileAssistant rt d dex_location isa load_executable)
    = Some (res, a')
    ∧ is_executable res = false.
Proof.
  intros Hopen Hisa.
  set (a := new_OatFileAssistant rt d dex_location isa load_executable).
  destruct (new_OatFileAssistant_live d dex_location isa load_executable) as [Hl Hset].
  fold a in Hl, Hset.
  assert (∀ r, is_executable (file_of rt r a) = false) as Hnx.
  { intros r. unfold a, new_OatFileAssistant.
    destruct (realpath rt d dex_location) as [real|].
    - apply unloaded_not_executable; [done|..].
      + simpl. rewrite Hisa. by destruct load_executable.
      + destruct r; simpl; unfold reset_to; by case_match.
      + destruct r; simpl; unfold reset_to; by case_match.
    - unfold file_of. by destruct r. }
  destruct (GetBestInfo_query a Hl) as (a0 & E0 & K0). cbv beta in E0.
  set (r := best_info_policy _ _ _ _) in E0.
  assert (live a0) as Hl0 by (by eapply view_live; [apply K0|]).
  destruct (ReleaseFileForUse_run r a0 Hopen Hl0 (calm_settled _ _ _ K0 Hset))
    as (res & a' & E & Hres).
  rewrite (view_file r _ _ (calm_view _ _ _ K0)), Hnx in Hres.
  exists res, a'.
  split; [unfold GetBestOatFile; by erewrite bind_Some by exact E0|].
  destruct (status_of rt r a0); subst res; by rewrite ?Hnx.
Qed.

(** ** Strings *)

Lemma append_nil (s : string) : "" +:+ s = s.
Proof. reflexivity. Qed.

Lemma append_cons x (s1 s2 : string) : String x s1 +:+ s2 = String x (s1 +:+ s2).
Proof. reflexivity. Qed.

Lemma append_assoc (s1 s2 s3 : string) : (s1 +:+ s2) +:+ s3 = s1 +:+ (s2 +:+ s3).
Proof.
  induction s1 as [|x s1 IH]; rewrite ?append_nil, ?append_cons; [done|by f_equal].
Qed.

Lemma append_length (s1 s2 : string) :
  String.length (s1 +:+ s2) = String.length s1 + String.length s2.
Proof.
  induction s1 as [|x s1 IH]; rewrite ?append_nil, ?append_cons; simpl;
    [done|by f_equal].
Qed.

Lemma substring_all (s : string) : String.substring 0 (String.length s) s = s.
Proof. induction s as [|x s IH]; simpl; [done|by f_equal]. Qed.

Lemma substring_prefix (s1 s2 : string) :
  String.substring 0 (String.length s1) (s1 +:+ s2) = s1.
Proof.
  induction s1 as [|x s1 IH]; rewrite ?append_nil, ?append_cons; simpl;
    [by destruct s2|by f_equal].
Qed.

Lemma substring_suffix (s1 s2 : string) :
  String.substring (String.length s1) (String.length s2) (s1 +:+ s2) = s2.
Proof.
  induction s1 as [|x s1 IH]; rewrite ?append_nil, ?append_cons; simpl;
    [apply substring_all|done].
Qed.

Lemma substr_from_suffix (s1 s2 : string) :
  substr_from (s1 +:+ s2) (String.length s1) = s2.
Proof.
  unfold substr_from. rewrite append_length.
  replace (String.length s1 + String.length s2 - String.length s1)
    with (String.length s2) by lia.
  apply substring_suffix.
Qed.

Lemma has_char_append c (s1 s2 : string) :
  has_char c (s1 +:+ s2) = has_char c s1 || has_char c s2.
Proof.
  induction s1 as [|x s1 IH]; rewrite ?append_nil, ?append_cons; simpl; [done|].
  rewrite <- orb_assoc. by f_equal.
Qed.

Lemma rfind_from_None c (s : string) pos :
  rfind_from c s pos = None ↔ has_char c s = false.
Proof.
  revert pos. induction s as [|x s IH]; intros pos; simpl; [done|].
  specialize (IH (S pos)).
  destruct (rfind_from c s (S pos)), (has_char c s), (Ascii.eqb x c); simpl;
    try done; destruct IH as [IH1 IH2];
    try (by discriminate IH1); try (by discriminate IH2).
Qed.

Lemma rfind_from_last c (s1 s2 : string) pos :
  has_char c s2 = false →
  rfind_from c (s1 +:+ String c s2) pos = Some (pos + String.length s1).
Proof.
  intros Hs2. revert pos.
  induction s1 as [|x s1 IH]; intros pos; rewrite ?append_nil, ?append_cons; simpl.
  - rewrite (proj2 (rfind_from_None c s2 (S pos)) Hs2), Ascii.eqb_refl.
    f_equal. lia.
  - rewrite IH. f_equal. lia.
Qed.

Lemma rfind_from_split c (s : string) pos p :
  rfind_from c s pos = Some p →
  ∃ s1 s2, s = s1 +:+ String c s2 ∧ p = pos + String.length s1
           ∧ has_char c s2 = false.
Proof.
  revert pos. induction s as [|x s IH]; intros pos; simpl; [done|].
  destruct (rfind_from c s (S pos)) as [q|] eqn:Hq.
  - intros [= <-]. destruct (IH _ Hq) as (s1 & s2 & -> & -> & Hs2).
    exists (String x s1), s2. split; [done|]. split; [simpl; lia|done].
  - destruct (Ascii.eqb_spec x c) as [->|]; [|done]. intros [= <-].
    exists EmptyString, s. split; [done|]. split; [simpl; lia|].
    by apply rfind_from_None in Hq.
Qed.

(** ** The odex location *)

Lemma odex_location_split (dir file : string) :
  has_char "/" file = false →
  rfind "/" (dir +:+ "/" +:+ file) = Some (String.length dir)
  ∧ substr (dir +:+ "/" +:+ file) 0 (String.length dir + 1) = dir +:+ "/"
  ∧ substr_from (dir +:+ "/" +:+ file) (String.length dir + 1) = file.
Proof.
  intros Hfile. split; [|split].
  - unfold rfind. change ("/" +:+ file) with (String "/" file).
    by rewrite rfind_from_last.
  - unfold substr. rewrite <- append_assoc.
    replace (String.length dir + 1) with (String.length (dir +:+ "/"))
      by (rewrite append_length; done).
    apply substring_prefix.
  - rewrite <- append_assoc.
    replace (String.length dir + 1) with (String.length (dir +:+ "/"))
      by (rewrite append_length; done).
    apply substr_from_suffix.
Qed.

Lemma DexLocationToOdexNames_eq (dir base ext : string) (isa : InstructionSet) :
  has_char "/" base = false →
  has_char "/" ext = false →
  has_char "." ext = false →
  DexLocationToOdexNames (dir +:+ "/" +:+ base +:+ "." +:+ ext) isa
  = Some {| odex_filename :=
              dir +:+ "/oat/" +:+ GetInstructionSetString isa +:+ "/" +:+ base +:+ ".odex";
            oat_dir := dir +:+ "/oat";
            isa_dir := dir +:+ "/oat/" +:+ GetInstructionSetString isa |}.
Proof.
  intros Hbase Hext Hdot.
  assert (has_char "/" (base +:+ "." +:+ ext) = false) as Hfile.
  { rewrite !has_char_append, Hbase, Hext. done. }
  destruct (odex_location_split dir _ Hfile) as (Hpos & Hdir & Hrest).
  unfold DexLocationToOdexNames. rewrite Hpos, Hdir, Hrest.
  assert (rfind "." (base +:+ "." +:+ ext) = Some (String.length base)) as ->.
  { unfold rfind. change ("." +:+ ext) with (String "." ext).
    by rewrite rfind_from_last. }
  unfold substr. rewrite substring_prefix, !append_assoc. done.
Qed.

(** X9. The odex location of [dir/base.ext] is [dir/oat/<isa>/base.odex],
    its directories [dir/oat] and [dir/oat/<isa>]: the directory is cut at
    the last slash and the extension at the last dot of the file name. *)
Theorem DexLocationToOdexNames_shape (dir base ext : string) (isa : InstructionSet) :
  has_char "/" base = false →
  has_char "/" ext = false →
  has_char "." ext = false →
  DexLocationToOdexNames (dir +:+ "/" +:+ base +:+ "." +:+ ext) isa
  = Some {| odex_filename :=
              dir +:+ "/oat/" +:+ GetInstructionSetString isa +:+ "/" +:+ base +:+ ".odex";
            oat_dir := dir +:+ "/oat";
            isa_dir := dir +:+ "/oat/" +:+ GetInstructionSetString isa |}
  ∧ DexLocationToOdexFilename (dir +:+ "/" +:+ base +:+ "." +:+ ext) isa
    = Some (dir +:+ "/oat/" +:+ GetInstructionSetString isa +:+ "/" +:+ base +:+ ".odex").
Proof.
  intros Hbase Hext Hdot. unfold DexLocationToOdexFilename.
  by rewrite (DexLocationToOdexNames_eq dir base ext isa Hbase Hext Hdot).
Qed.

(** X10. No odex location is derived exactly when the dex location has no
    slash, or no dot after its last slash. *)
Theorem DexLocationToOdexNames_fails (location : string) (isa : InstructionSet) :
  DexLocationToOdexNames location isa = None ↔
  has_char "/" location = false
  ∨ ∃ dir file, location = dir +:+ "/" +:+ file
                ∧ has_char "/" file = false ∧ has_char "." file = false.
Proof.
  unfold DexLocationToOdexNames. split.
  - destruct (rfind "/" location) as [pos|] eqn:Hpos.
    + apply rfind_from_split in Hpos as (dir & file & -> & -> & Hfile).
      change (String "/" file) with ("/" +:+ file).
      destruct (odex_location_split dir _ Hfile) as (_ & _ & Hrest).
      rewrite Nat.add_0_l, Hrest.
      destruct (rfind "." file) eqn:Hdot; [done|]. intros _. right.
      exists dir, file. split; [done|]. split; [done|].
      by apply rfind_from_None in Hdot.
    + intros _. left. by apply rfind_from_None in Hpos.
  - intros [Hnone|(dir & file & -> & Hfile & Hdot)].
    + unfold rfind. by rewrite (proj2 (rfind_from_None _ _ _) Hnone).
    + destruct (odex_location_split dir _ Hfile) as (Hpos & _ & Hrest).
      rewrite Hpos, Hrest. unfold rfind.
      by rewrite (proj2 (rfind_from_None _ _ _) Hdot).
Qed.

(** ** The compiler filter of the runtime options *)

Lemma compiler_filter_options_app (front back : list string) (filter : Filter) :
  compiler_filter_options (front ++ back) filter
  = compiler_filter_options front filter ≫= compiler_filter_options back.
Proof.
  revert filter. induction front as [|o front IH]; intros filter; simpl; [done|].
  destruct (starts_with o _); [|apply IH].
  destruct (ParseCompilerFilter _); [apply IH|done].
Qed.

Lemma compiler_filter_options_none (options : list string) (filter : Filter) :
  Forall (λ o, starts_with o "--compiler-filter=" = false) options →
  compiler_filter_options options filter = Some filter.
Proof.
  induction 1 as [|o options Ho _ IH]; simpl; [done|]. by rewrite Ho.
Qed.

(** X11. The compiler filter of the runtime's compiler options: an option
    [--compiler-filter=<name>] whose name does not parse makes the lookup
    fail, wherever it stands; otherwise the last such option gives the
    filter, and the default is used when there is none. *)
Theorem compiler_filter_last_option_wins (options : list string) (default : Filter) :
  let is_filter_option o := starts_with o "--compiler-filter=" in
  let filter_of o :=
    ParseCompilerFilter (substr_from o (String.length "--compiler-filter=")) in
  (compiler_filter_options options default = None ↔
   ∃ o, o ∈ options ∧ is_filter_option o = true ∧ filter_of o = None)
  ∧ (Forall (λ o, is_filter_option o = false) options →
     compiler_filter_options options default = Some default)
  ∧ (∀ front o back filter,
       options = front ++ o :: back →
       compiler_filter_options options default ≠ None →
       is_filter_option o = true →
       filter_of o = Some filter →
       Forall (λ o', is_filter_option o' = false) back →
       compiler_filter_options options default = Some filter).
Proof.
  intros is_filter_option filter_of. split; [|split].
  - revert default. induction options as [|o options IH]; intros default;
      cbn [compiler_filter_options].
    + split; [done|]. intros (o & Ho & _). by apply elem_of_nil in Ho.
    + destruct (starts_with o _) eqn:Hprefix.
      * destruct (ParseCompilerFilter _) as [parsed|] eqn:Hparse.
        -- rewrite IH. split.
           ++ intros (o' & Ho' & Hbad). exists o'. split; [by right|done].
           ++ intros (o' & Ho' & Hf & Hbad).
              apply elem_of_cons in Ho' as [->|Ho']; [|by exists o'].
              unfold filter_of in Hbad. by rewrite Hparse in Hbad.
        -- split; [|done]. intros _. exists o. split; [by left|done].
      * rewrite IH. split.
        -- intros (o' & Ho' & Hbad). exists o'. split; [by right|done].
        -- intros (o' & Ho' & Hf & Hbad).
           apply elem_of_cons in Ho' as [->|Ho']; [|by exists o'].
           unfold is_filter_option in Hf. by rewrite Hprefix in Hf.
  - apply compiler_filter_options_none.
  - intros front o back filter -> Hsome Ho Hparse Hback.
    rewrite compiler_filter_options_app in Hsome |- *.
    destruct (compiler_filter_options front default) as [filter'|]; [|done].
    cbn [mbind option_bind compiler_filter_options].
    unfold is_filter_option in Ho. unfold filter_of in Hparse.
    rewrite Ho, Hparse. by apply compiler_filter_options_none.
Qed.

(** ** Directories of the odex location *)

Lemma set_disk_same a : set_disk (disk a) a = a.
Proof. by destruct a. Qed.

Lemma set_disk_twice d d' a : set_disk d' (set_disk d a) = set_disk d' a.
Proof. done. Qed.

Lemma PrepareDirectory_run (dir : string) (a : OatFileAssistant) :
  ∃ ok d',
    PrepareDirectory rt dir a = Some (ok, set_disk d' a)
    ∧ (∀ p, p ≠ dir → d' !! p = disk a !! p)
    ∧ (ok = true → ∃ mode, d' !! dir = Some (Dir mode))
    ∧ (∀ n, disk a !! dir = Some n → d' = disk a ∧ (ok = true → S_ISDIR n = true))
    ∧ (disk a !! dir = None → ok = true →
       d' !! dir = Some (Dir (Z.lor (Z.lor S_IRWXU S_IXGRP) S_IXOTH))).
Proof.
  unfold PrepareDirectory, sys_stat.
  rewrite bind_assoc. erewrite bind_Some by reflexivity. rewrite bind_ret.
  destruct (stat_fault rt (disk a) dir).
  { exists false, (disk a). rewrite set_disk_same. split; [done|]. split; [done|].
    split; [done|]. split; [|done]. by intros n _. }
  destruct (disk a !! dir) as [n|] eqn:Hn.
  { exists (S_ISDIR n), (disk a). rewrite set_disk_same. split; [done|].
    split; [done|]. split; [|split; [|done]].
    - destruct n; [|done]. intros _. by eexists.
    - by intros ? [= <-]. }
  unfold sys_mkdir. rewrite bind_assoc. erewrite bind_Some by reflexivity.
  rewrite Hn. destruct (mkdir_ok rt (disk a) dir).
  2: { rewrite bind_ret. cbn [negb]. exists false, (disk a). rewrite set_disk_same.
       split; [done|]. split; [done|]. split; [done|]. split; done. }
  rewrite bind_assoc. erewrite bind_Some by reflexivity. rewrite bind_ret.
  cbn [negb]. unfold sys_chmod. erewrite bind_Some by reflexivity.
  cbn [disk set_disk]. rewrite lookup_insert_eq.
  destruct (chmod_ok rt _ dir).
  - erewrite bind_Some by reflexivity. rewrite set_disk_twice.
    eexists true, _. split; [done|]. rewrite insert_insert_eq.
    split; [by intros p Hp; rewrite lookup_insert_ne|].
    rewrite lookup_insert_eq. split; [by eexists|]. split; done.
  - eexists false, _. split; [done|].
    split; [by intros p Hp; rewrite lookup_insert_ne|].
    split; [done|]. split; done.
Qed.

(** X12. [PrepareDirectory] answers true only if the path is a directory
    afterwards.  A path that exists is left as it is, and accepted exactly
    when it is a directory; a missing one is created with mode 0711.
    Nothing else than the disk entry of the path is changed. *)
Theorem PrepareDirectory_prepares (dir : string) (a : OatFileAssistant) :
  ∃ ok a',
    PrepareDirectory rt dir a = Some (ok, a')
    ∧ a' = set_disk (disk a') a
    ∧ (∀ p, p ≠ dir → disk a' !! p = disk a !! p)
    ∧ (ok = true → ∃ mode, disk a' !! dir = Some (Dir mode))
    ∧ (∀ n, disk a !! dir = Some n →
            disk a' = disk a
            ∧ ok = (negb (stat_fault rt (disk a) dir) && S_ISDIR n))
    ∧ (disk a !! dir = None → ok = true → disk a' !! dir = Some (Dir 457)).
Proof.
  destruct (PrepareDirectory_run dir a) as (ok & d' & E & Hframe & Hdir & Hold & Hnew).
  exists ok, (set_disk d' a). split; [done|]. split; [done|].
  split; [done|]. split; [done|]. split; [|done].
  intros n Hn. split; [by apply (Hold n)|].
  unfold PrepareDirectory, sys_stat in E.
  rewrite bind_assoc in E. erewrite bind_Some in E by reflexivity.
  rewrite bind_ret, Hn in E.
  destruct (stat_fault rt (disk a) dir); by injection E as <- _.
Qed.

Lemma append_ne (s t : string) : t ≠ "" → s +:+ t ≠ s.
Proof.
  intros Ht E. apply (f_equal String.length) in E. rewrite append_length in E.
  destruct t; [done|]. simpl in E. lia.
Qed.

Lemma odex_names_isa_dir (location : string) (isa : InstructionSet) (names : OdexNames) :
  DexLocationToOdexNames location isa = Some names →
  isa_dir names = oat_dir names +:+ "/" +:+ GetInstructionSetString isa.
Proof.
  unfold DexLocationToOdexNames. destruct (rfind "/" location); [|done].
  destruct (rfind "." _); [|done]. by intros [= <-].
Qed.

(** X13. [PrepareOdexDirectories] answers true only if both the [oat]
    directory beside the dex file and its instruction set directory are
    directories afterwards; it touches no other path, and does nothing when
    no odex location can be derived from the dex location. *)
Theorem PrepareOdexDirectories_prepares (dex_location expected : string)
    (isa : InstructionSet) (a : OatFileAssistant) :
  ∃ ok a',
    PrepareOdexDirectories rt dex_location expected isa a = Some (ok, a')
    ∧ a' = set_disk (disk a') a
    ∧ match DexLocationToOdexNames dex_location isa with
      | None => ok = false ∧ a' = a
      | Some names =>
          (ok = true →
           (∃ mode, disk a' !! oat_dir names = Some (Dir mode))
           ∧ (∃ mode, disk a' !! isa_dir names = Some (Dir mode)))
          ∧ (∀ p, p ≠ oat_dir names → p ≠ isa_dir names →
                  disk a' !! p = disk a !! p)
      end.
Proof.
  unfold PrepareOdexDirectories.
  destruct (DexLocationToOdexNames dex_location isa) as [names|] eqn:Hnames.
  2: { exists false, a. by rewrite set_disk_same. }
  pose proof (odex_names_isa_dir _ _ _ Hnames) as Hisa.
  assert (isa_dir names ≠ oat_dir names) as Hne.
  { rewrite Hisa. by apply append_ne. }
  destruct (PrepareDirectory_run (oat_dir names) a)
    as (ok1 & d1 & E1 & Hframe1 & Hdir1 & _).
  erewrite bind_Some by exact E1.
  destruct ok1; cbn [negb].
  2: { exists false, (set_disk d1 a). split; [done|]. split; [done|].
       split; [done|]. intros p Hp _. by apply Hframe1. }
  destruct (PrepareDirectory_run (isa_dir names) (set_disk d1 a))
    as (ok2 & d2 & E2 & Hframe2 & Hdir2 & _).
  rewrite set_disk_twice in E2. cbn [disk set_disk] in Hframe2.
  exists ok2, (set_disk d2 a). split; [done|]. split; [done|]. split.
  - intros ->. split; [|by apply Hdir2].
    cbn [disk set_disk]. rewrite Hframe2 by done. by apply Hdir1.
  - intros p Hp1 Hp2. cbn [disk set_disk]. by rewrite Hframe2, Hframe1.
Qed.

(** ** What regeneration touches *)

Lemma touches_weaken (P Q : string → Prop) {A} (m : M A) :
  (∀ p, P p → Q p) → touches P m → touches Q m.
Proof.
  intros HPQ Hm a. destruct (Hm a) as (x & d' & E & Hd). exists x, d'.
  split; [done|]. intros p Hp. apply Hd. intros HP. by apply Hp, HPQ.
Qed.

Lemma touches_ret (P : string → Prop) {A} (x : A) : touches P (ret x).
Proof. intros a. exists x, (disk a). by rewrite set_disk_same. Qed.

Lemma touches_gets (P : string → Prop) {A} (f : OatFileAssistant → A) :
  touches P (gets f).
Proof. intros a. exists (f a), (disk a). by rewrite set_disk_same. Qed.

Lemma touches_bind (P : string → Prop) {A B} (m : M A) (k : A → M B) :
  touches P m → (∀ x, touches P (k x)) → touches P (bind m k).
Proof.
  intros Hm Hk a. destruct (Hm a) as (x & d1 & E1 & Hd1).
  destruct (Hk x (set_disk d1 a)) as (y & d2 & E2 & Hd2).
  exists y, d2. erewrite bind_Some by exact E1. split; [done|].
  intros p Hp. by rewrite Hd2, Hd1.
Qed.

(** A step whose continuation depends on the state it reads. *)
Lemma touches_bind_gets (P : string → Prop) {A B} (f : OatFileAssistant → A)
    (k : A → M B) :
  (∀ x, touches P (k x)) → touches P (bind (gets f) k).
Proof. intros Hk. apply touches_bind; [apply touches_gets|done]. Qed.

Lemma touches_set_disk (P : string → Prop) (g : Disk → Disk) :
  (∀ d p, ¬ P p → g d !! p = d !! p) →
  touches P (modify (λ a, set_disk (g (disk a)) a)).
Proof. intros Hg a. exists tt, (g (disk a)). split; [done|]. intros p Hp. by apply Hg. Qed.

Lemma touches_sys_stat P path : touches P (sys_stat rt path).
Proof. unfold sys_stat. apply touches_bind_gets. intros d. apply touches_ret. Qed.

Lemma touches_sys_unlink (P : string → Prop) path : P path → touches P (sys_unlink path).
Proof.
  intros HP. apply (touches_set_disk P (delete path)).
  intros d p Hp. apply lookup_delete_ne. by intros ->.
Qed.

Lemma touches_insert (P : string → Prop) path (n : Node) (d : Disk) :
  P path →
  ∀ a, disk a = d →
       ∃ x d', modify (set_disk (<[path := n]> d)) a = Some (x, set_disk d' a)
               ∧ ∀ p, ¬ P p → d' !! p = disk a !! p.
Proof.
  intros HP a <-. exists tt, (<[path := n]> (disk a)). split; [done|].
  intros p Hp. apply lookup_insert_ne. by intros ->.
Qed.

Lemma touches_CreateEmptyFile (P : string → Prop) name :
  P name → touches P (CreateEmptyFile rt name).
Proof.
  intros HP a. unfold CreateEmptyFile. erewrite bind_Some by reflexivity.
  destruct (CreateEmptyFile_fd rt (disk a) name) as [fd|].
  - eexists _, _. split; [reflexivity|]. intros p Hp. cbn. apply lookup_insert_ne.
    by intros ->.
  - exists None, (disk a). by rewrite set_disk_same.
Qed.

Lemma CreateEmptyFile_path name a f a' :
  CreateEmptyFile rt name a = Some (Some f, a') → GetPath f = name.
Proof.
  unfold CreateEmptyFile, bind, gets, modify, ret.
  destruct (CreateEmptyFile_fd rt (disk a) name); [|done]. by intros [= <- _].
Qed.

Lemma touches_sys_fchmod (P : string → Prop) f mode :
  P (GetPath f) → touches P (sys_fchmod rt f mode).
Proof.
  intros HP a. unfold sys_fchmod. erewrite bind_Some by reflexivity.
  destruct (disk a !! GetPath f) as [n|].
  2: { exists false, (disk a). by rewrite set_disk_same. }
  destruct (fchmod_ok rt (disk a) (GetPath f)).
  - eexists _, _. split; [reflexivity|]. intros p Hp. apply lookup_insert_ne.
    intros E. by rewrite <- E in Hp.
  - exists false, (disk a). by rewrite set_disk_same.
Qed.

Lemma touches_Erase (P : string → Prop) f : P (GetPath f) → touches P (Erase f).
Proof.
  intros HP a. unfold Erase. erewrite bind_Some by reflexivity.
  destruct (disk a !! GetPath f) as [[m|m data]|].
  1,3: exists tt, (disk a); by rewrite set_disk_same.
  eexists _, _. split; [reflexivity|]. intros p Hp. apply lookup_insert_ne.
  intros E. by rewrite <- E in Hp.
Qed.

Lemma touches_FlushCloseOrErase (P : string → Prop) f :
  P (GetPath f) → touches P (FlushCloseOrErase rt f).
Proof.
  intros HP. unfold FlushCloseOrErase. apply touches_bind_gets. intros d.
  destruct (_ =? _)%Z; [apply touches_ret|].
  apply touches_bind; [by apply touches_Erase|]. intros _. apply touches_ret.
Qed.

Lemma touches_PrepareDirectory (P : string → Prop) dir :
  P dir → touches P (PrepareDirectory rt dir).
Proof.
  intros HP a. destruct (PrepareDirectory_run dir a) as (ok & d' & E & Hframe & _).
  exists ok, d'. split; [done|]. intros p Hp. apply Hframe. by intros ->.
Qed.

Lemma touches_PrepareOdexDirectories (P : string → Prop) dex_location expected isa :
  (∀ names, DexLocationToOdexNames dex_location isa = Some names →
            P (oat_dir names) ∧ P (isa_dir names)) →
  touches P (PrepareOdexDirectories rt dex_location expected isa).
Proof.
  intros HP. unfold PrepareOdexDirectories.
  destruct (DexLocationToOdexNames dex_location isa) as [names|]; [|apply touches_ret].
  destruct (HP names eq_refl) as [Hoat Hisa].
  apply touches_bind; [by apply touches_PrepareDirectory|]. intros ok.
  destruct (negb ok); [apply touches_ret|by apply touches_PrepareDirectory].
Qed.

Lemma touches_Dex2Oat args : touches (λ _, True) (Dex2Oat rt args).
Proof.
  unfold Dex2Oat. destruct (empty _); [apply touches_ret|].
  intros a. erewrite bind_Some by reflexivity.
  destruct (Exec rt _ (disk a)) as [ok d'] eqn:Hexec.
  exists ok, d'. split; [done|]. by intros p [].
Qed.

Lemma regenerated_set_disk r res d1 d2 a :
  regenerated r res d2 (set_disk d1 a) = regenerated r res d2 a.
Proof. unfold regenerated. destruct (bool_decide _); [by destruct r|done]. Qed.

Lemma regenerates_not_attempted r (P : string → Prop) :
  regenerates r P (ret kUpdateNotAttempted).
Proof.
  intros a. exists kUpdateNotAttempted, (disk a). unfold regenerated.
  rewrite bool_decide_eq_false_2 by done. by rewrite set_disk_same.
Qed.

Lemma regenerates_bind r (P : string → Prop) {A} (Q : A → Prop) (m : M A)
    (k : A → M ResultOfAttemptToUpdate) :
  touches P m →
  (∀ a x a', m a = Some (x, a') → Q x) →
  (∀ x, Q x → regenerates r P (k x)) →
  regenerates r P (bind m k).
Proof.
  intros Hm HQ Hk a. destruct (Hm a) as (x & d1 & E1 & Hd1).
  destruct (Hk x (HQ _ _ _ E1) (set_disk d1 a)) as (res & d2 & E2 & Hd2).
  exists res, d2. erewrite bind_Some by exact E1.
  rewrite regenerated_set_disk in E2. split; [done|].
  intros Hres p Hp. by rewrite (Hd2 Hres p Hp), Hd1.
Qed.

Lemma compiles_regenerates r (P : string → Prop) m :
  compiles r m → regenerates r P m.
Proof.
  intros Hm a. destruct (Hm a) as (res & d' & E & Hres). exists res, d'.
  split; [done|]. by intros ->.
Qed.

Lemma compiles_bind r {A} (m : M A) (k : A → M ResultOfAttemptToUpdate) :
  touches (λ _, True) m → (∀ x, compiles r (k x)) → compiles r (bind m k).
Proof.
  intros Hm Hk a. destruct (Hm a) as (x & d1 & E1 & _).
  destruct (Hk x (set_disk d1 a)) as (res & d2 & E2 & Hres).
  exists res, d2. erewrite bind_Some by exact E1.
  rewrite regenerated_set_disk in E2. done.
Qed.

Lemma compiles_failed r : compiles r (ret kUpdateFailed).
Proof.
  intros a. exists kUpdateFailed, (disk a). unfold regenerated.
  rewrite bool_decide_eq_false_2 by done. by rewrite set_disk_same.
Qed.

Lemma compiles_succeeded r : compiles r (Reset r ;;; ret kUpdateSucceeded).
Proof.
  intros a. exists kUpdateSucceeded, (disk a). unfold regenerated.
  rewrite bool_decide_eq_true_2 by done. by rewrite set_disk_same.
Qed.

Lemma touches_anything {A} (P : string → Prop) (m : M A) :
  touches P m → touches (λ _, True) m.
Proof. by apply touches_weaken. Qed.

(** The part of [GenerateOatFileNoChecks] from the compiler run on. *)
Lemma compile_and_close r (vdex_file oat_file : File) (vdex_file_name oat_file_name : string)
    (args : list string) :
  compiles r
    (compiled <- Dex2Oat rt args ;;
     if negb compiled then
       Erase vdex_file ;;;
       sys_unlink vdex_file_name ;;;
       Erase oat_file ;;;
       sys_unlink oat_file_name ;;;
       ret kUpdateFailed
     else
       vdex_closed <- FlushCloseOrErase rt vdex_file ;;
       if negb (vdex_closed =? 0)%Z then
         sys_unlink vdex_file_name ;;;
         ret kUpdateFailed
       else
         oat_closed <- FlushCloseOrErase rt oat_file ;;
         if negb (oat_closed =? 0)%Z then
           sys_unlink oat_file_name ;;;
           ret kUpdateFailed
         else
           Reset r ;;;
           ret kUpdateSucceeded).
Proof.
  apply compiles_bind; [apply touches_Dex2Oat|]. intros compiled.
  destruct (negb compiled).
  - apply compiles_bind; [by apply (touches_Erase (λ _, True))|]. intros _.
    apply compiles_bind; [by apply (touches_sys_unlink (λ _, True))|]. intros _.
    apply compiles_bind; [by apply (touches_Erase (λ _, True))|]. intros _.
    apply compiles_bind; [by apply (touches_sys_unlink (λ _, True))|]. intros _.
    apply compiles_failed.
  - apply compiles_bind; [by apply (touches_FlushCloseOrErase (λ _, True))|].
    intros vdex_closed. destruct (negb _).
    { apply compiles_bind; [by apply (touches_sys_unlink (λ _, True))|]. intros _.
      apply compiles_failed. }
    apply compiles_bind; [by apply (touches_FlushCloseOrErase (λ _, True))|].
    intros oat_closed. destruct (negb _).
    { apply compiles_bind; [by apply (touches_sys_unlink (λ _, True))|]. intros _.
      apply compiles_failed. }
    apply compiles_succeeded.
Qed.

Lemma GenerateOatFileNoChecks_run r filter a :
  ∃ res d',
    GenerateOatFileNoChecks rt r filter a = Some (res, regenerated r res d' a)
    ∧ (res = kUpdateNotAttempted →
       ∀ p, ¬ output_path rt r a p → d' !! p = disk a !! p).
Proof.
  set (P := output_path rt r a).
  unfold GenerateOatFileNoChecks.
  destruct (IsDex2OatEnabled rt); cbn [negb];
    [|apply (regenerates_not_attempted r P a)].
  unfold Filename. erewrite bind_Some by reflexivity. cbv beta.
  destruct (filename_provided_ (info r a)); [|apply (regenerates_not_attempted r P a)].
  erewrite bind_Some by reflexivity. erewrite bind_Some by reflexivity. cbv beta.
  refine (regenerates_bind r P (λ _, True) _ _ (touches_sys_stat P _) _ _ a); [done|].
  intros [dex_path_stat|e] _; [|apply regenerates_not_attempted].
  apply (regenerates_bind r P (λ _, True)); [apply touches_gets|done|].
  intros is_oat _.
  apply (regenerates_bind r P (λ _, True)); [|done|].
  { destruct (negb is_oat); [|apply touches_ret].
    apply touches_PrepareOdexDirectories. intros names Hnames.
    split; right; right; exists names; eauto. }
  intros prepared _. destruct (negb prepared); [apply regenerates_not_attempted|].
  apply (regenerates_bind r P
           (λ x, ∀ f, x = Some f → GetPath f = GetVdexFilename rt (filename_ (info r a)))).
  { apply touches_CreateEmptyFile. right. by left. }
  { intros a1 x a2 E f ->. by apply CreateEmptyFile_path in E. }
  intros [vdex_file|] Hvdex; [|apply regenerates_not_attempted].
  specialize (Hvdex _ eq_refl).
  apply (regenerates_bind r P (λ _, True)); [|done|].
  { apply touches_sys_fchmod. rewrite Hvdex. right. by left. }
  intros vdex_mode_set _. destruct (negb vdex_mode_set); [apply regenerates_not_attempted|].
  apply (regenerates_bind r P (λ x, ∀ f, x = Some f → GetPath f = filename_ (info r a))).
  { apply touches_CreateEmptyFile. by left. }
  { intros a1 x a2 E f ->. by apply CreateEmptyFile_path in E. }
  intros [oat_file|] Hoat; [|apply regenerates_not_attempted].
  specialize (Hoat _ eq_refl).
  apply (regenerates_bind r P (λ _, True)); [|done|].
  { apply touches_sys_fchmod. rewrite Hoat. by left. }
  intros oat_mode_set _. destruct (negb oat_mode_set).
  { apply (regenerates_bind r P (λ _, True)); [|done|].
    - apply touches_Erase. rewrite Hoat. by left.
    - intros _ _. apply regenerates_not_attempted. }
  apply compiles_regenerates, compile_and_close.
Qed.

(** X14. Regeneration never aborts and changes nothing of the assistant but
    the disk and, on success, the regenerated candidate, which is reset so
    that its file and status are determined anew; the cached required
    checksums and image info are kept.  When the result is
    kUpdateNotAttempted, no path was touched but the oat and vdex outputs
    and the directories of the odex location. *)
Theorem GenerateOatFileNoChecks_frame (r : InfoRef) (filter : Filter)
    (a : OatFileAssistant) :
  ∃ res a',
    GenerateOatFileNoChecks rt r filter a = Some (res, a')
    ∧ a' = (if bool_decide (res = kUpdateSucceeded)
            then set_info r (with_reset (info r a)) (set_disk (disk a') a)
            else set_disk (disk a') a)
    ∧ (res = kUpdateNotAttempted →
       ∀ p, ¬ output_path rt r a p → disk a' !! p = disk a !! p).
Proof.
  destruct (GenerateOatFileNoChecks_run r filter a) as (res & d' & E & Hframe).
  exists res, (regenerated r res d' a). split; [done|].
  unfold regenerated. destruct (bool_decide _) eqn:Hres.
  - split; [by destruct r|]. intros ->. done.
  - split; [done|]. exact Hframe.
Qed.

(** Without dex2oat or without a file name nothing is attempted. *)
Lemma GenerateOatFileNoChecks_skips r filter a :
  IsDex2OatEnabled rt = false ∨ filename_provided_ (info r a) = false →
  GenerateOatFileNoChecks rt r filter a = Some (kUpdateNotAttempted, a).
Proof.
  intros Hcase. unfold GenerateOatFileNoChecks.
  destruct (IsDex2OatEnabled rt); [|done]. cbn [negb].
  unfold Filename. erewrite bind_Some by reflexivity. cbv beta.
  destruct (filename_provided_ (info r a)); [|done].
  by destruct Hcase.
Qed.

(** X15. Regeneration is not attempted, and nothing at all is changed, when
    dex2oat is disabled, when the candidate has no file name, or when the
    dex location cannot be statted. *)
Theorem GenerateOatFileNoChecks_early_exit (r : InfoRef) (filter : Filter)
    (a : OatFileAssistant) :
  IsDex2OatEnabled rt = false
  ∨ filename_provided_ (info r a) = false
  ∨ stat_fault rt (disk a) (dex_location_ a) = true
  ∨ disk a !! dex_location_ a = None →
  GenerateOatFileNoChecks rt r filter a = Some (kUpdateNotAttempted, a).
Proof.
  intros Hcase. unfold GenerateOatFileNoChecks.
  destruct (IsDex2OatEnabled rt); [|done]. cbn [negb].
  unfold Filename. erewrite bind_Some by reflexivity. cbv beta.
  destruct (filename_provided_ (info r a)); [|done].
  erewrite bind_Some by reflexivity. erewrite bind_Some by reflexivity. cbv beta.
  unfold sys_stat. rewrite bind_assoc. erewrite bind_Some by reflexivity.
  rewrite bind_ret.
  destruct Hcase as [?|[?|[->|Hnone]]]; [done..|].
  rewrite Hnone. by destruct (stat_fault _ _ _).
Qed.



(** ** Making up to date without a compiler or without file names *)

Lemma MakeUpToDate_no_write (a : OatFileAssistant) (profile_changed : bool) :
  live a →
  IsDex2OatEnabled rt = false ∨ (∀ r, filename_provided_ (info r a) = false) →
  ∃ res a',
    MakeUpToDate rt profile_changed a = Some (res, a')
    ∧ calm rt a a'
    ∧ res ≠ kUpdateFailed
    ∧ (res = kUpdateSucceeded ↔
       ∃ target r,
         GetRuntimeCompilerFilterOption rt = Some target
         ∧ result (GetBestInfo rt) a = Some r
         ∧ result (OatFileInfo_GetDexOptNeeded rt r target profile_changed) a
           = Some kNoDexOptNeeded).
Proof.
  intros Hl Hcase. unfold MakeUpToDate.
  destruct (GetRuntimeCompilerFilterOption rt) as [target|] eqn:Htarget.
  2: { exists kUpdateNotAttempted, a. split; [done|]. split; [apply calm_refl|].
       split; [done|]. split; [done|]. by intros (? & ? & ? & _). }
  destruct (GetBestInfo_query a Hl) as (a0 & E0 & K0). cbv beta in E0.
  set (r := best_info_policy _ _ _ _) in E0.
  assert (live a0) as Hl0 by (by eapply view_live; [apply K0|]).
  destruct (OatFileInfo_GetDexOptNeeded_query r target profile_changed a0 Hl0)
    as (a1 & E1 & K1). cbv beta in E1.
  rewrite (calm_view _ _ _ K0) in E1.
  set (decision := dexopt_decision _ _ _ _) in E1.
  pose proof (calm_trans _ _ _ K0 K1) as K.
  erewrite bind_Some by exact E0. erewrite bind_Some by exact E1.
  assert (GenerateOatFileNoChecks rt r target a1 = Some (kUpdateNotAttempted, a1)) as Hgen.
  { apply GenerateOatFileNoChecks_skips.
    destruct Hcase as [?|Hname]; [by left|]. right.
    destruct (view_filename r _ _ (calm_view _ _ _ K)) as [Hf _].
    by rewrite Hf. }
  assert (result (OatFileInfo_GetDexOptNeeded rt r target profile_changed) a
          = Some decision) as Hdecision.
  { rewrite (query_result _ _ _ (OatFileInfo_GetDexOptNeeded_query r target profile_changed) Hl).
    done. }
  assert (∀ res,
            (res = kUpdateSucceeded ↔ decision = kNoDexOptNeeded) →
            res = kUpdateSucceeded ↔
            ∃ target' r',
              Some target = Some target'
              ∧ result (GetBestInfo rt) a = Some r'
              ∧ result (OatFileInfo_GetDexOptNeeded rt r' target' profile_changed) a
                = Some kNoDexOptNeeded) as Hiff.
  { intros res ->. rewrite (result_Some _ _ _ _ E0). split.
    - intros Hd. exists target, r. by rewrite Hdecision, Hd.
    - intros (target' & r' & [= <-] & [= <-] & Hd). rewrite Hdecision in Hd.
      by injection Hd. }
  destruct decision eqn:Hd.
  1: exists kUpdateSucceeded, a1.
  2-5: rewrite Hgen; exists kUpdateNotAttempted, a1.
  all: split; [done|]; split; [done|]; split; [done|]; by apply Hiff.
Qed.

(** X18. With dex2oat disabled, [MakeUpToDate] writes nothing and never
    fails: it succeeds exactly when the best candidate needs no dexopt for
    the runtime's target filter, and is not attempted otherwise. *)
Theorem MakeUpToDate_without_dex2oat (a : OatFileAssistant) (profile_changed : bool) :
  live a →
  IsDex2OatEnabled rt = false →
  ∃ res a',
    MakeUpToDate rt profile_changed a = Some (res, a')
    ∧ disk a' = disk a
    ∧ res ≠ kUpdateFailed
    ∧ (res = kUpdateSucceeded ↔
       ∃ target r,
         GetRuntimeCompilerFilterOption rt = Some target
         ∧ result (GetBestInfo rt) a = Some r
         ∧ result (OatFileInfo_GetDexOptNeeded rt r target profile_changed) a
           = Some kNoDexOptNeeded).
Proof.
  intros Hl Hoff.
  destruct (MakeUpToDate_no_write a profile_changed Hl (or_introl Hoff))
    as (res & a' & E & K & Hres).
  exists res, a'. split; [done|]. split; [|done].
  apply (view_disk _ _ (calm_view _ _ _ K)).
Qed.

Lemma ReleaseFileForUse_unusable r a :
  live a →
  usable (status_of rt r a) = false →
  ∃ a', ReleaseFileForUse rt r a = Some (None, a').
Proof.
  intros Hl Hus. unfold ReleaseFileForUse.
  assert (status_of rt r a ≠ kOatUpToDate) as Hnup by (intros E; by rewrite E in Hus).
  assert (status_of rt r a ≠ kOatRelocationOutOfDate) as Hnrel
    by (intros E; by rewrite E in Hus).
  destruct (status_is_run r kOatUpToDate a Hl) as (a1 & E1 & K1 & _).
  erewrite bind_Some by exact E1. clear E1.
  assert (live a1) as Hl1 by (by eapply view_live; [apply K1|]).
  rewrite (bool_decide_eq_false_2 _ Hnup).
  destruct (status_is_run r kOatRelocationOutOfDate a1 Hl1) as (a2 & E2 & K2 & _).
  rewrite (view_status r _ _ (calm_view _ _ _ K1)) in E2.
  erewrite bind_Some by exact E2. clear E2.
  assert (live a2) as Hl2 by (by eapply view_live; [apply K2|]).
  rewrite (bool_decide_eq_false_2 _ Hnrel). unfold and_then. rewrite bind_ret.
  destruct (status_is_run r kOatRelocationOutOfDate a2 Hl2) as (a3 & E3 & K3 & _).
  rewrite (view_status r _ _ (calm_view _ _ _ (calm_trans _ _ _ K1 K2))) in E3.
  erewrite bind_Some by exact E3.
  rewrite (bool_decide_eq_false_2 _ Hnrel). by eexists.
Qed.

(** X19. An assistant whose dex location cannot be resolved is inert: its
    candidates have no file, it is not up to date, [GetBestOatFile] returns
    null, and [MakeUpToDate] writes nothing and does not fail. *)
Theorem unresolved_location_is_inert (d : Disk) (dex_location : string)
    (isa : InstructionSet) (load_executable profile_changed : bool) :
  realpath rt d dex_location = None →
  (∀ r, result (GetFile rt r)
          (new_OatFileAssistant rt d dex_location isa load_executable) = Some None)
  ∧ result (IsUpToDate rt)
      (new_OatFileAssistant rt d dex_location isa load_executable) = Some false
  ∧ (∃ a', GetBestOatFile rt
             (new_OatFileAssistant rt d dex_location isa load_executable)
           = Some (None, a'))
  ∧ (∃ res a',
       MakeUpToDate rt profile_changed
         (new_OatFileAssistant rt d dex_location isa load_executable)
       = Some (res, a')
       ∧ disk a' = d ∧ res ≠ kUpdateFailed).
Proof.
  intros Hreal.
  destruct (new_OatFileAssistant_live d dex_location isa load_executable) as [Hl Hset].
  set (a := new_OatFileAssistant rt d dex_location isa load_executable) in *.
  assert (∀ r, info r a = new_OatFileInfo (match r with odex_ref => false | _ => true end))
    as Hinfo.
  { intros r. unfold a, new_OatFileAssistant. rewrite Hreal. by destruct r. }
  assert (disk a = d) as Hdisk.
  { unfold a, new_OatFileAssistant. by rewrite Hreal. }
  assert (∀ r, file_of rt r a = None) as Hfile.
  { intros r. unfold file_of. by rewrite Hinfo. }
  assert (∀ r, usable (status_of rt r a) = false) as Hus.
  { intros r. destruct (usable _) eqn:E; [|done].
    destruct (fresh_usable_file r a) as [f Hf]; [by rewrite Hinfo|done|].
    by rewrite Hfile in Hf. }
  destruct (GetBestInfo_query a Hl) as (a0 & E0 & K0). cbv beta in E0.
  set (r := best_info_policy _ _ _ _) in E0.
  assert (live a0) as Hl0 by (by eapply view_live; [apply K0|]).
  split; [|split; [|split]].
  - intros r'. by rewrite (GetFile_result r' a Hl), Hfile.
  - destruct (status_is_run r kOatUpToDate a0 Hl0) as (a1 & E1 & _).
    rewrite (view_status r _ _ (calm_view _ _ _ K0)) in E1.
    unfold IsUpToDate, result. erewrite bind_Some by exact E0. rewrite E1. simpl.
    rewrite bool_decide_eq_false_2; [done|]. intros E. specialize (Hus r).
    by rewrite E in Hus.
  - destruct (ReleaseFileForUse_unusable r a0 Hl0) as [a' E].
    { by rewrite (view_status r _ _ (calm_view _ _ _ K0)). }
    exists a'. unfold GetBestOatFile. by erewrite bind_Some by exact E0.
  - destruct (MakeUpToDate_no_write a profile_changed Hl) as (res & a' & E & K & Hres & _).
    { right. intros r'. by rewrite Hinfo. }
    exists res, a'. split; [done|]. split; [|done].
    by rewrite (view_disk _ _ (calm_view _ _ _ K)).
Qed.

(** ** Construction *)

(** X20. An assistant made for a dex location that resolves to
    [dir/base.ext] keeps the resolved path, counts the dex parent as
    writable exactly when [dir] is, looks for the odex candidate at
    [dir/oat/<isa>/base.odex] and for the oat candidate under the name the
    dalvik cache gives, if any; nothing is loaded yet. *)
Theorem new_OatFileAssistant_locations (d : Disk) (dex_location : string)
    (isa : InstructionSet) (load_executable : bool) (dir base ext : string) :
  realpath rt d dex_location = Some (dir +:+ "/" +:+ base +:+ "." +:+ ext) →
  has_char "/" base = false →
  has_char "/" ext = false →
  has_char "." ext = false →
  dex_location_ (new_OatFileAssistant rt d dex_location isa load_executable)
  = dir +:+ "/" +:+ base +:+ "." +:+ ext
  ∧ dex_parent_writable_ (new_OatFileAssistant rt d dex_location isa load_executable)
    = access_W_OK rt d dir
  ∧ result (Filename odex_ref)
      (new_OatFileAssistant rt d dex_location isa load_executable)
    = Some (Some (dir +:+ "/oat/" +:+ GetInstructionSetString isa +:+ "/"
                  +:+ base +:+ ".odex"))
  ∧ result (Filename oat_ref)
      (new_OatFileAssistant rt d dex_location isa load_executable)
    = Some (DexLocationToOatFilename rt (dir +:+ "/" +:+ base +:+ "." +:+ ext) isa)
  ∧ ∀ r, load_attempted_
           (info r (new_OatFileAssistant rt d dex_location isa load_executable)) = false
         ∧ status_attempted_
             (info r (new_OatFileAssistant rt d dex_location isa load_executable)) = false.
Proof.
  intros Hreal Hbase Hext Hdot.
  assert (has_char "/" (base +:+ "." +:+ ext) = false) as Hfile.
  { rewrite !has_char_append, Hbase, Hext. done. }
  destruct (odex_location_split dir _ Hfile) as (Hpos & _ & _).
  unfold new_OatFileAssistant. rewrite Hreal. cbn [dex_location_ dex_parent_writable_].
  split; [done|]. split.
  { rewrite Hpos. unfold substr. by rewrite substring_prefix. }
  unfold DexLocationToOdexFilename.
  rewrite (DexLocationToOdexNames_eq dir base ext isa Hbase Hext Hdot).
  split; [done|]. split.
  - unfold result, Filename, gets. simpl.
    by destruct (DexLocationToOatFilename rt _ isa).
  - intros r. destruct r; simpl; [done|].
    by destruct (DexLocationToOatFilename rt _ isa).
Qed.

(** ** The lock file *)


(** ** The status dump *)

Lemma Filename_query r :
  query rt (Filename r)
    (λ v, if (pick r (v_filename (v_base v))).1
          then Some (pick r (v_filename (v_base v))).2 else None).
Proof.
  intros a Hl. exists a. split; [|apply calm_refl].
  unfold Filename, gets. by destruct r.
Qed.

Lemma pick_filename r a :
  pick r (v_filename (v_base (view rt a)))
  = (filename_provided_ (info r a), filename_ (info r a)).
Proof. by destruct r. Qed.

Lemma candidate_dump_length name st file :
  10 ≤ String.length (candidate_dump name st file).
Proof.
  unfold candidate_dump. rewrite !append_length. simpl. lia.
Qed.

Lemma status_dump_invalid (oat odex : option string) :
  (∀ o, oat = Some o → 10 ≤ String.length o) →
  (∀ x, odex = Some x → 10 ≤ String.length x) →
  status_dump oat odex = "invalid[]" ↔ oat = None ∧ odex = None.
Proof.
  intros Hoat Hodex. split; [|by intros [-> ->]].
  destruct oat as [o|], odex as [x|]; try done; intros E;
    apply (f_equal String.length) in E; simpl in E; rewrite ?append_length in E;
    simpl in E; try specialize (Hoat _ eq_refl); try specialize (Hodex _ eq_refl);
    lia.
Qed.

(** The dump of one candidate, as [GetStatusDump] writes it after [written]. *)
Lemma dump_candidate_run r (written : string) (first : bool) a0 a :
  live a → calm rt a0 a →
  filename_provided_ (info r a0) = true →
  ∃ a',
    (filename <- Filename r ;;
     match filename with
     | None => CHECK false ;;; ret (true, written)
     | Some name =>
         let status := if first then written else written +:+ "] " in
         st <- Status rt r ;;
         let status := status +:+ name +:+ "[status=" +:+ status_name st +:+ ", " in
         file <- GetFile rt r ;;
         match file with
         | None => ret (true, status +:+ "vdex-only")
         | Some f =>
             ret (true, status +:+ "compilation_filter="
                               +:+ NameOfFilter (GetCompilerFilter f))
         end
     end) a
    = Some ((true, (if first then written else written +:+ "] ")
                   +:+ candidate_dump (filename_ (info r a0)) (status_of rt r a0)
                         (file_of rt r a0)), a')
    ∧ calm rt a0 a' ∧ live a'.
Proof.
  intros Hl K Hname.
  qstep (Filename_query r). cbv beta. rewrite pick_filename. cbn [fst snd].
  rewrite Hname. cbv zeta.
  qstep (Status_query r). cbv beta. rewrite pick_status.
  qstep (base_query_query _ _ (GetFile_query r)). cbv beta. rewrite pick_file.
  exists a1. split; [|done]. unfold candidate_dump.
  destruct (file_of rt r a0); unfold ret; by rewrite !append_assoc.
Qed.

(** X22. [GetStatusDump] reports each candidate whose status is not
    kOatCannotOpen as [name[status=..., compilation_filter=...]], or
    [vdex-only] in place of the filter when only the vdex file opens, the
    oat candidate first and the two separated by a bracket and a space; it
    answers [invalid[]] exactly when neither candidate can be opened.  It
    aborts when a candidate that can be opened has no file name. *)
Theorem GetStatusDump_layout (a : OatFileAssistant) :
  live a →
  ∃ oat_status odex_status oat_file odex_file,
    result (Status rt oat_ref) a = Some oat_status
    ∧ result (Status rt odex_ref) a = Some odex_status
    ∧ result (GetFile rt oat_ref) a = Some oat_file
    ∧ result (GetFile rt odex_ref) a = Some odex_file
    ∧ ((oat_status ≠ kOatCannotOpen ∧ filename_provided_ (oat_ a) = false
        ∨ odex_status ≠ kOatCannotOpen ∧ filename_provided_ (odex_ a) = false) →
       GetStatusDump rt a = None)
    ∧ ((oat_status ≠ kOatCannotOpen → filename_provided_ (oat_ a) = true) →
       (odex_status ≠ kOatCannotOpen → filename_provided_ (odex_ a) = true) →
       ∃ dump a',
         GetStatusDump rt a = Some (dump, a')
         ∧ view rt a' = view rt a
         ∧ dump = status_dump (dump_part (filename_ (oat_ a)) oat_status oat_file)
                    (dump_part (filename_ (odex_ a)) odex_status odex_file)
         ∧ (dump = "invalid[]" ↔
            oat_status = kOatCannotOpen ∧ odex_status = kOatCannotOpen)).
Proof.
  intros Hl.
  exists (status_of rt oat_ref a), (status_of rt odex_ref a),
    (file_of rt oat_ref a), (file_of rt odex_ref a).
  split; [by apply Status_result|]. split; [by apply Status_result|].
  split; [by apply GetFile_result|]. split; [by apply GetFile_result|].
  change (oat_ a) with (info oat_ref a). change (odex_ a) with (info odex_ref a).
  pose proof (calm_refl a) as K.
  unfold GetStatusDump. cbv zeta. split.
  - intros Hbad.
    qstep (Status_query oat_ref). cbv beta. rewrite pick_status.
    destruct (decide (status_of rt oat_ref a = kOatCannotOpen)) as [Ho|Ho].
    + destruct Hbad as [[? _]|[Hx Hname]]; [done|].
      rewrite (bool_decide_eq_true_2 _ Ho). cbn [negb]. rewrite bind_ret.
      qstep (Status_query odex_ref). cbv beta. rewrite pick_status.
      rewrite (bool_decide_eq_false_2 _ Hx). cbn [negb].
      qstep (Filename_query odex_ref). cbv beta. rewrite pick_filename. cbn [fst snd].
      by rewrite Hname.
    + rewrite (bool_decide_eq_false_2 _ Ho). cbn [negb].
      destruct (filename_provided_ (info oat_ref a)) eqn:Hname.
      * destruct Hbad as [[_ ?]|[Hx Hname']]; [done|].
        destruct (dump_candidate_run oat_ref "" true a _ Hl0 K0 Hname)
          as (a1 & E & K1 & Hl1).
        erewrite bind_Some by exact E. clear E.
        clear Hl0 K0. cbv beta iota.
        qstep (Status_query odex_ref). cbv beta. rewrite pick_status.
        rewrite (bool_decide_eq_false_2 _ Hx). cbn [negb].
        qstep (Filename_query odex_ref). cbv beta. rewrite pick_filename. cbn [fst snd].
        by rewrite Hname'.
      * qstep (Filename_query oat_ref). cbv beta. rewrite pick_filename. cbn [fst snd].
        by rewrite Hname.
  - intros Hoat Hodex.
    assert (∀ (written : string) (first : bool) (k : bool * string → M string)
              (a1 : OatFileAssistant),
              live a1 → calm rt a a1 →
              ∃ a',
                (odex_status <- Status rt odex_ref ;;
                 odex_part <-
                   (if negb (bool_decide (odex_status = kOatCannotOpen)) then
                      filename <- Filename odex_ref ;;
                      match filename with
                      | None => CHECK false ;;; ret (true, written)
                      | Some name =>
                          odex_status' <- Status rt odex_ref ;;
                          file <- GetFile rt odex_ref ;;
                          match file with
                          | None =>
                              ret (true,
                                   ((if first then written else written +:+ "] ")
                                    +:+ name +:+ "[status="
                                    +:+ status_name odex_status' +:+ ", ")
                                   +:+ "vdex-only")
                          | Some f =>
                              ret (true,
                                   ((if first then written else written +:+ "] ")
                                    +:+ name +:+ "[status="
                                    +:+ status_name odex_status' +:+ ", ")
                                   +:+ "compilation_filter="
                                   +:+ NameOfFilter (GetCompilerFilter f))
                          end
                      end
                    else ret (false, written)) ;;
                 k odex_part) a1
                = k (match dump_part (filename_ (info odex_ref a))
                             (status_of rt odex_ref a) (file_of rt odex_ref a) with
                     | Some x =>
                         (true, (if first then written else written +:+ "] ") +:+ x)
                     | None => (false, written)
                     end) a'
                ∧ calm rt a a') as Hodex_part.
    { intros written first k a1 Hl1 K1.
      qstep (Status_query odex_ref). cbv beta. rewrite pick_status.
      unfold dump_part.
      destruct (decide (status_of rt odex_ref a = kOatCannotOpen)) as [Hx|Hx].
      - rewrite (bool_decide_eq_true_2 _ Hx). cbn [negb]. rewrite bind_ret.
        exists a0. by split.
      - rewrite (bool_decide_eq_false_2 _ Hx). cbn [negb].
        destruct (dump_candidate_run odex_ref written first a _ Hl0 K0 (Hodex Hx))
          as (a2 & E & K2 & _).
        erewrite bind_Some by exact E. exists a2. by split. }
    assert (∀ name st file, dump_part name st file = None ↔ st = kOatCannotOpen)
      as Hnone.
    { intros name st file. unfold dump_part. by case_bool_decide. }
    assert (∀ name st file x, dump_part name st file = Some x → 10 ≤ String.length x)
      as Hlen.
    { intros name st file x. unfold dump_part. case_bool_decide; [done|].
      intros [= <-]. apply candidate_dump_length. }
    assert (∀ dump,
              dump = status_dump
                       (dump_part (filename_ (info oat_ref a)) (status_of rt oat_ref a)
                          (file_of rt oat_ref a))
                       (dump_part (filename_ (info odex_ref a)) (status_of rt odex_ref a)
                          (file_of rt odex_ref a)) →
              dump = status_dump
                       (dump_part (filename_ (info oat_ref a)) (status_of rt oat_ref a)
                          (file_of rt oat_ref a))
                       (dump_part (filename_ (info odex_ref a)) (status_of rt odex_ref a)
                          (file_of rt odex_ref a))
              ∧ (dump = "invalid[]" ↔
                 status_of rt oat_ref a = kOatCannotOpen
                 ∧ status_of rt odex_ref a = kOatCannotOpen)) as Hfin.
    { intros dump ->. split; [done|].
      rewrite (status_dump_invalid _ _ (Hlen _ _ _) (Hlen _ _ _)), !Hnone. done. }
    qstep (Status_query oat_ref). cbv beta. rewrite pick_status.
    destruct (decide (status_of rt oat_ref a = kOatCannotOpen)) as [Ho|Ho].
    + rewrite (bool_decide_eq_true_2 _ Ho). cbn [negb]. rewrite bind_ret. cbv beta iota.
      destruct (Hodex_part "" true
                  (λ odex_part,
                     let '(odex_file_exists, status0) := odex_part in
                     ret ((if negb false && negb odex_file_exists
                           then status0 +:+ "invalid[" else status0) +:+ "]"))
                  a0 Hl0 K0) as (a2 & E & K2).
      destruct (dump_part (filename_ (info odex_ref a)) _ _) as [x|];
        (eexists _, a2; split; [exact E|]; split; [apply K2|]; apply Hfin;
         by rewrite (proj2 (Hnone _ _ (file_of rt oat_ref a)) Ho)).
    + rewrite (bool_decide_eq_false_2 _ Ho). cbn [negb].
      destruct (dump_candidate_run oat_ref "" true a _ Hl0 K0 (Hoat Ho))
        as (a1 & E1 & K1 & Hl1).
      erewrite bind_Some by exact E1. clear E1. cbv beta iota.
      destruct (Hodex_part
                  ("" +:+ candidate_dump (filename_ (info oat_ref a))
                            (status_of rt oat_ref a) (file_of rt oat_ref a))
                  false
                  (λ odex_part,
                     let '(odex_file_exists, status0) := odex_part in
                     ret ((if negb true && negb odex_file_exists
                           then status0 +:+ "invalid[" else status0) +:+ "]"))
                  a1 Hl1 K1) as (a2 & E & K2).
      destruct (dump_part (filename_ (info odex_ref a)) _ _) as [x|];
        (eexists _, a2; split; [exact E|]; split; [apply K2|]; apply Hfin;
         unfold dump_part; rewrite (bool_decide_eq_false_2 _ Ho); simpl;
         by rewrite ?append_nil, ?append_assoc).
Qed.

(** ** Loading the dex files of an oat file *)

Section LoadDexFiles.

Variable DexFile : Type.
Variable OpenDexFile : OatFile → string → option DexFile.
Variable oat_file : OatFile.
Variable dex_location : string.

(** The multidex names are pairwise distinct. *)
Hypothesis multidex_distinct :
  ∀ i j, GetMultiDexLocation rt i dex_location = GetMultiDexLocation rt j dex_location →
         i = j.

Lemma load_multidex_returns (fuel i : nat) (dex_files : list DexFile)
    (rest : gmap string Z) :
  (∀ j, i ≤ j →
        oat_dex_files oat_file !! GetMultiDexLocation rt j dex_location
        = rest !! GetMultiDexLocation rt j dex_location) →
  size rest < fuel →
  is_Some (load_multidex rt DexFile OpenDexFile fuel oat_file dex_location i dex_files).
Proof using multidex_distinct.
  revert i dex_files rest.
  induction fuel as [|fuel IH]; intros i dex_files rest Hrest Hsize; [lia|].
  cbn [load_multidex]. unfold GetOatDexFile.
  destruct (oat_dex_files oat_file !! GetMultiDexLocation rt i dex_location)
    as [c|] eqn:Hc; [|done].
  destruct (OpenDexFile oat_file _) as [dex_file|]; [|done].
  apply (IH (S i) _ (delete (GetMultiDexLocation rt i dex_location) rest)).
  - intros j Hj. rewrite lookup_delete_ne; [apply Hrest; lia|].
    intros E. apply multidex_distinct in E. lia.
  - rewrite (Hrest i) in Hc by lia.
    rewrite map_size_delete, Hc.
    assert (size rest ≠ 0) as Hne.
    { intros E. apply map_size_empty_inv in E. subst rest. by rewrite lookup_empty in Hc. }
    lia.
Qed.

Lemma load_multidex_result (fuel i : nat) (dex_files res : list DexFile) :
  load_multidex rt DexFile OpenDexFile fuel oat_file dex_location i dex_files = Some res →
  res = []
  ∨ ∃ more,
      res = dex_files ++ more
      ∧ (∀ k dex_file, more !! k = Some dex_file →
           is_Some (GetOatDexFile oat_file (GetMultiDexLocation rt (i + k) dex_location))
           ∧ OpenDexFile oat_file (GetMultiDexLocation rt (i + k) dex_location)
             = Some dex_file)
      ∧ GetOatDexFile oat_file (GetMultiDexLocation rt (i + length more) dex_location)
        = None.
Proof.
  revert i dex_files.
  induction fuel as [|fuel IH]; intros i dex_files; [done|].
  cbn [load_multidex].
  destruct (GetOatDexFile oat_file (GetMultiDexLocation rt i dex_location))
    as [c|] eqn:Hc.
  2: { intros [= <-]. right. exists []. rewrite app_nil_r, Nat.add_0_r.
       split; [done|]. split; [|done]. by intros k dex_file Hk. }
  destruct (OpenDexFile oat_file _) as [dex_file|] eqn:Hopen; [|intros [= <-]; by left].
  intros Hres. destruct (IH _ _ Hres) as [->|(more & -> & Hmore & Hend)]; [by left|].
  right. exists (dex_file :: more). rewrite <- app_assoc. split; [done|]. split.
  - intros [|k] d Hk.
    + injection Hk as <-. rewrite Nat.add_0_r, Hc. by split.
    + replace (i + S k) with (S i + k) by lia. by apply Hmore.
  - simpl. by replace (i + S (length more)) with (S i + length more) by lia.
Qed.

Lemma load_multidex_empty (fuel i : nat) (dex_files : list DexFile) :
  dex_files ≠ [] →
  load_multidex rt DexFile OpenDexFile fuel oat_file dex_location i dex_files = Some [] →
  ∃ j, i ≤ j
       ∧ is_Some (GetOatDexFile oat_file (GetMultiDexLocation rt j dex_location))
       ∧ OpenDexFile oat_file (GetMultiDexLocation rt j dex_location) = None.
Proof.
  revert i dex_files.
  induction fuel as [|fuel IH]; intros i dex_files Hne; [done|].
  cbn [load_multidex].
  destruct (GetOatDexFile oat_file (GetMultiDexLocation rt i dex_location))
    as [c|] eqn:Hc; [|by intros [= ->]].
  destruct (OpenDexFile oat_file _) as [dex_file|] eqn:Hopen.
  - intros Hres.
    assert (dex_files ++ [dex_file] ≠ []) as Hne' by (by destruct dex_files).
    destruct (IH _ _ Hne' Hres) as (j & Hj & Hfound & Hfail).
    exists j. split; [lia|done].
  - intros _. exists i. rewrite Hc. split; [done|]. by split.
Qed.

End LoadDexFiles.

(** X23. [LoadDexFiles] comes to an end when the multidex names are
    pairwise distinct, and loads all or nothing: it returns the dex files of
    the dex location and of its consecutive multidex entries, in order, up
    to the first name the oat file does not know; it returns nothing when
    the oat file does not know the dex location, or when one of these dex
    files fails to open. *)
Theorem LoadDexFiles_all_or_nothing (DexFile : Type)
    (OpenDexFile : OatFile → string → option DexFile)
    (oat_file : OatFile) (dex_location : string) (fuel : nat) :
  (∀ i j, GetMultiDexLocation rt i dex_location = GetMultiDexLocation rt j dex_location →
          i = j) →
  size (oat_dex_files oat_file) < fuel →
  ∃ dex_files,
    LoadDexFiles rt DexFile OpenDexFile fuel oat_file dex_location = Some dex_files
    ∧ (dex_files ≠ [] →
       (∀ k dex_file,
          dex_files !! k = Some dex_file →
          is_Some (GetOatDexFile oat_file (dex_entry rt dex_location k))
          ∧ OpenDexFile oat_file (dex_entry rt dex_location k) = Some dex_file)
       ∧ GetOatDexFile oat_file (dex_entry rt dex_location (length dex_files)) = None)
    ∧ (dex_files = [] →
       GetOatDexFile oat_file dex_location = None
       ∨ ∃ k, is_Some (GetOatDexFile oat_file (dex_entry rt dex_location k))
              ∧ OpenDexFile oat_file (dex_entry rt dex_location k) = None).
Proof.
  intros Hdistinct Hfuel. unfold LoadDexFiles.
  destruct (GetOatDexFile oat_file dex_location) as [c|] eqn:Hc.
  2: { exists []. split; [done|]. split; [done|]. intros _. by left. }
  destruct (OpenDexFile oat_file dex_location) as [dex_file|] eqn:Hopen.
  2: { exists []. split; [done|]. split; [done|]. intros _. right. exists 0.
       simpl. rewrite Hc. by split. }
  destruct (load_multidex_returns DexFile OpenDexFile oat_file dex_location Hdistinct
              fuel 1 [dex_file] (oat_dex_files oat_file)) as [res Hres]; [done..|].
  exists res. split; [done|].
  destruct (load_multidex_result DexFile OpenDexFile oat_file dex_location _ _ _ _ Hres)
    as [->|(more & -> & Hmore & Hend)].
  - split; [done|]. intros _. right.
    destruct (load_multidex_empty DexFile OpenDexFile oat_file dex_location
                fuel 1 [dex_file]) as (j & Hj & Hfound & Hfail); [done..|].
    exists j. destruct j as [|j]; [lia|]. by split.
  - split; [|done]. intros _. split.
    + intros [|k] d Hk; simpl in Hk.
      * injection Hk as <-. simpl. rewrite Hc. by split.
      * by apply (Hmore k d).
    + by simpl.
Qed.

(** ** Asking twice *)

Lemma IsUpToDate_query :
  query rt (IsUpToDate rt)
    (λ v, bool_decide
            (pick (best_info_policy (v_writable (v_base v))
                     (pick odex_ref (v_status v)) (pick oat_ref (v_status v))
                     (v_has_original (v_base v)))
               (v_status v) = kOatUpToDate)).
Proof.
  qstart. unfold IsUpToDate.
  qstep GetBestInfo_query. cbv beta.
  lazymatch goal with
  | Hl1 : live ?a1, K1 : calm _ _ ?a1 |- ∃ a', status_is _ ?r _ _ = _ ∧ _ =>
      destruct (status_is_query r kOatUpToDate a1 Hl1) as (a2 & E2 & K2);
      exists a2; split; [|by eapply calm_trans];
      rewrite E2, (calm_view _ _ _ K1); reflexivity
  end.
Qed.

(** X24. The queries only fill caches: after [GetDexOptNeeded] has
    answered, the disk is as it was, and asking again, for the dexopt code,
    the best candidate, a status or whether the candidate is up to date,
    gives the answers the first state would have given. *)
Theorem queries_are_repeatable (a a' : OatFileAssistant) (target : Filter)
    (profile_changed : bool) (code : Z) :
  live a →
  GetDexOptNeeded rt target profile_changed a = Some (code, a') →
  disk a' = disk a
  ∧ result (GetDexOptNeeded rt target profile_changed) a' = Some code
  ∧ result (GetBestInfo rt) a' = result (GetBestInfo rt) a
  ∧ result (IsUpToDate rt) a' = result (IsUpToDate rt) a
  ∧ ∀ r, result (Status rt r) a' = result (Status rt r) a.
Proof.
  intros Hl E.
  destruct (GetDexOptNeeded_query target profile_changed a Hl) as (a1 & E1 & K).
  rewrite E in E1. injection E1 as Hcode <-.
  pose proof (calm_view _ _ _ K) as Hv.
  assert (live a') as Hl' by (by eapply view_live).
  split; [by apply view_disk|].
  rewrite (query_result _ _ _ (GetDexOptNeeded_query target profile_changed) Hl').
  rewrite !(query_result _ _ _ GetBestInfo_query Hl'), !(query_result _ _ _ GetBestInfo_query Hl).
  rewrite !(query_result _ _ _ IsUpToDate_query Hl'), !(query_result _ _ _ IsUpToDate_query Hl).
  rewrite Hv, Hcode.
  split; [done|]. split; [done|]. split; [done|].
  intros r. by rewrite !Status_result, (view_status r _ _ Hv).
Qed.
End Proofs.

(** C8 (amended). The selection is a function of the dex directory's
    writability, the two candidates' statuses and the availability of the
    original dex files: two evaluations that agree on these select the same
    candidate, and so does a repeated call on one assistant. *)
Theorem GetBestInfo_deterministic `{CompilerFilter} `{InstructionSets}
    (rt1 rt2 : Runtime) (a1 a2 : OatFileAssistant) :
  live a1 →
  live a2 →
  dex_parent_writable_ a1 = dex_parent_writable_ a2 →
  result (Status rt1 odex_ref) a1 = result (Status rt2 odex_ref) a2 →
  result (Status rt1 oat_ref) a1 = result (Status rt2 oat_ref) a2 →
  result (HasOriginalDexFiles rt1) a1 = result (HasOriginalDexFiles rt2) a2 →
  (∃ r, result (GetBestInfo rt1) a1 = Some r ∧ result (GetBestInfo rt2) a2 = Some r)
  ∧ (∀ r a1', GetBestInfo rt1 a1 = Some (r, a1') →
              result (GetBestInfo rt1) a1' = Some r).
Proof.
  intros Hl1 Hl2 Hw Hodex Hoat Hdex.
  rewrite !Status_result in Hodex, Hoat by done.
  rewrite !HasOriginalDexFiles_result in Hdex by done.
  injection Hodex as Hodex. injection Hoat as Hoat. injection Hdex as Hdex.
  split.
  - eexists. split; [by apply GetBestInfo_result|].
    rewrite GetBestInfo_result by done. by rewrite Hw, Hodex, Hoat, Hdex.
  - intros r a1' E.
    destruct (GetBestInfo_query rt1 a1 Hl1) as (a1'' & E' & K).
    rewrite E in E'. injection E' as -> <-.
    rewrite (query_result rt1 _ _ _ (GetBestInfo_query rt1)).
    + by rewrite (calm_view _ _ _ K).
    + eapply view_live; [apply K|done].
Qed.

(** ** The model at work *)

Section Evaluation.

Import Fixture.

#[local] Existing Instance filters.
#[local] Existing Instance isas.

Lemma runtime_opens_as_requested value sc : opens_as_requested (runtime value sc).
Proof.
  intros d name dex_location f. simpl.
  destruct (is_regular d name); [|done].
  destruct (sc_oat_files sc !! name); [|done].
  by intros [= <-].
Qed.

Lemma fresh_live : live fresh.
Proof. split; reflexivity. Qed.

Lemma fresh_settled : settled fresh.
Proof. intros []; vm_compute; discriminate. Qed.

(** The scenarios of the specification on an up-to-date odex file. *)
Example fresh_is_up_to_date :
  result (Status rt_fresh odex_ref) fresh = Some kOatUpToDate
  ∧ result (OatFileInfo_GetDexOptNeeded rt_fresh odex_ref speed false) fresh
    = Some kNoDexOptNeeded.
Proof. split; vm_compute; reflexivity. Qed.

Example image_changed_needs_boot_image :
  result (Status (rt_image_changed (Some [43981%Z])) odex_ref)
    (image_changed (Some [43981%Z])) = Some kOatBootImageOutOfDate
  ∧ result (OatFileInfo_GetDexOptNeeded (rt_image_changed (Some [43981%Z]))
              odex_ref speed false)
      (image_changed (Some [43981%Z])) = Some kDex2OatForBootImage.
Proof. split; vm_compute; reflexivity. Qed.

(** *** The theorems on the up-to-date odex file *)

Lemma GivenOatFileStatus_gates_witness :
  live fresh ∧ ∃ st, result (GivenOatFileStatus rt_fresh fresh_file) fresh = Some st.
Proof.
  split; [exact fresh_live|].
  destruct (GivenOatFileStatus_gates rt_fresh fresh fresh_file fresh_live)
    as (st & _ & _ & _ & Hst & _).
  exists st. exact Hst.
Defined.

Lemma boot_image_gate_witness :
  live fresh
  ∧ DependsOnImageChecksum (GetCompilerFilter fresh_file) = true
  ∧ ∃ st, result (GivenOatFileStatus rt_fresh fresh_file) fresh = Some st.
Proof.
  split; [exact fresh_live|]. split; [reflexivity|].
  assert (∀ req, result (GetRequiredDexChecksums rt_fresh) fresh = Some (Some req) →
                 ¬ checksum_lists_differ req
                     (candidate_checksums rt_fresh (dex_location_ fresh) fresh_file))
    as Hsum.
  { intros req Hreq. vm_compute in Hreq. injection Hreq as <-.
    apply lists_agree. reflexivity. }
  destruct (boot_image_gate rt_fresh fresh fresh_file fresh_live eq_refl Hsum eq_refl)
    as (st & _ & _ & Hst & _).
  exists st. exact Hst.
Defined.

Lemma Status_vdex_fallback_witness :
  live fresh
  ∧ status_attempted_ (info oat_ref fresh) = false
  ∧ result (GetFile rt_fresh oat_ref) fresh = Some None
  ∧ ∃ st, result (Status rt_fresh oat_ref) fresh = Some st.
Proof.
  assert (result (GetFile rt_fresh oat_ref) fresh = Some None) as Hfile
    by (vm_compute; reflexivity).
  split; [exact fresh_live|]. split; [reflexivity|]. split; [exact Hfile|].
  destruct (Status_vdex_fallback rt_fresh fresh oat_ref fresh_live eq_refl Hfile)
    as (st & _ & Hst & _).
  exists st. exact Hst.
Defined.

Lemma GetDexOptNeeded_first_match_witness :
  live fresh
  ∧ ∃ d, result (OatFileInfo_GetDexOptNeeded rt_fresh odex_ref speed false) fresh = Some d.
Proof.
  split; [exact fresh_live|].
  destruct (GetDexOptNeeded_first_match rt_fresh fresh odex_ref speed false fresh_live)
    as (file & st & has_dex & _ & _ & _ & _ & Hd).
  eexists. exact Hd.
Defined.

Lemma GetBestInfo_policy_witness :
  live fresh ∧ ∃ r, result (GetBestInfo rt_fresh) fresh = Some r.
Proof.
  split; [exact fresh_live|].
  destruct (GetBestInfo_policy rt_fresh fresh fresh_live)
    as (odex_status & oat_status & has_dex & _ & _ & _ & Hr & _).
  eexists. exact Hr.
Defined.

Lemma MakeUpToDate_up_to_date_witness :
  live fresh
  ∧ GetRuntimeCompilerFilterOption rt_fresh = Some speed
  ∧ result (GetBestInfo rt_fresh) fresh = Some odex_ref
  ∧ result (Status rt_fresh odex_ref) fresh = Some kOatUpToDate
  ∧ result (CompilerFilterIsOkay rt_fresh odex_ref speed false) fresh = Some true
  ∧ ∃ a', MakeUpToDate rt_fresh false fresh = Some (kUpdateSucceeded, a')
          ∧ disk a' = disk fresh.
Proof.
  assert (GetRuntimeCompilerFilterOption rt_fresh = Some speed) as H1
    by (vm_compute; reflexivity).
  assert (result (GetBestInfo rt_fresh) fresh = Some odex_ref) as H2
    by (vm_compute; reflexivity).
  assert (result (Status rt_fresh odex_ref) fresh = Some kOatUpToDate) as H3
    by (vm_compute; reflexivity).
  assert (result (CompilerFilterIsOkay rt_fresh odex_ref speed false) fresh = Some true)
    as H4 by (vm_compute; reflexivity).
  split; [exact fresh_live|]. split; [exact H1|]. split; [exact H2|].
  split; [exact H3|]. split; [exact H4|].
  exact (MakeUpToDate_up_to_date rt_fresh fresh false speed odex_ref
           fresh_live H1 H2 H3 H4).
Defined.

Lemma GetBestInfo_deterministic_witness :
  live fresh
  ∧ ∃ r, result (GetBestInfo rt_fresh) fresh = Some r.
Proof.
  split; [exact fresh_live|].
  destruct (GetBestInfo_deterministic rt_fresh rt_fresh fresh fresh
              fresh_live fresh_live eq_refl eq_refl eq_refl eq_refl)
    as [(r & Hr & _) _].
  exists r. exact Hr.
Defined.

Lemma GetBestOatFile_no_unrelocated_executable_witness :
  opens_as_requested rt_fresh
  ∧ live fresh
  ∧ settled fresh
  ∧ ∃ res a', GetBestOatFile rt_fresh fresh = Some (res, a').
Proof.
  split; [apply runtime_opens_as_requested|]. split; [exact fresh_live|].
  split; [exact fresh_settled|].
  destruct (GetBestOatFile_no_unrelocated_executable rt_fresh fresh
              (runtime_opens_as_requested _ _) fresh_live fresh_settled)
    as (r & st & file & res & a' & _ & _ & _ & Hres & _).
  exists res, a'. exact Hres.
Defined.

Lemma GetDexOptNeeded_public_code_witness :
  live fresh
  ∧ ∃ code, result (GetDexOptNeeded rt_fresh speed false) fresh = Some code.
Proof.
  split; [exact fresh_live|].
  destruct (GetDexOptNeeded_public_code rt_fresh fresh speed false fresh_live)
    as (r & d & _ & _ & Hcode & _).
  eexists. exact Hcode.
Defined.

(** *** Where the code departs from the specification *)

(** C4. Dex2Oat succeeds, closing the vdex output fails: regeneration returns
    kUpdateFailed having unlinked the vdex file only; the oat file it
    created is still on the disk. *)
Theorem GenerateOatFileNoChecks_leaves_oat_file :
  result (GenerateOatFileNoChecks rt_close_fails odex_ref speed) close_fails
    = Some kUpdateFailed
  ∧ disk_after (GenerateOatFileNoChecks rt_close_fails odex_ref speed) close_fails
      odex_vdex = Some None
  ∧ disk_after (GenerateOatFileNoChecks rt_close_fails odex_ref speed) close_fails
      odex = Some (Some (Reg 420 "")).
Proof. repeat split; vm_compute; reflexivity. Qed.

(** C7, as stated, fails: the best candidate is up to date, but it was
    compiled with a profile and for a lesser filter than the runtime's
    target, so [MakeUpToDate] runs dex2oat, which here fails, and the
    up-to-date odex file is gone. *)
Lemma MakeUpToDate_regenerates_up_to_date :
  result (GetBestInfo rt_profiled) profiled = Some odex_ref
  ∧ result (Status rt_profiled odex_ref) profiled = Some kOatUpToDate
  ∧ disk profiled !! odex = Some (Reg 420 "oat")
  ∧ result (MakeUpToDate rt_profiled true) profiled = Some kUpdateFailed
  ∧ disk_after (MakeUpToDate rt_profiled true) profiled odex = Some None.
Proof. repeat split; vm_compute; reflexivity. Qed.

(** C8, as stated, fails: two assistants with the same writability and the
    same two statuses select different candidates, because only one of them
    has the original dex files. *)
Lemma GetBestInfo_depends_on_original_dex :
  dex_parent_writable_ (image_changed (Some [43981%Z]))
    = dex_parent_writable_ (image_changed None)
  ∧ result (Status (rt_image_changed (Some [43981%Z])) odex_ref)
      (image_changed (Some [43981%Z]))
    = result (Status (rt_image_changed None) odex_ref) (image_changed None)
  ∧ result (Status (rt_image_changed (Some [43981%Z])) oat_ref)
      (image_changed (Some [43981%Z]))
    = result (Status (rt_image_changed None) oat_ref) (image_changed None)
  ∧ result (GetBestInfo (rt_image_changed (Some [43981%Z])))
      (image_changed (Some [43981%Z])) = Some oat_ref
  ∧ result (GetBestInfo (rt_image_changed None)) (image_changed None) = Some odex_ref.
Proof. repeat split; vm_compute; reflexivity. Qed.

(** C10, as stated, fails: with nothing compiled and the original dex files
    at hand, the decision is kDex2OatFromScratch for the odex location (dex
    directory writable) and for the oat location (not writable) alike, and
    the public code is the same for both, whatever the enumerators' values. *)
Lemma GetDexOptNeeded_sign_hides_location :
  (dex_parent_writable_ (uncompiled ordinal true) = true
   ∧ dex_parent_writable_ (uncompiled ordinal false) = false)
  ∧ ∀ value,
      result (GetBestInfo (rt_uncompiled value true)) (uncompiled value true)
        = Some odex_ref
      ∧ result (GetBestInfo (rt_uncompiled value false)) (uncompiled value false)
        = Some oat_ref
      ∧ result (GetDexOptNeeded (rt_uncompiled value true) speed false)
          (uncompiled value true) = Some (value kDex2OatFromScratch)
      ∧ result (GetDexOptNeeded (rt_uncompiled value false) speed false)
          (uncompiled value false) = Some (value kDex2OatFromScratch).
Proof.
  split; [split; vm_compute; reflexivity|].
  intros value. repeat split; vm_compute; reflexivity.
Qed.

End Evaluation.

(** ** The further properties at work *)

Section Further.

Import Fixture Scenes.

#[local] Existing Instance filters.
#[local] Existing Instance isas.

Lemma Status_computed_once_witness :
  live fresh
  ∧ ∃ st a', Status rt_fresh odex_ref fresh = Some (st, a')
             ∧ Status rt_fresh odex_ref a' = Some (st, a').
Proof.
  split; [exact fresh_live|].
  destruct (Status rt_fresh odex_ref fresh) as [[st a']|] eqn:E;
    [|vm_compute in E; discriminate E].
  exists st, a'. split; [reflexivity|].
  exact (Status_computed_once rt_fresh odex_ref fresh a' st fresh_live E).
Defined.

Lemma required_checksums_not_reread_witness :
  live fresh
  ∧ ∃ required a1,
      GetRequiredDexChecksums rt_fresh fresh = Some (required, a1)
      ∧ result (GetRequiredDexChecksums rt_fresh)
          (set_disk ∅ (set_info odex_ref (with_reset (info odex_ref a1)) a1))
        = Some required.
Proof.
  split; [exact fresh_live|].
  destruct (GetRequiredDexChecksums rt_fresh fresh) as [[required a1]|] eqn:E;
    [|vm_compute in E; discriminate E].
  exists required, a1. split; [reflexivity|].
  exact (proj1 (required_checksums_not_reread rt_fresh fresh a1 required ∅ odex_ref
                  (with_reset (info odex_ref a1)) fresh_live E)).
Defined.

Lemma GetImageInfo_not_retried_witness :
  ∃ image a1,
    GetImageInfo rt_fresh fresh = Some (image, a1)
    ∧ GetImageInfo rt_fresh (set_disk ∅ a1) = Some (image, set_disk ∅ a1).
Proof.
  destruct (GetImageInfo rt_fresh fresh) as [[image a1]|] eqn:E;
    [|vm_compute in E; discriminate E].
  exists image, a1. split; [reflexivity|].
  exact (GetImageInfo_not_retried rt_fresh fresh a1 image ∅ E).
Defined.

Lemma required_checksums_source_witness :
  live fresh
  ∧ required_dex_checksums_attempted_ fresh = false
  ∧ result (HasOriginalDexFiles rt_fresh) fresh = Some true.
Proof.
  split; [exact fresh_live|]. split; [reflexivity|].
  pose proof (required_checksums_source rt_fresh fresh fresh_live eq_refl) as Hsrc.
  change (GetMultiDexChecksums rt_fresh (disk fresh) (dex_location_ fresh))
    with (Some [43981%Z]) in Hsrc.
  exact (proj1 Hsrc).
Defined.

Lemma stripped_live : live stripped.
Proof. split; reflexivity. Qed.

Lemma no_required_checksums_no_mismatch_witness :
  live stripped
  ∧ status_attempted_ (info odex_ref stripped) = false
  ∧ result (GetRequiredDexChecksums rt_stripped) stripped = Some None
  ∧ result (Status rt_stripped odex_ref) stripped ≠ Some kOatDexOutOfDate.
Proof.
  split; [exact stripped_live|]. split; [reflexivity|].
  assert (result (GetRequiredDexChecksums rt_stripped) stripped = Some None) as Hreq
    by (vm_compute; reflexivity).
  split; [exact Hreq|].
  exact (no_required_checksums_no_mismatch rt_stripped stripped odex_ref
           stripped_live eq_refl Hreq).
Defined.

Lemma up_to_date_file_is_handed_over_witness :
  live fresh
  ∧ (∀ r, status_attempted_ (info r fresh) = false)
  ∧ result (IsUpToDate rt_fresh) fresh = Some true
  ∧ ∃ r f a', result (GetBestInfo rt_fresh) fresh = Some r
              ∧ result (GetFile rt_fresh r) fresh = Some (Some f)
              ∧ GetBestOatFile rt_fresh fresh = Some (Some f, a').
Proof.
  assert (∀ r, status_attempted_ (info r fresh) = false) as Hfresh
    by (intros []; reflexivity).
  assert (result (IsUpToDate rt_fresh) fresh = Some true) as Hup
    by (vm_compute; reflexivity).
  split; [exact fresh_live|]. split; [exact Hfresh|]. split; [exact Hup|].
  exact (up_to_date_file_is_handed_over rt_fresh fresh fresh_live Hfresh Hup).
Defined.

Lemma handed_over_file_is_gone_witness :
  live fresh
  ∧ ∃ f a', GetBestOatFile rt_fresh fresh = Some (Some f, a')
            ∧ ∃ r, file_released_ (info r a') = true
                   ∧ GetFile rt_fresh r a' = None.
Proof.
  split; [exact fresh_live|].
  destruct (GetBestOatFile rt_fresh fresh) as [[[f|] a']|] eqn:E;
    [|vm_compute in E; discriminate E..].
  exists f, a'. split; [reflexivity|].
  destruct (handed_over_file_is_gone rt_fresh fresh a' f speed false fresh_live E)
    as (r & _ & Hreleased & Hgone & _).
  exists r. split; [exact Hreleased|exact Hgone].
Defined.

Lemma configured_opens_as_requested I dex2oat_enabled boot_images sc :
  opens_as_requested (configured I dex2oat_enabled boot_images sc).
Proof.
  intros d name dex_location f. simpl.
  destruct (is_regular d name); [|done].
  destruct (sc_oat_files sc !! name); [|done].
  by intros [= <-].
Qed.

Lemma foreign_isa_never_executable_witness :
  opens_as_requested rt_foreign
  ∧ @isa_eqb isas2 x86 (@kRuntimeISA isas2) = false
  ∧ ∃ res a',
      GetBestOatFile rt_foreign
        (new_OatFileAssistant rt_foreign (with_odex source_only) dex x86 true)
      = Some (res, a')
      ∧ is_executable res = false.
Proof.
  split; [apply configured_opens_as_requested|]. split; [reflexivity|].
  exact (foreign_isa_never_executable rt_foreign (with_odex source_only) dex x86 true
           (configured_opens_as_requested _ _ _ _) eq_refl).
Defined.

Lemma DexLocationToOdexNames_shape_witness :
  has_char "/" "baz" = false
  ∧ has_char "/" "jar" = false
  ∧ has_char "." "jar" = false
  ∧ DexLocationToOdexFilename "/foo/bar/baz.jar" tt = Some "/foo/bar/oat/arm/baz.odex".
Proof.
  split; [reflexivity|]. split; [reflexivity|]. split; [reflexivity|].
  exact (proj2 (DexLocationToOdexNames_shape "/foo/bar" "baz" "jar" tt
                  eq_refl eq_refl eq_refl)).
Defined.

Lemma missing_live : live missing.
Proof. split; reflexivity. Qed.

Lemma GenerateOatFileNoChecks_early_exit_witness :
  filename_provided_ (info odex_ref missing) = false
  ∧ GenerateOatFileNoChecks rt_fresh odex_ref speed missing
    = Some (kUpdateNotAttempted, missing).
Proof.
  split; [reflexivity|].
  exact (GenerateOatFileNoChecks_early_exit rt_fresh odex_ref speed missing
           (or_intror (or_introl eq_refl))).
Defined.



Lemma no_dex2oat_live : live no_dex2oat.
Proof. split; reflexivity. Qed.

Lemma MakeUpToDate_without_dex2oat_witness :
  live no_dex2oat
  ∧ IsDex2OatEnabled rt_no_dex2oat = false
  ∧ ∃ res a', MakeUpToDate rt_no_dex2oat false no_dex2oat = Some (res, a')
              ∧ disk a' = disk no_dex2oat
              ∧ res ≠ kUpdateFailed.
Proof.
  split; [exact no_dex2oat_live|]. split; [reflexivity|].
  destruct (MakeUpToDate_without_dex2oat rt_no_dex2oat no_dex2oat false
              no_dex2oat_live eq_refl) as (res & a' & E & Hdisk & Hres & _).
  exists res, a'. split; [exact E|]. split; [exact Hdisk|exact Hres].
Defined.

Lemma unresolved_location_is_inert_witness :
  realpath rt_fresh ∅ dex = None
  ∧ ∃ a', GetBestOatFile rt_fresh (new_OatFileAssistant rt_fresh ∅ dex tt true)
          = Some (None, a').
Proof.
  split; [reflexivity|].
  exact (proj1 (proj2 (proj2 (unresolved_location_is_inert rt_fresh ∅ dex tt true false
                                eq_refl)))).
Defined.

Lemma new_OatFileAssistant_locations_witness :
  realpath rt_fresh (with_odex source_only) dex
  = Some ("/data/app" +:+ "/" +:+ "base" +:+ "." +:+ "apk")
  ∧ has_char "/" "base" = false
  ∧ has_char "/" "apk" = false
  ∧ has_char "." "apk" = false
  ∧ result (Filename odex_ref) fresh = Some (Some odex).
Proof.
  split; [reflexivity|]. split; [reflexivity|]. split; [reflexivity|].
  split; [reflexivity|].
  exact (proj1 (proj2 (proj2 (new_OatFileAssistant_locations rt_fresh
                                (with_odex source_only) dex tt true
                                "/data/app" "base" "apk"
                                eq_refl eq_refl eq_refl eq_refl)))).
Defined.


Lemma GetStatusDump_layout_witness :
  live fresh
  ∧ result (GetStatusDump rt_fresh) fresh
    = Some "/data/app/oat/arm/base.odex[status=kOatUpToDate, compilation_filter=speed]".
Proof.
  split; [exact fresh_live|].
  destruct (GetStatusDump_layout rt_fresh fresh fresh_live)
    as (oat_status & odex_status & oat_file & odex_file & Hoat & Hodex & Hfo & Hfx
        & _ & Hdump).
  vm_compute in Hoat, Hodex, Hfo, Hfx.
  injection Hoat as <-. injection Hodex as <-. injection Hfo as <-. injection Hfx as <-.
  destruct Hdump as (dump & a' & E & _ & Hd & _); [done|reflexivity|].
  unfold result. rewrite E. subst dump. reflexivity.
Defined.

Lemma append_inj_r (s1 s2 t : string) : s1 +:+ t = s2 +:+ t → s1 = s2.
Proof.
  intros E.
  assert (String.length s1 = String.length s2) as Hlen.
  { apply (f_equal String.length) in E. rewrite !append_length in E. lia. }
  revert s2 E Hlen. induction s1 as [|x s1 IH]; intros [|y s2] E Hlen; try done.
  rewrite !append_cons in E. injection E as -> E. f_equal. apply IH; [done|].
  simpl in Hlen. lia.
Qed.

Lemma to_string_inj (a b : Z) : to_string a = to_string b → a = b.
Proof.
  unfold to_string. intros E.
  assert (∀ z, Z.to_int z ≠ Decimal.Pos Decimal.Nil
               ∧ Z.to_int z ≠ Decimal.Neg Decimal.Nil) as Hnonnil.
  { intros [|p|p]; simpl; split; try done; intros [= E'];
      by apply Stdlib.Numbers.DecimalPos.Unsigned.to_uint_nonnil in E'. }
  apply (f_equal NilZero.int_of_string) in E.
  rewrite !NilZero.isi in E by apply Hnonnil.
  injection E as E. by apply Stdlib.Numbers.DecimalZ.to_int_inj.
Qed.

Lemma multidex_names_distinct (name : string) (i j : nat) :
  GetMultiDexLocation rt_fresh i name = GetMultiDexLocation rt_fresh j name → i = j.
Proof.
  assert (∀ k, name ≠ name +:+ ":classes" +:+ to_string (Z.of_nat (S k)) +:+ ".dex")
    as Hne.
  { intros k E. symmetry in E. by apply append_ne in E. }
  destruct i as [|i], j as [|j]; simpl; intros E; [done|by apply Hne in E| |].
  - symmetry in E. by apply Hne in E.
  - apply (inj (String.app name)), (inj (String.app ":classes")), append_inj_r,
      to_string_inj in E. lia.
Qed.

Lemma LoadDexFiles_all_or_nothing_witness :
  (∀ i j, GetMultiDexLocation rt_fresh i dex = GetMultiDexLocation rt_fresh j dex → i = j)
  ∧ size (oat_dex_files multidex) < 3
  ∧ LoadDexFiles rt_fresh Z open_dex 3 multidex dex = Some [43981%Z; 48879%Z].
Proof.
  split; [apply multidex_names_distinct|].
  assert (size (oat_dex_files multidex) < 3) as Hsize.
  { vm_compute. lia. }
  split; [exact Hsize|].
  destruct (LoadDexFiles_all_or_nothing rt_fresh Z open_dex multidex dex 3
              (multidex_names_distinct dex) Hsize) as (dex_files & E & _).
  rewrite E. f_equal. vm_compute in E. injection E as <-. reflexivity.
Defined.

Lemma queries_are_repeatable_witness :
  live fresh
  ∧ ∃ code a',
      GetDexOptNeeded rt_fresh speed false fresh = Some (code, a')
      ∧ disk a' = disk fresh
      ∧ result (GetDexOptNeeded rt_fresh speed false) a' = Some code.
Proof.
  split; [exact fresh_live|].
  destruct (GetDexOptNeeded rt_fresh speed false fresh) as [[code a']|] eqn:E;
    [|vm_compute in E; discriminate E].
  exists code, a'. split; [reflexivity|].
  destruct (queries_are_repeatable rt_fresh fresh a' speed false code fresh_live E)
    as (Hdisk & Hcode & _).
  split; [exact Hdisk|exact Hcode].
Defined.

End Further.
